(** * Sensor geometry engine of 3d-map-cesium

    A shallow embedding of the orientation solvers, the frustum outline
    generator, the solid-frustum component and the shadow-camera synthesizer,
    together with the part of the Cesium math library they call.

    Numbers.  JavaScript numbers are modelled by the real numbers of the
    Standard Library: [Math.sin], [Math.cos], [Math.tan], [Math.sqrt] and
    [Math.PI] are [sin], [cos], [tan], [sqrt] and [PI].  Rounding is not
    modelled.  Where the code tests for non-finite values (the validation of
    FrustumVisualizer) or divides by a value that can be zero (the aspect
    ratio of the shadow frustum), the type [number] adds the three non-finite
    values of IEEE arithmetic to the reals.

    The exact model and the code part ways where a double is not the real
    it stands for: [cos (toRadians 90)] is 0 here and about 6.1e-17 in the
    code, a tangent of a very small angle underflows to 0 in the code and is
    positive here, and [(azimuth % 360) + 360] is rounded in the code.  The
    main statements are therefore about vectors, inequalities with a margin
    and the structure of the computation, which both share, and not about
    what happens at one exact angle.

    Exceptions.  Code that can throw lives in the error monad [result];
    [try_catch] is the [try { ... } catch { ... }] of the source. *)

From Stdlib Require Import Reals Lra Lia Psatz RNsatz List Ascii String ZArith Bool.
Import ListNotations.
Local Open Scope R_scope.

(** ** JavaScript values *)

Module JS.

(** A JavaScript number: a finite value, or one of the non-finite ones. *)
Inductive number : Type :=
| Fin (r : R)
| PosInf
| NegInf
| NaN.

(** [Number.isFinite]. *)
Definition isFinite (x : number) : bool :=
  match x with Fin _ => true | _ => false end.

Definition Rltb (a b : R) : bool := if Rlt_dec a b then true else false.
Definition Rleb (a b : R) : bool := if Rle_dec a b then true else false.
Definition Reqb (a b : R) : bool := if Req_dec_T a b then true else false.

(** [a > b] and [a < b] on numbers: false as soon as one side is NaN. *)
Definition gt (a b : number) : bool :=
  match a, b with
  | Fin x, Fin y => Rltb y x
  | PosInf, Fin _ | PosInf, NegInf | Fin _, NegInf => true
  | _, _ => false
  end.

Definition lt (a b : number) : bool := gt b a.

(** [a / b] for finite operands, with the IEEE results of a division by
    zero. *)
Definition div (a b : R) : number :=
  if Req_dec_T b 0 then
    if Rlt_dec 0 a then PosInf
    else if Rlt_dec a 0 then NegInf
    else NaN
  else Fin (a / b).

(** Truncation towards zero, and the remainder operator [a % b] (the sign of
    the result follows the dividend). *)
Definition trunc (r : R) : Z :=
  if Rle_dec 0 r then Int_part r else (- Int_part (- r))%Z.

Definition rem (a b : R) : R := a - b * IZR (trunc (a / b)).

(** [a ?? b]. *)
Definition nullish {A : Type} (a : option A) (b : A) : A :=
  match a with Some v => v | None => b end.

(** Computations that may throw. *)
Inductive result (A : Type) : Type :=
| Ok (a : A)
| Throw (msg : string).
Arguments Ok {A} a.
Arguments Throw {A} msg.

Definition bind {A B : Type} (c : result A) (k : A -> result B) : result B :=
  match c with
  | Ok a => k a
  | Throw m => Throw m
  end.

(** [try { body } catch { handler }]. *)
Definition try_catch {A : Type} (body : result A) (handler : string -> A) : A :=
  match body with
  | Ok a => a
  | Throw m => handler m
  end.

End JS.

Notation "x <- c ;; k" := (JS.bind c (fun x => k))
  (at level 61, c at next level, right associativity).

Import JS.

(** ** The Cesium math library *)

Module CesiumMath.

Definition EPSILON10 : R := 1 / 10000000000.

Definition RADIANS_PER_DEGREE : R := PI / 180.

Definition toRadians (degrees : R) : R := degrees * RADIANS_PER_DEGREE.

End CesiumMath.

Module Cartesian3.

Record t : Type := mk { x : R; y : R; z : R }.

Definition ZERO : t := mk 0 0 0.

Definition add (l r : t) : t := mk (x l + x r) (y l + y r) (z l + z r).

Definition negate (c : t) : t := mk (- x c) (- y c) (- z c).

Definition multiplyByScalar (c : t) (s : R) : t :=
  mk (x c * s) (y c * s) (z c * s).

Definition cross (l r : t) : t :=
  mk (y l * z r - z l * y r)
     (z l * x r - x l * z r)
     (x l * y r - y l * x r).

Definition magnitudeSquared (c : t) : R :=
  x c * x c + y c * y c + z c * z c.

Definition magnitude (c : t) : R := sqrt (magnitudeSquared c).

(** [Cartesian3.normalize] divides by the magnitude and throws a
    DeveloperError when a component of the result is NaN, which for finite
    input is the case of the zero vector. *)
Definition normalize (c : t) : result t :=
  let m := magnitude c in
  if Req_dec_T m 0 then Throw "normalized result is not a number"
  else Ok (mk (x c / m) (y c / m) (z c / m)).

End Cartesian3.

Module Quaternion.

Record t : Type := mk { x : R; y : R; z : R; w : R }.

Definition IDENTITY : t := mk 0 0 0 1.

(** [Quaternion.equals]: componentwise [===]. *)
Definition equals (l r : t) : bool :=
  Reqb (x l) (x r) && Reqb (y l) (y r) && Reqb (z l) (z r) && Reqb (w l) (w r).

(** [Quaternion.fromAxisAngle]: the axis is normalized first. *)
Definition fromAxisAngle (axis : Cartesian3.t) (angle : R) : result t :=
  let halfAngle := angle / 2 in
  let s := sin halfAngle in
  a <- Cartesian3.normalize axis ;;
  Ok (mk (Cartesian3.x a * s) (Cartesian3.y a * s) (Cartesian3.z a * s)
         (cos halfAngle)).

End Quaternion.

Module Matrix3.

(** A 3x3 matrix, stored by columns as Cesium does: [cIrJ] is the entry of
    column I and row J. *)
Record t : Type := mk {
  c0r0 : R; c0r1 : R; c0r2 : R;
  c1r0 : R; c1r1 : R; c1r2 : R;
  c2r0 : R; c2r1 : R; c2r2 : R
}.

(** [new Matrix3()]. *)
Definition zero : t := mk 0 0 0 0 0 0 0 0 0.

Definition getColumn (m : t) (index : nat) : Cartesian3.t :=
  match index with
  | O => Cartesian3.mk (c0r0 m) (c0r1 m) (c0r2 m)
  | S O => Cartesian3.mk (c1r0 m) (c1r1 m) (c1r2 m)
  | _ => Cartesian3.mk (c2r0 m) (c2r1 m) (c2r2 m)
  end.

Definition setColumn (m : t) (index : nat) (v : Cartesian3.t) : t :=
  let '(Cartesian3.mk a b c) := v in
  match index with
  | O => mk a b c (c1r0 m) (c1r1 m) (c1r2 m) (c2r0 m) (c2r1 m) (c2r2 m)
  | S O => mk (c0r0 m) (c0r1 m) (c0r2 m) a b c (c2r0 m) (c2r1 m) (c2r2 m)
  | _ => mk (c0r0 m) (c0r1 m) (c0r2 m) (c1r0 m) (c1r1 m) (c1r2 m) a b c
  end.

(** [matrix[Matrix3.getElementIndex(column, row)]]. *)
Definition getElement (m : t) (column row : nat) : R :=
  match column, row with
  | O, O => c0r0 m | O, S O => c0r1 m | O, _ => c0r2 m
  | S O, O => c1r0 m | S O, S O => c1r1 m | S O, _ => c1r2 m
  | _, O => c2r0 m | _, S O => c2r1 m | _, _ => c2r2 m
  end.

Definition multiplyByVector (m : t) (v : Cartesian3.t) : Cartesian3.t :=
  let vX := Cartesian3.x v in
  let vY := Cartesian3.y v in
  let vZ := Cartesian3.z v in
  Cartesian3.mk (c0r0 m * vX + c1r0 m * vY + c2r0 m * vZ)
                (c0r1 m * vX + c1r1 m * vY + c2r1 m * vZ)
                (c0r2 m * vX + c1r2 m * vY + c2r2 m * vZ).

Definition fromQuaternion (q : Quaternion.t) : t :=
  let x := Quaternion.x q in
  let y := Quaternion.y q in
  let z := Quaternion.z q in
  let w := Quaternion.w q in
  let x2 := x * x in
  let xy := x * y in
  let xz := x * z in
  let xw := x * w in
  let y2 := y * y in
  let yz := y * z in
  let yw := y * w in
  let z2 := z * z in
  let zw := z * w in
  let w2 := w * w in
  let m00 := x2 - y2 - z2 + w2 in
  let m01 := 2 * (xy - zw) in
  let m02 := 2 * (xz + yw) in
  let m10 := 2 * (xy + zw) in
  let m11 := - x2 + y2 - z2 + w2 in
  let m12 := 2 * (yz - xw) in
  let m20 := 2 * (xz - yw) in
  let m21 := 2 * (yz + xw) in
  let m22 := - x2 - y2 + z2 + w2 in
  mk m00 m10 m20 m01 m11 m21 m02 m12 m22.

End Matrix3.

(** [Quaternion.fromRotationMatrix], after the two modules it needs. *)
Module QuaternionOfMatrix.

Definition next (i : nat) : nat :=
  match i with O => 1%nat | S O => 2%nat | _ => 0%nat end.

Definition fromRotationMatrix (matrix : Matrix3.t) : Quaternion.t :=
  let m00 := Matrix3.c0r0 matrix in
  let m11 := Matrix3.c1r1 matrix in
  let m22 := Matrix3.c2r2 matrix in
  let trace := m00 + m11 + m22 in
  if Rltb 0 trace then
    let root := sqrt (trace + 1) in
    let w := (1 / 2) * root in
    let root := (1 / 2) / root in
    Quaternion.mk
      ((Matrix3.c1r2 matrix - Matrix3.c2r1 matrix) * root)
      ((Matrix3.c2r0 matrix - Matrix3.c0r2 matrix) * root)
      ((Matrix3.c0r1 matrix - Matrix3.c1r0 matrix) * root)
      w
  else
    let i := if Rltb m00 m11 then 1%nat else 0%nat in
    let i := if Rltb m00 m22 && Rltb m11 m22 then 2%nat else i in
    let j := next i in
    let k := next j in
    let root := sqrt (Matrix3.getElement matrix i i
                      - Matrix3.getElement matrix j j
                      - Matrix3.getElement matrix k k + 1) in
    let qi := (1 / 2) * root in
    let root := (1 / 2) / root in
    let w := (Matrix3.getElement matrix k j
              - Matrix3.getElement matrix j k) * root in
    let qj := (Matrix3.getElement matrix j i
               + Matrix3.getElement matrix i j) * root in
    let qk := (Matrix3.getElement matrix k i
               + Matrix3.getElement matrix i k) * root in
    let quat (n : nat) : R :=
      if Nat.eqb n i then qi else if Nat.eqb n j then qj else qk in
    Quaternion.mk (- quat 0%nat) (- quat 1%nat) (- quat 2%nat) w.

End QuaternionOfMatrix.

(** [Transforms.eastNorthUpToFixedFrame] followed by [Matrix4.getMatrix3]:
    the rotation whose columns are the East, North and Up axes of the local
    tangent frame, in Earth-fixed coordinates.  The components below receive
    this matrix as a value; [eastNorthUp] is the basis Cesium computes for a
    point of the ellipsoid surface at geodetic latitude [lat] and longitude
    [lon] (degrees), away from the poles. *)
Module Transforms.

Definition eastNorthUp (lat lon : R) : Matrix3.t :=
  let phi := CesiumMath.toRadians lat in
  let lambda := CesiumMath.toRadians lon in
  Matrix3.mk
    (- sin lambda) (cos lambda) 0
    (- sin phi * cos lambda) (- sin phi * sin lambda) (cos phi)
    (cos phi * cos lambda) (cos phi * sin lambda) (sin phi).

End Transforms.

(** ** SensorFrustum: orientation solver of the outline (Variant A) and the
    outline generator *)

Module SensorFrustum.

Definition DEFAULT_RANGE : R := 1200.

Definition normalizedAzimuth (azimuth : R) : R :=
  JS.rem (JS.rem azimuth 360 + 360) 360.

Definition normalizedElevation (elevation : R) : R := elevation.

Definition localDirection (azimuthRad elevationRad : R) : Cartesian3.t :=
  Cartesian3.mk (sin azimuthRad * cos elevationRad)
                (cos azimuthRad * cos elevationRad)
                (sin elevationRad).

Record Frame : Type := mkFrame {
  right : Cartesian3.t;
  up : Cartesian3.t;
  direction : Cartesian3.t
}.

(** The body of the [try] block up to the three world-frame vectors. *)
Definition frame (normalizedAzimuth normalizedElevation : R)
    (enuTransform : Matrix3.t) : result Frame :=
  let azimuthRad := CesiumMath.toRadians normalizedAzimuth in
  let elevationRad := CesiumMath.toRadians normalizedElevation in
  let localDirection := localDirection azimuthRad elevationRad in
  let localUp := Cartesian3.mk 0 0 1 in
  localRight <- Cartesian3.normalize (Cartesian3.cross localDirection localUp) ;;
  localUpCorrected <-
    Cartesian3.normalize (Cartesian3.cross localRight localDirection) ;;
  let direction := Matrix3.multiplyByVector enuTransform localDirection in
  let right := Matrix3.multiplyByVector enuTransform localRight in
  let up := Matrix3.multiplyByVector enuTransform localUpCorrected in
  direction <- Cartesian3.normalize direction ;;
  right <- Cartesian3.normalize right ;;
  up <- Cartesian3.normalize up ;;
  Ok (mkFrame right up direction).

(** The whole [try] block: rotation with columns right, up, -direction,
    converted to a quaternion. *)
Definition orientationTry (normalizedAzimuth normalizedElevation : R)
    (enuTransform : Matrix3.t) : result Quaternion.t :=
  f <- frame normalizedAzimuth normalizedElevation enuTransform ;;
  let rotationMatrix := Matrix3.zero in
  let rotationMatrix := Matrix3.setColumn rotationMatrix 0 (right f) in
  let rotationMatrix := Matrix3.setColumn rotationMatrix 1 (up f) in
  let rotationMatrix :=
    Matrix3.setColumn rotationMatrix 2 (Cartesian3.negate (direction f)) in
  Ok (QuaternionOfMatrix.fromRotationMatrix rotationMatrix).

Definition orientation (normalizedAzimuth normalizedElevation : R)
    (enuTransform : Matrix3.t) : Quaternion.t :=
  try_catch (orientationTry normalizedAzimuth normalizedElevation enuTransform)
            (fun _ => Quaternion.IDENTITY).

Definition relativeAngles (halfHFOV halfVFOV : R) : list (R * R) :=
  [ (- halfHFOV, - halfVFOV);   (* Bottom-Left *)
    (halfHFOV, - halfVFOV);     (* Bottom-Right *)
    (halfHFOV, halfVFOV);       (* Top-Right *)
    (- halfHFOV, halfVFOV) ].   (* Top-Left *)

Definition outlinePositions (origin : Cartesian3.t) (orientation : Quaternion.t)
    (hfov vfov range : R) : list Cartesian3.t :=
  let hfovRad := CesiumMath.toRadians hfov in
  let vfovRad := CesiumMath.toRadians vfov in
  let halfHFOV := hfovRad / 3 in
  let halfVFOV := vfovRad / 3 in
  let rotationMatrixFromOrientation := Matrix3.fromQuaternion orientation in
  let corners :=
    map (fun angles : R * R =>
           let '(relativeH, relativeV) := angles in
           let x := tan relativeH * range in
           let y := tan relativeV * range in
           let z := - range in
           let localCorner := Cartesian3.mk x y z in
           let rotatedCorner :=
             Matrix3.multiplyByVector rotationMatrixFromOrientation localCorner in
           Cartesian3.add origin rotatedCorner)
        (relativeAngles halfHFOV halfVFOV) in
  let corner (i : nat) := nth i corners Cartesian3.ZERO in
  [ origin; corner 0%nat; origin; corner 1%nat;
    origin; corner 2%nat; origin; corner 3%nat;
    corner 0%nat; corner 1%nat; corner 1%nat; corner 2%nat;
    corner 2%nat; corner 3%nat; corner 3%nat; corner 0%nat ].

(** What the component hands to the renderer: the outline when the device
    is selected, nothing otherwise. *)
Definition render (origin : Cartesian3.t) (enuTransform : Matrix3.t)
    (azimuth elevation hfov vfov : R) (range : option R)
    (isDeviceSelected : bool) : option (list Cartesian3.t) :=
  let range := nullish range DEFAULT_RANGE in
  let q := orientation (normalizedAzimuth azimuth)
                       (normalizedElevation elevation) enuTransform in
  if isDeviceSelected then Some (outlinePositions origin q hfov vfov range)
  else None.

End SensorFrustum.

(** The outline as the specification words it: a corner is the origin plus
    the rotated local point (tan relH * range, tan relV * range, -range). *)
Module OutlineReference.

Definition corner (origin : Cartesian3.t) (orientation : Quaternion.t)
    (range relH relV : R) : Cartesian3.t :=
  Cartesian3.add origin
    (Matrix3.multiplyByVector (Matrix3.fromQuaternion orientation)
       (Cartesian3.mk (tan relH * range) (tan relV * range) (- range))).

Definition points (origin : Cartesian3.t) (orientation : Quaternion.t)
    (hfov vfov range : R) : list Cartesian3.t :=
  let halfH := CesiumMath.toRadians hfov / 3 in
  let halfV := CesiumMath.toRadians vfov / 3 in
  let bottomLeft := corner origin orientation range (- halfH) (- halfV) in
  let bottomRight := corner origin orientation range halfH (- halfV) in
  let topRight := corner origin orientation range halfH halfV in
  let topLeft := corner origin orientation range (- halfH) halfV in
  [ origin; bottomLeft; origin; bottomRight; origin; topRight; origin; topLeft ]
  ++ [ bottomLeft; bottomRight; bottomRight; topRight;
       topRight; topLeft; topLeft; bottomLeft ].

End OutlineReference.

(** [PerspectiveFrustum]: the constructor stores its options. *)
Module PerspectiveFrustum.

Record t : Type := mk {
  fov : number;
  aspectRatio : number;
  near : number;
  far : number
}.

End PerspectiveFrustum.

(** ** FrustumVisualizer: solid frustum with validated input *)

Module FrustumVisualizer.

Definition DEFAULT_RANGE : number := Fin 1000.
Definition DEFAULT_ALPHA : R := 1 / 10.

Definition isValidAngle (angle : number) : bool :=
  isFinite angle && gt angle (Fin 0) && lt angle (Fin 180).

Definition isValidRange (r : option number) : bool :=
  match r with
  | None => false
  | Some r => isFinite r && gt r (Fin 0)
  end.

Definition VECTOR_EPSILON : R := CesiumMath.EPSILON10.

Definition safeNormalize (v : Cartesian3.t) : result (option Cartesian3.t) :=
  if Rleb (Cartesian3.magnitudeSquared v) VECTOR_EPSILON then Ok None
  else (n <- Cartesian3.normalize v ;; Ok (Some n)).

(** [const u = safeNormalize(v); if (!u) throw new Error(msg);] *)
Definition orThrow {A : Type} (c : result (option A)) (msg : string) : result A :=
  o <- c ;;
  match o with
  | Some a => Ok a
  | None => Throw msg
  end.

(** The properties of the component.  Azimuth, elevation, latitude and
    longitude are taken finite; the two field-of-view angles and the range
    are arbitrary numbers. *)
Record Props : Type := mkProps {
  lat : R;
  lon : R;
  azimuth : R;
  elevation : R;
  hfov : number;
  vfov : number;
  range : option number;
  alpha : option R;
  isDeviceSelected : bool
}.

Definition rangeOf (p : Props) : number := nullish (range p) DEFAULT_RANGE.
Definition alphaOf (p : Props) : R := nullish (alpha p) DEFAULT_ALPHA.

Definition isInputValid (p : Props) : bool :=
  isValidAngle (hfov p) &&
  isValidAngle (vfov p) &&
  isValidRange (Some (rangeOf p)) &&
  isFinite (Fin (azimuth p)) &&
  isFinite (Fin (elevation p)) &&
  isFinite (Fin (lat p)) &&
  isFinite (Fin (lon p)).

Definition normalizedAzimuth (azimuth : R) : R :=
  JS.rem (JS.rem azimuth 360 + 360) 360.

Definition normalizedElevation (elevation : R) : R := - elevation.

Definition orientationTry (normalizedAzimuth normalizedElevation : R)
    (enuTransform : Matrix3.t) : result Quaternion.t :=
  let azimuthRad := CesiumMath.toRadians (normalizedAzimuth + 180) in
  let elevationRad := CesiumMath.toRadians normalizedElevation in
  let localDir :=
    Cartesian3.mk (sin azimuthRad * cos elevationRad)
                  (cos azimuthRad * cos elevationRad)
                  (sin elevationRad) in
  unitLocalDir <- orThrow (safeNormalize localDir) "Direction vector is zero" ;;
  let localUp := Cartesian3.mk 0 0 1 in
  let localRight := Cartesian3.cross unitLocalDir localUp in
  unitLocalRight <- orThrow (safeNormalize localRight) "Right vector is zero" ;;
  let localUpCorrected := Cartesian3.cross unitLocalRight unitLocalDir in
  unitLocalUp <- orThrow (safeNormalize localUpCorrected) "Up vector is zero" ;;
  let direction := Matrix3.multiplyByVector enuTransform unitLocalDir in
  let right := Matrix3.multiplyByVector enuTransform unitLocalRight in
  let up := Matrix3.multiplyByVector enuTransform unitLocalUp in
  unitDirection <- safeNormalize direction ;;
  unitRight <- safeNormalize right ;;
  unitUp <- safeNormalize up ;;
  match unitDirection, unitRight, unitUp with
  | Some unitDirection, Some unitRight, Some unitUp =>
      let rotationMatrix := Matrix3.zero in
      let rotationMatrix := Matrix3.setColumn rotationMatrix 0 unitRight in
      let rotationMatrix := Matrix3.setColumn rotationMatrix 1 unitUp in
      let rotationMatrix :=
        Matrix3.setColumn rotationMatrix 2 (Cartesian3.negate unitDirection) in
      Ok (QuaternionOfMatrix.fromRotationMatrix rotationMatrix)
  | _, _, _ => Throw "Failed to normalise transformed vectors"
  end.

Definition orientation (normalizedAzimuth normalizedElevation : R)
    (enuTransform : Matrix3.t) : Quaternion.t :=
  try_catch (orientationTry normalizedAzimuth normalizedElevation enuTransform)
            (fun _ => Quaternion.IDENTITY).

(** Arithmetic of the frustum memo on numbers that may be non-finite. *)
Definition toRadiansNum (d : number) : number :=
  match d with Fin r => Fin (CesiumMath.toRadians r) | other => other end.

Definition halfNum (a : number) : number :=
  match a with Fin r => Fin (r / 2) | other => other end.

Definition tanNum (a : number) : number :=
  match a with Fin r => Fin (tan r) | _ => NaN end.

Definition isZeroNum (a : number) : bool :=
  match a with Fin r => Reqb r 0 | _ => false end.

(** The quotient is only computed once both operands passed the finiteness
    guard. *)
Definition divNum (a b : number) : number :=
  match a, b with
  | Fin x, Fin y => JS.div x y
  | _, _ => NaN
  end.

Definition frustum (hfov vfov range : number) (isInputValid : bool)
  : option PerspectiveFrustum.t :=
  if negb isInputValid then None
  else
    let hfovRad := toRadiansNum hfov in
    let vfovRad := toRadiansNum vfov in
    let tanVFov := tanNum (halfNum vfovRad) in
    let tanHFov := tanNum (halfNum hfovRad) in
    if isZeroNum tanVFov || negb (isFinite tanVFov) || negb (isFinite tanHFov)
    then None
    else
      let aspectRatio := divNum tanHFov tanVFov in
      try_catch
        (Ok (Some (PerspectiveFrustum.mk vfovRad aspectRatio (Fin (1 / 2)) range)))
        (fun _ => None).

Record FrustumGeometry : Type := mkGeometry {
  geometryFrustum : PerspectiveFrustum.t;
  geometryOrigin : Cartesian3.t;
  geometryOrientation : Quaternion.t
}.

Record GeometryInstance : Type := mkInstance {
  geometry : FrustumGeometry;
  colorAlpha : R
}.

Record Appearance : Type := mkAppearance {
  flat : bool;
  translucent : bool
}.

(** The memo that yields [{ geometryInstances, appearance }]; [None] stands
    for the pair of nulls. *)
Definition geometryInstances (frustum : option PerspectiveFrustum.t)
    (origin : Cartesian3.t) (orientation : Quaternion.t) (alpha : R)
  : option (GeometryInstance * Appearance) :=
  match frustum with
  | None => None
  | Some frustum =>
      if Quaternion.equals orientation Quaternion.IDENTITY then None
      else
        try_catch
          (let geometry := mkGeometry frustum origin orientation in
           let instance := mkInstance geometry alpha in
           let appearanceInstance := mkAppearance true (Rltb alpha 1) in
           Ok (Some (instance, appearanceInstance)))
          (fun _ => None)
  end.

Definition orientationOf (p : Props) (enuTransform : Matrix3.t) : Quaternion.t :=
  orientation (normalizedAzimuth (azimuth p)) (normalizedElevation (elevation p))
              enuTransform.

Definition frustumOf (p : Props) : option PerspectiveFrustum.t :=
  frustum (hfov p) (vfov p) (rangeOf p) (isInputValid p).

Definition geometryOf (p : Props) (origin : Cartesian3.t)
    (enuTransform : Matrix3.t) : option (GeometryInstance * Appearance) :=
  geometryInstances (frustumOf p) origin (orientationOf p enuTransform)
                    (alphaOf p).

(** The component: the primitive handed to the renderer, or nothing. *)
Definition render (p : Props) (origin : Cartesian3.t) (enuTransform : Matrix3.t)
  : option (GeometryInstance * Appearance) :=
  match geometryOf p origin enuTransform with
  | Some (instance, appearance) =>
      if negb (isInputValid p) || negb (isDeviceSelected p) then None
      else Some (instance, appearance)
  | None => None
  end.

End FrustumVisualizer.

(** ** SensorShadow: the shadow-camera synthesizer *)

Module SensorShadow.

Definition DEFAULT_SHADOW_MAP_SIZE : R := 2048.
Definition DEFAULT_NEAR_PLANE : R := 5.
Definition DEFAULT_VISUALIZATION_RANGE : R := 2000.

(** [range] is [number | null]: [None] is [null]. *)
Record SensorView : Type := mkSensorView {
  azimuth : R;
  elevation : R;
  hfov : R;
  range : option R;
  vfov : R
}.

Definition DEFAULT_SENSOR_PARAMETERS : SensorView :=
  mkSensorView 0 0 66 (Some 1000) 40.

Record Point : Type := mkPoint { lat : R; lon : R; hae : R }.

(** The options that reach the geometry; colours, alphas and the depth bias
    only feed shader uniforms and are left out. *)
Record SensorShadowOptions : Type := mkOptions {
  cameraPosition : Point;
  size : option R;
  sensorParameters : option SensorView
}.

Record CameraVectors : Type := mkVectors {
  direction : Cartesian3.t;
  up : Cartesian3.t;
  right : Cartesian3.t
}.

Record Camera : Type := mkCamera {
  position : Cartesian3.t;
  cameraDirection : Cartesian3.t;
  cameraUp : Cartesian3.t;
  cameraRight : Cartesian3.t;
  frustum : PerspectiveFrustum.t
}.

(** The shadow-map resource.  [destroyed] is what its [isDestroyed()]
    answers: a live resource has [destroyed = false]. *)
Record ShadowMap : Type := mkShadowMap {
  _lightCamera : Camera;
  shadowMapSize : R;
  pointLightRadius : R;
  maximumDistance : R;
  normalOffset : bool;
  terrainDepthBias : option R;
  destroyed : bool
}.

(** The part of the scene a SensorShadow touches: the listeners of the
    [preUpdate] event, the post-process stages and the primitives, each
    named by the identity of the instance that registered it.  What a
    listener does when the event fires (it enables the stage once the shadow
    map has a texture) is not modelled. *)
Record Scene : Type := mkScene {
  preUpdate : list nat;
  postProcessStages : list nat;
  primitives : list nat;
  destroyPrimitives : bool
}.

Record t : Type := mkInstance {
  id : nat;
  _sensorParameters : SensorView;
  _cameraPosition : option Cartesian3.t;
  _calculatedViewPosition : Cartesian3.t;
  _size : R;
  preUpdateListener : option nat;
  viewShadowMap : option ShadowMap;
  _isDestroyed : bool;
  postProcess : option nat;
  inCollection : bool
}.

(** The scene and the instance [this]. *)
Record World : Type := mkWorld { scene : Scene; self : t }.

Fixpoint removeFirst (a : nat) (l : list nat) : list nat :=
  match l with
  | [] => []
  | b :: rest => if Nat.eqb a b then rest else b :: removeFirst a rest
  end.

Definition setListener (s : t) (l : option nat) : t :=
  mkInstance (id s) (_sensorParameters s) (_cameraPosition s)
    (_calculatedViewPosition s) (_size s) l (viewShadowMap s)
    (_isDestroyed s) (postProcess s) (inCollection s).

Definition setPostProcess (s : t) (p : option nat) : t :=
  mkInstance (id s) (_sensorParameters s) (_cameraPosition s)
    (_calculatedViewPosition s) (_size s) (preUpdateListener s)
    (viewShadowMap s) (_isDestroyed s) p (inCollection s).

Definition setDestroyed (s : t) (b : bool) : t :=
  mkInstance (id s) (_sensorParameters s) (_cameraPosition s)
    (_calculatedViewPosition s) (_size s) (preUpdateListener s)
    (viewShadowMap s) b (postProcess s) (inCollection s).

Definition setInCollection (s : t) (b : bool) : t :=
  mkInstance (id s) (_sensorParameters s) (_cameraPosition s)
    (_calculatedViewPosition s) (_size s) (preUpdateListener s)
    (viewShadowMap s) (_isDestroyed s) (postProcess s) b.

Definition setShadowMap (s : t) (m : option ShadowMap) : t :=
  mkInstance (id s) (_sensorParameters s) (_cameraPosition s)
    (_calculatedViewPosition s) (_size s) (preUpdateListener s)
    m (_isDestroyed s) (postProcess s) (inCollection s).

Definition setViewPosition (s : t) (v : Cartesian3.t) : t :=
  mkInstance (id s) (_sensorParameters s) (_cameraPosition s)
    v (_size s) (preUpdateListener s)
    (viewShadowMap s) (_isDestroyed s) (postProcess s) (inCollection s).

Definition setPreUpdate (sc : Scene) (l : list nat) : Scene :=
  mkScene l (postProcessStages sc) (primitives sc) (destroyPrimitives sc).

Definition setStages (sc : Scene) (l : list nat) : Scene :=
  mkScene (preUpdate sc) l (primitives sc) (destroyPrimitives sc).

Definition setPrimitives (sc : Scene) (l : list nat) : Scene :=
  mkScene (preUpdate sc) (postProcessStages sc) l (destroyPrimitives sc).

(** The local direction and the rotated local up vector of
    [_calculateCameraVectors], before the transformation to the Earth-fixed
    frame. *)
Definition localVectors (azimuthDeg elevationDeg : R)
  : result (Cartesian3.t * Cartesian3.t) :=
  let azimuthRad := CesiumMath.toRadians azimuthDeg in
  let elevationRad := CesiumMath.toRadians elevationDeg in
  let localUp := Cartesian3.mk 0 0 1 in
  let horizontalDirection := Cartesian3.mk (sin azimuthRad) (cos azimuthRad) 0 in
  let perpendicularAxis := Cartesian3.mk (cos azimuthRad) (- sin azimuthRad) 0 in
  axisNormalized <- Cartesian3.normalize perpendicularAxis ;;
  quat <- Quaternion.fromAxisAngle axisNormalized elevationRad ;;
  let elevationMatrix := Matrix3.fromQuaternion quat in
  let localDirection := Matrix3.multiplyByVector elevationMatrix horizontalDirection in
  let localUpRotated := Matrix3.multiplyByVector elevationMatrix localUp in
  Ok (localDirection, localUpRotated).

Section Engine.

(** The geodesy of the rendering engine: [Cartesian3.fromDegrees] and the
    rotation of [Transforms.eastNorthUpToFixedFrame]; and whether the
    constructors of the shadow map and of the post-process stage throw. *)
Variable fromDegrees : R -> R -> R -> Cartesian3.t.
Variable eastNorthUpToFixedFrame : Cartesian3.t -> Matrix3.t.
Variable shadowMapThrows : bool.
Variable postProcessThrows : bool.

Definition _calculateCameraVectors (position : Cartesian3.t)
    (azimuthDeg elevationDeg : R) : result CameraVectors :=
  let enuRotation := eastNorthUpToFixedFrame position in
  locals <- localVectors azimuthDeg elevationDeg ;;
  let '(localDirection, localUpRotated) := locals in
  let direction := Matrix3.multiplyByVector enuRotation localDirection in
  let up := Matrix3.multiplyByVector enuRotation localUpRotated in
  let right := Cartesian3.cross direction up in
  direction <- Cartesian3.normalize direction ;;
  up <- Cartesian3.normalize up ;;
  right <- Cartesian3.normalize right ;;
  up <- Cartesian3.normalize (Cartesian3.cross right direction) ;;
  Ok (mkVectors direction up right).

Definition _getEffectiveRange (s : t) : R :=
  match range (_sensorParameters s) with
  | Some r => r
  | None => DEFAULT_VISUALIZATION_RANGE
  end.

Definition _createFrustum (s : t) (effectiveRange : R)
  : number * PerspectiveFrustum.t :=
  let hfovRad := CesiumMath.toRadians (hfov (_sensorParameters s) / 2) in
  let vfovRad := CesiumMath.toRadians (vfov (_sensorParameters s) / 2) in
  let aspectRatio := JS.div (tan hfovRad) (tan vfovRad) in
  let frustum :=
    PerspectiveFrustum.mk
      (Fin (CesiumMath.toRadians (vfov (_sensorParameters s))))
      aspectRatio
      (Fin DEFAULT_NEAR_PLANE)
      (Fin effectiveRange) in
  (aspectRatio, frustum).

Definition _createNewShadowMap (s : t) (camera : Camera) (effectiveRange : R) : t :=
  if shadowMapThrows then s
  else
    setShadowMap s
      (Some (mkShadowMap camera (_size s) effectiveRange effectiveRange
                         false None false)).

Definition _updateExistingShadowMap (s : t) (m : ShadowMap) (camera : Camera)
    (aspectRatio : number) (effectiveRange : R) : t :=
  let old := frustum (_lightCamera m) in
  let lightFrustum :=
    PerspectiveFrustum.mk
      (Fin (CesiumMath.toRadians (vfov (_sensorParameters s))))
      aspectRatio
      (PerspectiveFrustum.near old)
      (Fin effectiveRange) in
  let lightCamera :=
    mkCamera (position camera) (cameraDirection camera) (cameraUp camera)
             (cameraRight camera) lightFrustum in
  setShadowMap s
    (Some (mkShadowMap lightCamera (shadowMapSize m) (pointLightRadius m)
                       effectiveRange (normalOffset m) (terrainDepthBias m)
                       (destroyed m))).

Definition configureShadowMap (s : t) : t :=
  match viewShadowMap s with
  | Some m =>
      setShadowMap s
        (Some (mkShadowMap (_lightCamera m) (shadowMapSize m) (pointLightRadius m)
                           (maximumDistance m) true (Some 0) (destroyed m)))
  | None => s
  end.

(** The call of the solver in [_createShadowMap]. *)
Definition solverCall (s : t) (positionVector : Cartesian3.t)
  : result CameraVectors :=
  _calculateCameraVectors positionVector
    (azimuth (_sensorParameters s))
    (nullish (Some (elevation (_sensorParameters s))) 0).

Definition _createShadowMap (updateOnly : bool) (s : t) : result t :=
  match _cameraPosition s with
  | None => Ok s
  | Some positionVector =>
      v <- solverCall s positionVector ;;
      let effectiveRange := _getEffectiveRange s in
      let s :=
        setViewPosition s
          (Cartesian3.add positionVector
             (Cartesian3.multiplyByScalar (direction v) effectiveRange)) in
      let '(aspectRatio, frustum) := _createFrustum s effectiveRange in
      let camera := mkCamera positionVector (direction v) (up v) (right v) frustum in
      let s :=
        if negb updateOnly then _createNewShadowMap s camera effectiveRange
        else
          match viewShadowMap s with
          | Some m => _updateExistingShadowMap s m camera aspectRatio effectiveRange
          | None => s
          end in
      Ok (configureShadowMap s)
  end.

Definition _setupPreUpdateListener (w : World) : World :=
  let sc :=
    match preUpdateListener (self w) with
    | Some l => setPreUpdate (scene w) (removeFirst l (preUpdate (scene w)))
    | None => scene w
    end in
  let l := id (self w) in
  mkWorld (setPreUpdate sc (preUpdate sc ++ [l])) (setListener (self w) (Some l)).

Definition _addPostProcess (w : World) : World :=
  match viewShadowMap (self w) with
  | None => w
  | Some _ =>
      if postProcessThrows then w
      else
        let stage := id (self w) in
        let sc := setStages (scene w) (postProcessStages (scene w) ++ [stage]) in
        _setupPreUpdateListener (mkWorld sc (setPostProcess (self w) (Some stage)))
  end.

Definition primitivesAdd (w : World) : World :=
  mkWorld (setPrimitives (scene w) (primitives (scene w) ++ [id (self w)]))
          (setInCollection (self w) true).

Definition _addToScene (w : World) : result World :=
  s <- _createShadowMap false (self w) ;;
  Ok (primitivesAdd (_addPostProcess (mkWorld (scene w) s))).

(** The camera position arrives as a point with its height, as
    SensorShadowArea builds it, and is converted with [fromDegrees]. *)
Definition _initializeProperties (ident : nat) (options : SensorShadowOptions) : t :=
  let p := cameraPosition options in
  mkInstance ident
    (nullish (sensorParameters options) DEFAULT_SENSOR_PARAMETERS)
    (Some (fromDegrees (lon p) (lat p) (hae p)))
    Cartesian3.ZERO
    (nullish (size options) DEFAULT_SHADOW_MAP_SIZE)
    None None false None false.

(** [new SensorShadow(viewer, options, fsShader)]; [ident] is the identity of
    the new object. *)
Definition new (ident : nat) (sc : Scene) (options : SensorShadowOptions)
  : result World :=
  _addToScene (mkWorld sc (_initializeProperties ident options)).

(** [update(frameState)]: the list is [frameState.shadowMaps]. *)
Definition update (s : t) (shadowMaps : list (option ShadowMap))
  : result (t * list (option ShadowMap)) :=
  if negb (_isDestroyed s) then
    s <- _createShadowMap true s ;;
    Ok (s, shadowMaps ++ [viewShadowMap s])
  else Ok (s, shadowMaps).

End Engine.

(** [destroy()].  [scene.primitives.remove(this)] calls [this.destroy()]
    again when the collection owns its primitives, hence the fuel: [None]
    means that the nesting went deeper than [fuel]. *)
Fixpoint destroyFuel (fuel : nat) (w : World) : option World :=
  match fuel with
  | O => None
  | S fuel =>
      let w :=
        match preUpdateListener (self w) with
        | Some l =>
            mkWorld (setPreUpdate (scene w) (removeFirst l (preUpdate (scene w))))
                    (setListener (self w) None)
        | None => w
        end in
      let w :=
        match postProcess (self w) with
        | Some p =>
            mkWorld (setStages (scene w)
                       (removeFirst p (postProcessStages (scene w))))
                    (setPostProcess (self w) None)
        | None => w
        end in
      let removed :=
        if inCollection (self w) then
          let w :=
            mkWorld (setPrimitives (scene w)
                       (removeFirst (id (self w)) (primitives (scene w))))
                    (setInCollection (self w) false) in
          if destroyPrimitives (scene w) then destroyFuel fuel w else Some w
        else Some w in
      match removed with
      | Some w => Some (mkWorld (scene w) (setDestroyed (self w) true))
      | None => None
      end
  end.

(** Two levels always suffice (lemma [destroyFuel_total]). *)
Definition destroy (w : World) : World :=
  match destroyFuel 2 w with
  | Some w' => w'
  | None => w
  end.

Definition isDestroyed (s : t) : bool := _isDestroyed s.

Definition distance (s : t) : R := _getEffectiveRange s.

End SensorShadow.

(** ** SensorShadowArea: the caller that owns the SensorShadow *)

Module SensorShadowArea.

Definition DEFAULT_RANGE : R := 1000.
Definition MAX_CAMERA_DISTANCE : R := 2000.

(** [range] is optional: [None] is [undefined]. *)
Record CurrentViewSensorInfo : Type := mkInfo {
  hfov : R;
  vfov : R;
  range : option R;
  azimuth : R;
  elevation : R
}.

Record Props : Type := mkProps {
  point : SensorShadow.Point;
  currentViewSensorInfo : option CurrentViewSensorInfo;
  isDeviceSelected : bool
}.

Definition memoizedCurrentViewSensorInfo (info : option CurrentViewSensorInfo)
  : option CurrentViewSensorInfo :=
  match info with
  | None => None
  | Some i =>
      Some (mkInfo (hfov i) (vfov i) (range i) (azimuth i) (- elevation i))
  end.

Definition cameraPosition (p : SensorShadow.Point) : SensorShadow.Point :=
  SensorShadow.mkPoint (SensorShadow.lat p) (SensorShadow.lon p)
                       (nullish (Some (SensorShadow.hae p)) 0).

Definition sensorConfig (cameraPosition : SensorShadow.Point)
    (memoized : option CurrentViewSensorInfo)
  : option SensorShadow.SensorShadowOptions :=
  match memoized with
  | None => None
  | Some m =>
      Some (SensorShadow.mkOptions cameraPosition None
              (Some (SensorShadow.mkSensorView
                       (azimuth m)
                       (elevation m)
                       (hfov m)
                       (Some (nullish (range m) DEFAULT_RANGE))
                       (vfov m))))
  end.

Definition sensorConfigOf (p : Props) : option SensorShadow.SensorShadowOptions :=
  sensorConfig (cameraPosition (point p))
               (memoizedCurrentViewSensorInfo (currentViewSensorInfo p)).

(** [Cartographic]: longitude and latitude in radians, height in metres. *)
Record Cartographic : Type := mkCartographic {
  longitude : R;
  latitude : R;
  height : R
}.

Definition Cartographic_fromDegrees (lon lat h : R) : Cartographic :=
  mkCartographic (CesiumMath.toRadians lon) (CesiumMath.toRadians lat) h.

(** The viewer, as far as the effect reads it: the scene it shares with the
    SensorShadow and the cartographic position of the viewing camera. *)
Record Viewer : Type := mkViewer {
  positionCartographic : Cartographic
}.

(** The mutable state: the scene, [sensorShadowRef.current] and the identity
    the next object gets. *)
Record State : Type := mkState {
  scene : SensorShadow.Scene;
  sensorShadowRef : option SensorShadow.t;
  nextId : nat
}.

(** A string is truthy when it is not empty; [None] is [null]. *)
Definition truthy (s : option string) : bool :=
  match s with
  | Some EmptyString => false
  | Some _ => true
  | None => false
  end.

(** [a || 0] on a number. *)
Definition orZero (a : R) : R := if Reqb a 0 then 0 else a.

Definition cleanupSensorShadow (st : State) : State :=
  match sensorShadowRef st with
  | Some s =>
      let w := SensorShadow.destroy (SensorShadow.mkWorld (scene st) s) in
      mkState (SensorShadow.scene w) None (nextId st)
  | None => st
  end.

Section Effect.

Variable fromDegrees : R -> R -> R -> Cartesian3.t.
Variable eastNorthUpToFixedFrame : Cartesian3.t -> Matrix3.t.
Variable shadowMapThrows : bool.
Variable postProcessThrows : bool.
(** [new EllipsoidGeodesic(a, b).surfaceDistance]. *)
Variable surfaceDistance : Cartographic -> Cartographic -> R.

Definition cameraDistance (viewer : Viewer) (p : SensorShadow.Point) : R :=
  let cameraCarto := positionCartographic viewer in
  let sensorCarto :=
    Cartographic_fromDegrees (SensorShadow.lon p) (SensorShadow.lat p)
                             (orZero (SensorShadow.hae p)) in
  let surfaceDistance := surfaceDistance cameraCarto sensorCarto in
  let heightDifference := height cameraCarto - height sensorCarto in
  sqrt (surfaceDistance ^ 2 + heightDifference ^ 2).

(** The effect that creates and destroys the sensor shadow. *)
Definition effect (p : Props) (viewer : option Viewer)
    (fsShader shaderError : option string) (st : State) : State :=
  if negb (isDeviceSelected p) then cleanupSensorShadow st
  else
    match viewer, sensorConfigOf p with
    | Some viewer, Some sensorConfig =>
        if negb (truthy fsShader && negb (truthy shaderError))
        then cleanupSensorShadow st
        else
          let distance := cameraDistance viewer (point p) in
          if Rltb MAX_CAMERA_DISTANCE distance then cleanupSensorShadow st
          else
            let st := cleanupSensorShadow st in
            match SensorShadow.new fromDegrees eastNorthUpToFixedFrame
                    shadowMapThrows postProcessThrows
                    (nextId st) (scene st) sensorConfig with
            | Ok w =>
                mkState (SensorShadow.scene w) (Some (SensorShadow.self w))
                        (S (nextId st))
            | Throw _ => cleanupSensorShadow st
            end
    | _, _ => cleanupSensorShadow st
    end.

End Effect.

End SensorShadowArea.

(** ** Degeneracy, as the specification words it *)

Module Degeneracy.

(** A vector is degenerate when its squared length is at most the epsilon of
    [safeNormalize]. *)
Definition nearZero (v : Cartesian3.t) : Prop :=
  Cartesian3.magnitudeSquared v <= FrustumVisualizer.VECTOR_EPSILON.

(** Some vector produced by the orthonormalization steps of
    FrustumVisualizer's solver is degenerate: the local direction; or, once
    it is normalized, the local right vector; or, after that, the corrected
    local up vector; or one of the three vectors in the Earth-fixed frame. *)
Definition inVisualizer (normalizedAzimuth normalizedElevation : R)
    (enuTransform : Matrix3.t) : Prop :=
  let azimuthRad := CesiumMath.toRadians (normalizedAzimuth + 180) in
  let elevationRad := CesiumMath.toRadians normalizedElevation in
  let localDir :=
    Cartesian3.mk (sin azimuthRad * cos elevationRad)
                  (cos azimuthRad * cos elevationRad)
                  (sin elevationRad) in
  nearZero localDir \/
  exists unitLocalDir,
    Cartesian3.normalize localDir = Ok unitLocalDir /\
    let localRight := Cartesian3.cross unitLocalDir (Cartesian3.mk 0 0 1) in
    (nearZero localRight \/
     exists unitLocalRight,
       Cartesian3.normalize localRight = Ok unitLocalRight /\
       let localUpCorrected := Cartesian3.cross unitLocalRight unitLocalDir in
       (nearZero localUpCorrected \/
        exists unitLocalUp,
          Cartesian3.normalize localUpCorrected = Ok unitLocalUp /\
          (nearZero (Matrix3.multiplyByVector enuTransform unitLocalDir) \/
           nearZero (Matrix3.multiplyByVector enuTransform unitLocalRight) \/
           nearZero (Matrix3.multiplyByVector enuTransform unitLocalUp)))).




End Degeneracy.

(** ** Concrete scenes used to exercise the theorems *)

Module Scenario.

(** A device on the equator at longitude 0: the local frame has East =
    (0,1,0), North = (0,0,1), Up = (1,0,0). *)
Definition enuEquator : Cartesian3.t -> Matrix3.t :=
  fun _ => Transforms.eastNorthUp 0 0.

Definition fromDegreesEquator (lon lat h : R) : Cartesian3.t :=
  Cartesian3.mk (6378137 + h) 0 0.

Definition origin : Cartesian3.t := fromDegreesEquator 0 0 0.

Definition point : SensorShadow.Point := SensorShadow.mkPoint 0 0 0.

Definition emptyScene : SensorShadow.Scene := SensorShadow.mkScene [] [] [] true.

(** Sensor info without a range, pointing North and level. *)
Definition info : SensorShadowArea.CurrentViewSensorInfo :=
  SensorShadowArea.mkInfo 60 40 None 0 0.

Definition props : SensorShadowArea.Props :=
  SensorShadowArea.mkProps point (Some info) true.

Definition options : SensorShadow.SensorShadowOptions :=
  SensorShadow.mkOptions point None
    (Some (SensorShadow.mkSensorView 0 (- 0) 60 (Some 1000) 40)).

(** The same sensor with a vertical field of view of zero. *)
Definition flatOptions : SensorShadow.SensorShadowOptions :=
  SensorShadow.mkOptions point None
    (Some (SensorShadow.mkSensorView 0 0 60 (Some 1000) 0)).

(** A live instance: listener, stage and primitive registered, shadow map
    allocated. *)
Definition liveShadowMap : SensorShadow.ShadowMap :=
  SensorShadow.mkShadowMap
    (SensorShadow.mkCamera origin (Cartesian3.mk 0 0 1) (Cartesian3.mk 1 0 0)
       (Cartesian3.mk 0 1 0)
       (PerspectiveFrustum.mk (Fin 1) (Fin 1) (Fin 5) (Fin 1000)))
    2048 1000 1000 true (Some 0) false.

Definition liveWorld : SensorShadow.World :=
  SensorShadow.mkWorld
    (SensorShadow.mkScene [7%nat] [7%nat] [7%nat] true)
    (SensorShadow.mkInstance 7 SensorShadow.DEFAULT_SENSOR_PARAMETERS
       (Some origin) origin 2048 (Some 7%nat) (Some liveShadowMap) false
       (Some 7%nat) true).

(** A viewing camera 2001 m away along the surface, at the height of the
    sensor. *)
Definition farViewer : SensorShadowArea.Viewer :=
  SensorShadowArea.mkViewer (SensorShadowArea.mkCartographic 0 0 0).

Definition surface2001
  : SensorShadowArea.Cartographic -> SensorShadowArea.Cartographic -> R :=
  fun _ _ => 2001.

Definition idleState : SensorShadowArea.State :=
  SensorShadowArea.mkState emptyScene None 0.

(** FrustumVisualizer looking straight up (elevation 90), and with a
    vertical field of view of zero. *)
Definition zenithProps : FrustumVisualizer.Props :=
  FrustumVisualizer.mkProps 0 0 0 90 (Fin 60) (Fin 40) (Some (Fin 150)) None true.

Definition flatProps : FrustumVisualizer.Props :=
  FrustumVisualizer.mkProps 0 0 0 0 (Fin 60) (Fin 0) (Some (Fin 150)) None true.

(** FrustumVisualizer on the equator at longitude 90, pointing North and
    level: a valid input. *)
Definition eastProps : FrustumVisualizer.Props :=
  FrustumVisualizer.mkProps 0 90 0 0 (Fin 60) (Fin 40) (Some (Fin 150)) None true.


End Scenario.

(** ** Frames and distances, to state what the solvers return *)

Module Geometry.

Definition dot (a b : Cartesian3.t) : R :=
  Cartesian3.x a * Cartesian3.x b + Cartesian3.y a * Cartesian3.y b
  + Cartesian3.z a * Cartesian3.z b.

(** [Cartesian3.subtract]. *)
Definition subtract (a b : Cartesian3.t) : Cartesian3.t :=
  Cartesian3.add a (Cartesian3.negate b).

(** [Cartesian3.distanceSquared]. *)
Definition distanceSquared (a b : Cartesian3.t) : R :=
  Cartesian3.magnitudeSquared (subtract a b).

Definition isUnit (v : Cartesian3.t) : Prop := Cartesian3.magnitudeSquared v = 1.

(** Three unit vectors, pairwise orthogonal. *)
Definition orthonormalTriple (a b c : Cartesian3.t) : Prop :=
  isUnit a /\ isUnit b /\ isUnit c
  /\ dot a b = 0 /\ dot a c = 0 /\ dot b c = 0.

(** A matrix whose columns are an orthonormal triple, as the rotation of
    [Transforms.eastNorthUpToFixedFrame] is. *)
Definition orthonormal (m : Matrix3.t) : Prop :=
  orthonormalTriple (Matrix3.getColumn m 0) (Matrix3.getColumn m 1)
                    (Matrix3.getColumn m 2).

(** A proper rotation: orthonormal columns, the third being the cross
    product of the first two. *)
Definition rotation (m : Matrix3.t) : Prop :=
  orthonormal m
  /\ Cartesian3.cross (Matrix3.getColumn m 0) (Matrix3.getColumn m 1)
     = Matrix3.getColumn m 2.

Definition unitQuaternion (q : Quaternion.t) : Prop :=
  Quaternion.x q * Quaternion.x q + Quaternion.y q * Quaternion.y q
  + Quaternion.z q * Quaternion.z q + Quaternion.w q * Quaternion.w q = 1.

(** The sign of a non-zero number, as [k / |k|]. *)
Definition sgn (k : R) : R := k / Rabs k.

End Geometry.

(** ** Reading the polyline of the outline *)

Module Outline.

(** The list of [outlinePositions] is eight segments; the first four run
    from the apex to the corners, so that corner [i] is the entry
    [2 * i + 1]. *)
Definition corner (positions : list Cartesian3.t) (i : nat) : Cartesian3.t :=
  nth (2 * i + 1) positions Cartesian3.ZERO.

End Outline.

(** ** The life of a mounted SensorShadowArea *)

Module Lifecycle.

(** What may happen to the mutable state of the component: the effect runs
    for a render, a cleanup runs (the one the effect returned, or the one of
    the unmount effect), or the scene renders a frame and calls [update] on
    the primitive the reference holds. *)
Inductive Event : Type :=
| RunEffect (p : SensorShadowArea.Props) (viewer : option SensorShadowArea.Viewer)
            (fsShader shaderError : option string)
| RunCleanup
| Frame (shadowMaps : list (option SensorShadow.ShadowMap)).

Section Steps.

Variable fromDegrees : R -> R -> R -> Cartesian3.t.
Variable eastNorthUpToFixedFrame : Cartesian3.t -> Matrix3.t.
Variable shadowMapThrows : bool.
Variable postProcessThrows : bool.
Variable surfaceDistance :
  SensorShadowArea.Cartographic -> SensorShadowArea.Cartographic -> R.

(** A frame: [update] mutates the instance in place; when it throws the
    instance is as it was. *)
Definition frame (shadowMaps : list (option SensorShadow.ShadowMap))
    (st : SensorShadowArea.State) : SensorShadowArea.State :=
  match SensorShadowArea.sensorShadowRef st with
  | Some s =>
      match SensorShadow.update eastNorthUpToFixedFrame shadowMapThrows
              s shadowMaps with
      | Ok (s', _) =>
          SensorShadowArea.mkState (SensorShadowArea.scene st) (Some s')
                                   (SensorShadowArea.nextId st)
      | Throw _ => st
      end
  | None => st
  end.

Definition step (st : SensorShadowArea.State) (ev : Event)
  : SensorShadowArea.State :=
  match ev with
  | RunEffect p viewer fsShader shaderError =>
      SensorShadowArea.effect fromDegrees eastNorthUpToFixedFrame
        shadowMapThrows postProcessThrows surfaceDistance
        p viewer fsShader shaderError st
  | RunCleanup => SensorShadowArea.cleanupSensorShadow st
  | Frame shadowMaps => frame shadowMaps st
  end.

Definition run (events : list Event) (st : SensorShadowArea.State)
  : SensorShadowArea.State :=
  fold_left step events st.

End Steps.

(** The identities a scene mentions. *)
Definition identities (sc : SensorShadow.Scene) : list nat :=
  SensorShadow.preUpdate sc ++ SensorShadow.postProcessStages sc
  ++ SensorShadow.primitives sc.

(** The invariant of the component: tearing down gives back the scene
    [base], and every identity of [base] is older than the next one. *)
Definition leakFree (base : SensorShadow.Scene) (st : SensorShadowArea.State)
  : Prop :=
  SensorShadowArea.scene (SensorShadowArea.cleanupSensorShadow st) = base
  /\ forall i, In i (identities base) -> (i < SensorShadowArea.nextId st)%nat.

End Lifecycle.

(** ** The mounted component and the viewing camera *)

Module Mounted.

(** The component between two renders: its mutable state, and the viewer
    whose camera the user moves. *)
Record t : Type := mk {
  state : SensorShadowArea.State;
  viewer : SensorShadowArea.Viewer
}.

Section Steps.

Variable fromDegrees : R -> R -> R -> Cartesian3.t.
Variable eastNorthUpToFixedFrame : Cartesian3.t -> Matrix3.t.
Variable shadowMapThrows : bool.
Variable postProcessThrows : bool.
Variable surfaceDistance :
  SensorShadowArea.Cartographic -> SensorShadowArea.Cartographic -> R.

(** A render in which a dependency of the effect changed: the effect runs
    and reads [viewer.camera.positionCartographic] as it is then. *)
Definition runEffect (p : SensorShadowArea.Props)
    (fsShader shaderError : option string) (m : t) : t :=
  mk (SensorShadowArea.effect fromDegrees eastNorthUpToFixedFrame
        shadowMapThrows postProcessThrows surfaceDistance
        p (Some (viewer m)) fsShader shaderError (state m))
     (viewer m).

(** The user moves the viewing camera.  The camera is a field of the viewer
    object and changes in place; the dependencies of the effect are
    [viewer], [fsShader], [sensorConfig], [shaderError], [isDeviceSelected],
    [point.lon], [point.lat], [point.hae] and [cleanupSensorShadow], none of
    which changes, so neither the effect nor its cleanup runs. *)
Definition moveCamera (c : SensorShadowArea.Cartographic) (m : t) : t :=
  mk (state m) (SensorShadowArea.mkViewer c).

(** The scene renders a frame and calls [update], which does not look at
    the viewing camera. *)
Definition renderFrame (shadowMaps : list (option SensorShadow.ShadowMap))
    (m : t) : t :=
  mk (Lifecycle.frame eastNorthUpToFixedFrame shadowMapThrows shadowMaps
        (state m))
     (viewer m).

(** The distance the effect would compute now. *)
Definition distance (p : SensorShadow.Point) (m : t) : R :=
  SensorShadowArea.cameraDistance surfaceDistance (viewer m) p.

End Steps.

End Mounted.

(** ** The text of the fragment shader *)

Module Shader.

Local Open Scope string_scope.

Definition WRAPPER_START : string := "export default `".

(** The rest of [txt] after [prefix], when [txt] starts with it. *)
Fixpoint dropPrefix (prefix txt : string) : option string :=
  match prefix, txt with
  | EmptyString, rest => Some rest
  | String a p, String b t => if Ascii.eqb a b then dropPrefix p t else None
  | String _ _, EmptyString => None
  end.

(** [txt.replace(/^export default `/, '')]. *)
Definition replaceStart (txt : string) : string :=
  match dropPrefix WRAPPER_START txt with
  | Some rest => rest
  | None => txt
  end.

(** [txt.replace(/`;?$/, '')]: the leftmost backtick that is followed by the
    end of the text, or by one semicolon and the end, is removed with what
    follows it. *)
Fixpoint replaceEnd (txt : string) : string :=
  match txt with
  | EmptyString => EmptyString
  | String c rest =>
      if Ascii.eqb c "`"%char
         && (String.eqb rest EmptyString || String.eqb rest ";")
      then EmptyString
      else String c (replaceEnd rest)
  end.

(** The text handed to [setFsShader]. *)
Definition strip (txt : string) : string := replaceEnd (replaceStart txt).

End Shader.

(** ** Further concrete inputs *)

Module Examples.

(** An instance whose shadow map could not be created, registered as a
    primitive and not destroyed. *)
Definition bareInstance : SensorShadow.t :=
  SensorShadow.mkInstance 3 SensorShadow.DEFAULT_SENSOR_PARAMETERS
    None Cartesian3.ZERO 2048 None None false None true.

(** A mounted component that is selected, deselected and selected again,
    with frames in between, and then unmounted. *)
Definition session : list Lifecycle.Event :=
  [ Lifecycle.RunEffect Scenario.props (Some Scenario.farViewer)
      (Some "void main() {}"%string) None;
    Lifecycle.Frame [];
    Lifecycle.RunCleanup;
    Lifecycle.RunEffect
      (SensorShadowArea.mkProps Scenario.point (Some Scenario.info) false)
      (Some Scenario.farViewer) (Some "void main() {}"%string) None;
    Lifecycle.RunEffect Scenario.props (Some Scenario.farViewer)
      (Some "void main() {}"%string) None;
    Lifecycle.Frame [None];
    Lifecycle.RunCleanup ].

(** A line feed, as at the end of a text file. *)
Definition lineFeed : ascii := Ascii.ascii_of_nat 10.

(** The distance along a meridian of a sphere of radius 6378137 m, for
    cameras that move North and South of the sensor. *)
Definition meridianDistance (a b : SensorShadowArea.Cartographic) : R :=
  6378137 * Rabs (SensorShadowArea.latitude a - SensorShadowArea.latitude b).

(** Viewing cameras on the meridian of the sensor of [Scenario.props], at
    its height, 1999 m and 2001 m North of it. *)
Definition camera1999 : SensorShadowArea.Cartographic :=
  SensorShadowArea.mkCartographic 0 (1999 / 6378137) 0.

Definition camera2001 : SensorShadowArea.Cartographic :=
  SensorShadowArea.mkCartographic 0 (2001 / 6378137) 0.

(** The sensor of [Scenario.props] raised by 30 degrees, pointing North. *)
Definition raisedInfo : SensorShadowArea.CurrentViewSensorInfo :=
  SensorShadowArea.mkInfo 60 40 None 0 30.

Definition raisedProps : SensorShadowArea.Props :=
  SensorShadowArea.mkProps Scenario.point (Some raisedInfo) true.

Definition raisedOptions : SensorShadow.SensorShadowOptions :=
  SensorShadow.mkOptions Scenario.point None
    (Some (SensorShadow.mkSensorView 0 (- 30) 60 (Some 1000) 40)).

(** The component mounted with the camera 1999 m away, before any effect
    ran. *)
Definition mountedNear : Mounted.t :=
  Mounted.mk Scenario.idleState (SensorShadowArea.mkViewer camera1999).

(** The state in which the reference holds the live instance of
    [Scenario.liveWorld]. *)
Definition liveState : SensorShadowArea.State :=
  SensorShadowArea.mkState (SensorShadow.scene Scenario.liveWorld)
    (Some (SensorShadow.self Scenario.liveWorld)) 8.

End Examples.

(** ** Proof automation *)

(** Evaluate an equation between vectors whose components are polynomials. *)
Ltac vec_eval :=
  unfold Cartesian3.cross, Matrix3.multiplyByVector;
  cbn [Cartesian3.x Cartesian3.y Cartesian3.z
       Matrix3.c0r0 Matrix3.c0r1 Matrix3.c0r2
       Matrix3.c1r0 Matrix3.c1r1 Matrix3.c1r2
       Matrix3.c2r0 Matrix3.c2r1 Matrix3.c2r2];
  f_equal; ring.

(** A vector with closed components has squared length 1. *)
Ltac unit_vec := unfold Cartesian3.magnitudeSquared; cbn; ring.

(** A vector of squared length 1, or above the epsilon, is not degenerate. *)
Ltac not_small H :=
  unfold Degeneracy.nearZero, FrustumVisualizer.VECTOR_EPSILON,
    CesiumMath.EPSILON10 in H;
  unfold Geometry.isUnit, CesiumMath.EPSILON10 in *; lra.

(** Name the square root of the goal, with its square and the fact that it
    is not zero. *)
Ltac shepperd_root r Hr Hn :=
  match goal with
  | |- context [sqrt ?t] =>
      let P := fresh in
      assert (P : 0 < t) by lra;
      assert (Hr : sqrt t * sqrt t = t) by (apply sqrt_sqrt; lra);
      assert (Hn : sqrt t <> 0) by (pose proof (sqrt_lt_R0 t P); lra);
      revert Hr Hn; generalize (sqrt t); intros r Hr Hn
  end.

(** Clear the denominators of an equation in the entries of a rotation and
    decide it in the ideal of the hypotheses. *)
Ltac shepperd_eq := field_simplify_eq; [cbn [pow]; nsatz | assumption].

(** Reduce the projections and the field updates of a SensorShadow and of
    its shadow map, leaving the arithmetic folded. *)
Ltac shadow_fields :=
  cbn [SensorShadow.id SensorShadow._sensorParameters
       SensorShadow._cameraPosition SensorShadow._calculatedViewPosition
       SensorShadow._size SensorShadow.preUpdateListener
       SensorShadow.viewShadowMap SensorShadow._isDestroyed
       SensorShadow.postProcess SensorShadow.inCollection
       SensorShadow.setListener SensorShadow.setPostProcess
       SensorShadow.setDestroyed SensorShadow.setInCollection
       SensorShadow.setShadowMap SensorShadow.setViewPosition
       SensorShadow._lightCamera SensorShadow.shadowMapSize
       SensorShadow.pointLightRadius SensorShadow.maximumDistance
       SensorShadow.normalOffset SensorShadow.terrainDepthBias
       SensorShadow.destroyed
       SensorShadow.position SensorShadow.cameraDirection
       SensorShadow.cameraUp SensorShadow.cameraRight SensorShadow.frustum
       SensorShadow.direction SensorShadow.up SensorShadow.right
       SensorShadow.scene SensorShadow.self
       PerspectiveFrustum.fov PerspectiveFrustum.aspectRatio
       PerspectiveFrustum.near PerspectiveFrustum.far
       JS.bind JS.nullish negb fst snd].

Ltac shadow_fields_in H :=
  cbn [SensorShadow.id SensorShadow._sensorParameters
       SensorShadow._cameraPosition SensorShadow._calculatedViewPosition
       SensorShadow._size SensorShadow.preUpdateListener
       SensorShadow.viewShadowMap SensorShadow._isDestroyed
       SensorShadow.postProcess SensorShadow.inCollection
       SensorShadow.setListener SensorShadow.setPostProcess
       SensorShadow.setDestroyed SensorShadow.setInCollection
       SensorShadow.setShadowMap SensorShadow.setViewPosition
       SensorShadow._lightCamera SensorShadow.shadowMapSize
       SensorShadow.pointLightRadius SensorShadow.maximumDistance
       SensorShadow.normalOffset SensorShadow.terrainDepthBias
       SensorShadow.destroyed
       SensorShadow.position SensorShadow.cameraDirection
       SensorShadow.cameraUp SensorShadow.cameraRight SensorShadow.frustum
       SensorShadow.direction SensorShadow.up SensorShadow.right
       SensorShadow.scene SensorShadow.self
       PerspectiveFrustum.fov PerspectiveFrustum.aspectRatio
       PerspectiveFrustum.near PerspectiveFrustum.far
       JS.bind JS.nullish negb fst snd] in H.

(** * Verification *)

Module SS := SensorShadow.
Module SA := SensorShadowArea.
Module FV := FrustumVisualizer.

(** ** Vectors, angles and remainders *)

Lemma Cartesian3_ext (a b : Cartesian3.t) :
  Cartesian3.x a = Cartesian3.x b ->
  Cartesian3.y a = Cartesian3.y b ->
  Cartesian3.z a = Cartesian3.z b -> a = b.
Proof. destruct a, b; simpl; intros; subst; reflexivity. Qed.

Lemma sin_cos_sq (a : R) : sin a * sin a + cos a * cos a = 1.
Proof. pose proof (sin2_cos2 a) as H. unfold Rsqr in H. exact H. Qed.

Lemma magnitudeSquared_nonneg (v : Cartesian3.t) :
  0 <= Cartesian3.magnitudeSquared v.
Proof. unfold Cartesian3.magnitudeSquared. nra. Qed.

Lemma magnitude_zero_iff (v : Cartesian3.t) :
  Cartesian3.magnitude v = 0 <-> Cartesian3.magnitudeSquared v = 0.
Proof.
  unfold Cartesian3.magnitude.
  pose proof (magnitudeSquared_nonneg v) as Hn.
  split; intros E.
  - apply sqrt_eq_0; assumption.
  - rewrite E. apply sqrt_0.
Qed.

Lemma normalize_unit (v : Cartesian3.t) :
  Cartesian3.magnitudeSquared v = 1 -> Cartesian3.normalize v = Ok v.
Proof.
  intros H. unfold Cartesian3.normalize, Cartesian3.magnitude.
  rewrite H, sqrt_1.
  destruct (Req_dec_T 1 0) as [E | _]; [lra |].
  f_equal. apply Cartesian3_ext; simpl; field.
Qed.


Lemma normalize_nonzero (v : Cartesian3.t) :
  Cartesian3.magnitudeSquared v <> 0 ->
  Cartesian3.normalize v =
  Ok (Cartesian3.mk (Cartesian3.x v / Cartesian3.magnitude v)
                    (Cartesian3.y v / Cartesian3.magnitude v)
                    (Cartesian3.z v / Cartesian3.magnitude v)).
Proof.
  intros H. unfold Cartesian3.normalize.
  destruct (Req_dec_T (Cartesian3.magnitude v) 0) as [E | _]; [| reflexivity].
  exfalso. apply H. apply magnitude_zero_iff. exact E.
Qed.


Lemma trunc_IZR (z : Z) : (0 <= z)%Z -> JS.trunc (IZR z) = z.
Proof.
  intros Hz. unfold JS.trunc.
  destruct (Rle_dec 0 (IZR z)) as [_ | N].
  - symmetry. apply Int_part_spec. lra.
  - exfalso. apply N. apply IZR_le in Hz. exact Hz.
Qed.

Lemma rem_0 (b : R) : JS.rem 0 b = 0.
Proof.
  unfold JS.rem. replace (0 / b) with (IZR 0) by (unfold Rdiv; ring).
  rewrite trunc_IZR by lia. simpl. ring.
Qed.

Lemma rem_self (b : R) : b <> 0 -> JS.rem b b = 0.
Proof.
  intros Hb. unfold JS.rem. replace (b / b) with (IZR 1) by (field; exact Hb).
  rewrite trunc_IZR by lia. ring.
Qed.

Lemma normalizedAzimuth_0 : SensorFrustum.normalizedAzimuth 0 = 0.
Proof.
  unfold SensorFrustum.normalizedAzimuth.
  rewrite rem_0, Rplus_0_l. apply rem_self. lra.
Qed.

Lemma toRadians_0 : CesiumMath.toRadians 0 = 0.
Proof. unfold CesiumMath.toRadians. ring. Qed.

Lemma toRadians_90 : CesiumMath.toRadians 90 = PI / 2.
Proof. unfold CesiumMath.toRadians, CesiumMath.RADIANS_PER_DEGREE. field. Qed.

Lemma toRadians_180 : CesiumMath.toRadians 180 = PI.
Proof. unfold CesiumMath.toRadians, CesiumMath.RADIANS_PER_DEGREE. field. Qed.

Lemma toRadians_opp (d : R) :
  CesiumMath.toRadians (- d) = - CesiumMath.toRadians d.
Proof. unfold CesiumMath.toRadians. ring. Qed.

Lemma toRadians_30 : CesiumMath.toRadians (60 / 2) = PI / 6.
Proof. unfold CesiumMath.toRadians, CesiumMath.RADIANS_PER_DEGREE. field. Qed.

Lemma toRadians_20 : CesiumMath.toRadians (40 / 2) = PI / 9.
Proof. unfold CesiumMath.toRadians, CesiumMath.RADIANS_PER_DEGREE. field. Qed.

Lemma enu_equator : Transforms.eastNorthUp 0 0 = Matrix3.mk 0 1 0 0 0 1 1 0 0.
Proof.
  unfold Transforms.eastNorthUp. rewrite toRadians_0, sin_0, cos_0.
  f_equal; ring.
Qed.

Lemma enu_east : Transforms.eastNorthUp 0 90 = Matrix3.mk (-1) 0 0 0 0 1 0 1 0.
Proof.
  unfold Transforms.eastNorthUp.
  rewrite toRadians_0, toRadians_90, sin_0, cos_0, sin_PI2, cos_PI2.
  f_equal; ring.
Qed.

Lemma div_nonzero (a b : R) : b <> 0 -> JS.div a b = Fin (a / b).
Proof.
  intros Hb. unfold JS.div.
  destruct (Req_dec_T b 0); [contradiction | reflexivity].
Qed.

Lemma div_pos_zero (a : R) : 0 < a -> JS.div a 0 = PosInf.
Proof.
  intros Ha. unfold JS.div.
  destruct (Req_dec_T 0 0) as [_ | N]; [| exfalso; apply N; reflexivity].
  destruct (Rlt_dec 0 a); [reflexivity | contradiction].
Qed.

(** ** The outline generator *)

(** The loop over the four relative angles builds the four reference
    corners, in the order bottom-left, bottom-right, top-right, top-left. *)
Lemma outline_corner_list (origin : Cartesian3.t) (q : Quaternion.t)
    (range halfH halfV : R) :
  map (fun angles : R * R =>
         let '(relativeH, relativeV) := angles in
         Cartesian3.add origin
           (Matrix3.multiplyByVector (Matrix3.fromQuaternion q)
              (Cartesian3.mk (tan relativeH * range) (tan relativeV * range)
                             (- range))))
      (SensorFrustum.relativeAngles halfH halfV)
  = [ OutlineReference.corner origin q range (- halfH) (- halfV);
      OutlineReference.corner origin q range halfH (- halfV);
      OutlineReference.corner origin q range halfH halfV;
      OutlineReference.corner origin q range (- halfH) halfV ].
Proof. reflexivity. Qed.

(** C2.  For every orientation, field-of-view pair, range and origin the
    outline generator returns the reference list: sixteen points, the four
    spokes origin-corner followed by the four base edges as disjoint pairs,
    each corner being origin + R (tan relH * range, tan relV * range, -range)
    with half-angles equal to the field of view in radians divided by 3, in
    the order bottom-left, bottom-right, top-right, top-left. *)
Theorem outline_matches_reference (origin : Cartesian3.t) (q : Quaternion.t)
    (hfov vfov range : R) :
  SensorFrustum.outlinePositions origin q hfov vfov range
  = OutlineReference.points origin q hfov vfov range
  /\ List.length (SensorFrustum.outlinePositions origin q hfov vfov range)
     = 16%nat.
Proof.
  assert (E : SensorFrustum.outlinePositions origin q hfov vfov range
              = OutlineReference.points origin q hfov vfov range).
  { unfold SensorFrustum.outlinePositions.
    change (map _ (SensorFrustum.relativeAngles ?h ?v))
      with (map (fun angles : R * R =>
                   let '(relativeH, relativeV) := angles in
                   Cartesian3.add origin
                     (Matrix3.multiplyByVector (Matrix3.fromQuaternion q)
                        (Cartesian3.mk (tan relativeH * range)
                                       (tan relativeV * range) (- range))))
                (SensorFrustum.relativeAngles h v)).
    rewrite outline_corner_list. reflexivity. }
  split; [exact E |]. rewrite E. reflexivity.
Qed.

(** With a frame whose North column has unit length and whose East and Up
    columns do not vanish, azimuth 0 and elevation 0 point along North. *)
Lemma outline_direction_is_north (enu : Matrix3.t) :
  Cartesian3.magnitudeSquared (Matrix3.getColumn enu 1) = 1 ->
  Cartesian3.magnitudeSquared (Matrix3.getColumn enu 0) <> 0 ->
  Cartesian3.magnitudeSquared (Matrix3.getColumn enu 2) <> 0 ->
  exists f,
    SensorFrustum.frame (SensorFrustum.normalizedAzimuth 0)
      (SensorFrustum.normalizedElevation 0) enu = Ok f
    /\ SensorFrustum.direction f = Matrix3.getColumn enu 1.
Proof.
  intros Hn He Hu.
  unfold SensorFrustum.frame, SensorFrustum.normalizedElevation.
  rewrite normalizedAzimuth_0, toRadians_0.
  unfold SensorFrustum.localDirection. rewrite sin_0, cos_0.
  replace (Cartesian3.cross (Cartesian3.mk (0 * 1) (1 * 1) 0)
                            (Cartesian3.mk 0 0 1))
    with (Cartesian3.mk 1 0 0) by vec_eval.
  rewrite normalize_unit by unit_vec. cbn [JS.bind].
  replace (Cartesian3.cross (Cartesian3.mk 1 0 0)
                            (Cartesian3.mk (0 * 1) (1 * 1) 0))
    with (Cartesian3.mk 0 0 1) by vec_eval.
  rewrite normalize_unit by unit_vec. cbn [JS.bind].
  replace (Matrix3.multiplyByVector enu (Cartesian3.mk (0 * 1) (1 * 1) 0))
    with (Matrix3.getColumn enu 1)
    by (destruct enu; apply Cartesian3_ext; cbn; ring).
  replace (Matrix3.multiplyByVector enu (Cartesian3.mk 1 0 0))
    with (Matrix3.getColumn enu 0)
    by (destruct enu; apply Cartesian3_ext; cbn; ring).
  replace (Matrix3.multiplyByVector enu (Cartesian3.mk 0 0 1))
    with (Matrix3.getColumn enu 2)
    by (destruct enu; apply Cartesian3_ext; cbn; ring).
  rewrite (normalize_unit _ Hn), (normalize_nonzero _ He),
    (normalize_nonzero _ Hu).
  cbn [JS.bind]. eexists. split; reflexivity.
Qed.

(** C8.  At latitude 0, longitude 0 and height 0, with azimuth 0 and
    elevation 0, the local direction of Variant A is (0,1,0) and the solver's
    world direction is exactly the North column of the East-North-Up basis. *)
Theorem variantA_points_north :
  let enu := Transforms.eastNorthUp 0 0 in
  SensorFrustum.localDirection
    (CesiumMath.toRadians (SensorFrustum.normalizedAzimuth 0))
    (CesiumMath.toRadians (SensorFrustum.normalizedElevation 0))
  = Cartesian3.mk 0 1 0
  /\ Matrix3.multiplyByVector enu (Cartesian3.mk 0 1 0) = Matrix3.getColumn enu 1
  /\ exists f,
       SensorFrustum.frame (SensorFrustum.normalizedAzimuth 0)
         (SensorFrustum.normalizedElevation 0) enu = Ok f
       /\ SensorFrustum.direction f = Matrix3.getColumn enu 1
       /\ Matrix3.getColumn enu 1 = Cartesian3.mk 0 0 1.
Proof.
  intros enu. unfold enu. rewrite enu_equator.
  split; [| split].
  - rewrite normalizedAzimuth_0. unfold SensorFrustum.normalizedElevation.
    rewrite toRadians_0. unfold SensorFrustum.localDirection.
    rewrite sin_0, cos_0. f_equal; ring.
  - apply Cartesian3_ext; cbn; ring.
  - destruct (outline_direction_is_north (Matrix3.mk 0 1 0 0 0 1 1 0 0))
      as (f & Hf & Hd).
    + unit_vec.
    + unfold Cartesian3.magnitudeSquared. cbn. lra.
    + unfold Cartesian3.magnitudeSquared. cbn. lra.
    + exists f. split; [exact Hf |]. split; [exact Hd | reflexivity].
Qed.

(** ** The shadow-camera solver *)

(** The rotation by the elevation about the perpendicular axis, in closed
    form: the local direction is the one of Variant A's formula, for the same
    azimuth and the elevation that was passed in. *)
Lemma localVectors_closed_form (azimuthDeg elevationDeg : R) :
  SS.localVectors azimuthDeg elevationDeg =
  Ok (SensorFrustum.localDirection (CesiumMath.toRadians azimuthDeg)
                                   (CesiumMath.toRadians elevationDeg),
      Cartesian3.mk
        (- sin (CesiumMath.toRadians azimuthDeg)
         * sin (CesiumMath.toRadians elevationDeg))
        (- cos (CesiumMath.toRadians azimuthDeg)
         * sin (CesiumMath.toRadians elevationDeg))
        (cos (CesiumMath.toRadians elevationDeg))).
Proof.
  unfold SS.localVectors.
  set (a := CesiumMath.toRadians azimuthDeg).
  set (e := CesiumMath.toRadians elevationDeg).
  assert (U : Cartesian3.magnitudeSquared (Cartesian3.mk (cos a) (- sin a) 0) = 1).
  { unfold Cartesian3.magnitudeSquared; simpl. pose proof (sin_cos_sq a). lra. }
  rewrite (normalize_unit _ U). cbn [JS.bind].
  unfold Quaternion.fromAxisAngle.
  rewrite (normalize_unit _ U). cbn [JS.bind].
  f_equal.
  assert (C : cos e = cos (e / 2) * cos (e / 2) - sin (e / 2) * sin (e / 2)).
  { rewrite <- cos_2a. f_equal. field. }
  assert (S : sin e = 2 * sin (e / 2) * cos (e / 2)).
  { rewrite <- sin_2a. f_equal. field. }
  unfold SensorFrustum.localDirection, Matrix3.multiplyByVector,
    Matrix3.fromQuaternion; simpl.
  rewrite C, S.
  pose proof (sin_cos_sq a) as Ha.
  revert Ha.
  generalize (sin (e / 2)) (cos (e / 2)) (sin a) (cos a).
  intros s c sa ca Ha.
  f_equal; apply Cartesian3_ext; simpl; nsatz.
Qed.

(** On the equator, pointing North and level, the solver returns the frame
    direction = North, up = Up, right = East. *)
Lemma solver_equator (pos : Cartesian3.t) (e : R) :
  e = 0 ->
  SS._calculateCameraVectors Scenario.enuEquator pos 0 e
  = Ok (SS.mkVectors (Cartesian3.mk 0 0 1) (Cartesian3.mk 1 0 0)
                     (Cartesian3.mk 0 1 0)).
Proof.
  intros ->. unfold SS._calculateCameraVectors, Scenario.enuEquator.
  rewrite localVectors_closed_form, enu_equator. cbn [JS.bind].
  unfold SensorFrustum.localDirection.
  rewrite toRadians_0, sin_0, cos_0.
  replace (Matrix3.multiplyByVector _ (Cartesian3.mk (0 * 1) (1 * 1) 0))
    with (Cartesian3.mk 0 0 1) by vec_eval.
  replace (Matrix3.multiplyByVector _ (Cartesian3.mk (- 0 * 0) (- (1) * 0) 1))
    with (Cartesian3.mk 1 0 0) by vec_eval.
  replace (Cartesian3.cross (Cartesian3.mk 0 0 1) (Cartesian3.mk 1 0 0))
    with (Cartesian3.mk 0 1 0) by vec_eval.
  rewrite !normalize_unit by unit_vec. cbn [JS.bind].
  replace (Cartesian3.cross (Cartesian3.mk 0 1 0) (Cartesian3.mk 0 0 1))
    with (Cartesian3.mk 1 0 0) by vec_eval.
  rewrite !normalize_unit by unit_vec. reflexivity.
Qed.

(** ** The shadow frustum *)

Lemma cos_3a (x : R) : cos (3 * x) = 4 * (cos x * cos x * cos x) - 3 * cos x.
Proof.
  replace (3 * x) with (2 * x + x) by ring.
  rewrite cos_plus, cos_2a_cos, sin_2a.
  pose proof (sin_cos_sq x) as H. nsatz.
Qed.

(** cos 20 degrees, from the cubic 4 c^3 - 3 c = cos 60 degrees = 1/2. *)
Lemma cos_PI9_bounds : 9393 / 10000 < cos (PI / 9) < 9399 / 10000.
Proof.
  pose proof (cos_3a (PI / 9)) as H3.
  replace (3 * (PI / 9)) with (PI / 3) in H3 by field.
  rewrite cos_PI3 in H3.
  assert (Hpos : 0 < cos (PI / 9)).
  { apply cos_gt_0; pose proof PI_RGT_0; lra. }
  pose proof (COS_bound (PI / 9)) as [_ Hle].
  revert H3 Hpos Hle. generalize (cos (PI / 9)). intros c H3 Hpos Hle.
  assert (Hq : 4 * (c * c) - 3 > 0) by nra.
  assert (Hc2 : 7 / 8 <= c * c) by nra.
  assert (Hc : 9 / 10 < c) by nra.
  split; nra.
Qed.

Lemma sin_PI9_pos : 0 < sin (PI / 9).
Proof. apply sin_gt_0; pose proof PI_RGT_0; lra. Qed.

Lemma tan_PI9_pos : 0 < tan (PI / 9).
Proof.
  unfold tan. apply Rdiv_lt_0_compat; [apply sin_PI9_pos |].
  pose proof cos_PI9_bounds. lra.
Qed.

Lemma tan_PI6_pos : 0 < tan (PI / 6).
Proof.
  rewrite tan_PI6. apply Rdiv_lt_0_compat; [lra |]. apply sqrt_lt_R0. lra.
Qed.

(** tan 30 degrees / tan 20 degrees lies between 1.58 and 1.59. *)
Lemma aspect_60_40_bounds :
  158 / 100 < tan (PI / 6) / tan (PI / 9) < 159 / 100.
Proof.
  rewrite tan_PI6. unfold tan.
  pose proof cos_PI9_bounds as [Hlo Hhi].
  pose proof sin_PI9_pos as Hs.
  pose proof (sin_cos_sq (PI / 9)) as Hsc.
  assert (H3 : 0 < sqrt 3) by (apply sqrt_lt_R0; lra).
  assert (H33 : sqrt 3 * sqrt 3 = 3) by (apply sqrt_sqrt; lra).
  revert Hlo Hhi Hs Hsc H3 H33.
  generalize (cos (PI / 9)) (sin (PI / 9)) (sqrt 3).
  intros c s t Hlo Hhi Hs Hsc H3 H33.
  replace (1 / t / (s / c)) with (c / (t * s)) by (field; lra).
  assert (Hq : 0 < t * s) by nra.
  assert (Hq2 : (t * s) * (t * s) = 3 * (1 - c * c)) by nra.
  revert Hq Hq2. generalize (t * s). intros q Hq Hq2.
  split.
  - apply Rmult_lt_reg_r with q; [exact Hq |].
    replace (c / q * q) with c by (field; lra). nra.
  - apply Rmult_lt_reg_r with q; [exact Hq |].
    replace (c / q * q) with c by (field; lra). nra.
Qed.

Lemma aspect_60_40 (s : SS.t) (r : R) :
  SS.hfov (SS._sensorParameters s) = 60 ->
  SS.vfov (SS._sensorParameters s) = 40 ->
  exists a,
    PerspectiveFrustum.aspectRatio (snd (SS._createFrustum s r)) = Fin a
    /\ 158 / 100 < a < 159 / 100.
Proof.
  intros Hh Hv. unfold SS._createFrustum. cbn. rewrite Hh, Hv.
  rewrite toRadians_30, toRadians_20.
  pose proof tan_PI9_pos as Ht.
  rewrite div_nonzero by lra.
  eexists. split; [reflexivity | apply aspect_60_40_bounds].
Qed.

(** C3, as amended.  For every SensorView the shadow frustum has the
    vertical field of view as its field of view, the aspect ratio
    tan(hfov/2)/tan(vfov/2), the near plane 5 and the effective range as its
    far plane, where the effective range is the range when it is not null and
    2000 otherwise; for hfov = 60 and vfov = 40 the aspect ratio lies between
    1.58 and 1.59 (about 1.586, not 1.428). *)
Theorem shadow_frustum_parameters (s : SS.t) :
  let sp := SS._sensorParameters s in
  let r := SS._getEffectiveRange s in
  let f := snd (SS._createFrustum s r) in
  PerspectiveFrustum.fov f = Fin (CesiumMath.toRadians (SS.vfov sp))
  /\ PerspectiveFrustum.aspectRatio f
     = JS.div (tan (CesiumMath.toRadians (SS.hfov sp / 2)))
              (tan (CesiumMath.toRadians (SS.vfov sp / 2)))
  /\ fst (SS._createFrustum s r) = PerspectiveFrustum.aspectRatio f
  /\ PerspectiveFrustum.near f = Fin 5
  /\ PerspectiveFrustum.far f = Fin r
  /\ r = match SS.range sp with
         | Some x => x
         | None => 2000
         end
  /\ (SS.hfov sp = 60 -> SS.vfov sp = 40 ->
      exists a, PerspectiveFrustum.aspectRatio f = Fin a
                /\ 158 / 100 < a < 159 / 100).
Proof.
  intros sp r f.
  split; [reflexivity |]. split; [reflexivity |]. split; [reflexivity |].
  split; [reflexivity |]. split; [reflexivity |]. split; [reflexivity |].
  intros Hh Hv. exact (aspect_60_40 s r Hh Hv).
Qed.

(** C3 as stated fails on its example: with hfov = 60 and vfov = 40 the
    aspect ratio exceeds 1.578, so it is not about 1.428. *)
Lemma aspect_60_40_is_not_1428 :
  let s := SS._initializeProperties Scenario.fromDegreesEquator 0 Scenario.options in
  SS.hfov (SS._sensorParameters s) = 60
  /\ SS.vfov (SS._sensorParameters s) = 40
  /\ exists a,
       PerspectiveFrustum.aspectRatio
         (snd (SS._createFrustum s (SS._getEffectiveRange s))) = Fin a
       /\ 1428 / 1000 + 15 / 100 < a.
Proof.
  intros s. split; [reflexivity |]. split; [reflexivity |].
  destruct (aspect_60_40 s (SS._getEffectiveRange s) eq_refl eq_refl)
    as (a & Ha & Hlo & _).
  exists a. split; [exact Ha | lra].
Qed.

(** ** Lifecycle of the shadow camera *)

Lemma destroyFuel_total (w : SS.World) : exists w', SS.destroyFuel 2 w = Some w'.
Proof.
  destruct w as [[pu ps pr dp] [i sp cp cv sz l vm d pp ic]].
  destruct l, pp, ic, dp; simpl; eexists; reflexivity.
Qed.

Lemma destroyFuel_more (n : nat) (w : SS.World) :
  SS.destroyFuel (2 + n) w = SS.destroyFuel 2 w.
Proof.
  destruct w as [[pu ps pr dp] [i sp cp cv sz l vm d pp ic]].
  destruct n; [reflexivity |].
  destruct l, pp, ic, dp; reflexivity.
Qed.

Lemma destroy_closed_form (w : SS.World) :
  SS.destroy w =
  let sc := SS.scene w in
  let s := SS.self w in
  SS.mkWorld
    (SS.mkScene
       (match SS.preUpdateListener s with
        | Some l => SS.removeFirst l (SS.preUpdate sc)
        | None => SS.preUpdate sc
        end)
       (match SS.postProcess s with
        | Some p => SS.removeFirst p (SS.postProcessStages sc)
        | None => SS.postProcessStages sc
        end)
       (if SS.inCollection s
        then SS.removeFirst (SS.id s) (SS.primitives sc)
        else SS.primitives sc)
       (SS.destroyPrimitives sc))
    (SS.mkInstance (SS.id s) (SS._sensorParameters s) (SS._cameraPosition s)
       (SS._calculatedViewPosition s) (SS._size s) None (SS.viewShadowMap s)
       true None false).
Proof.
  destruct w as [[pu ps pr dp] [i sp cp cv sz l vm d pp ic]].
  destruct l, pp, ic, dp; reflexivity.
Qed.

Section ShadowFacts.

Variable fromDegrees : R -> R -> R -> Cartesian3.t.
Variable enu : Cartesian3.t -> Matrix3.t.
Variable smt ppt : bool.

Lemma update_destroyed (s : SS.t) (shadowMaps : list (option SS.ShadowMap)) :
  SS.isDestroyed s = true -> SS.update enu smt s shadowMaps = Ok (s, shadowMaps).
Proof.
  unfold SS.isDestroyed, SS.update. intros H. rewrite H. reflexivity.
Qed.

(** C6, as amended.  [destroy] is idempotent; it removes the [preUpdate]
    hook and the post-process stage, takes the instance out of the scene's
    primitives and marks it destroyed; it leaves the shadow map as it is;
    [update] on a destroyed instance does nothing, and a destroyed instance
    stays destroyed. *)
Theorem destroy_lifecycle (w : SS.World)
    (shadowMaps : list (option SS.ShadowMap)) :
  let w1 := SS.destroy w in
  SS.destroy w1 = w1
  /\ SS.preUpdateListener (SS.self w1) = None
  /\ SS.preUpdate (SS.scene w1)
     = match SS.preUpdateListener (SS.self w) with
       | Some l => SS.removeFirst l (SS.preUpdate (SS.scene w))
       | None => SS.preUpdate (SS.scene w)
       end
  /\ SS.postProcess (SS.self w1) = None
  /\ SS.postProcessStages (SS.scene w1)
     = match SS.postProcess (SS.self w) with
       | Some p => SS.removeFirst p (SS.postProcessStages (SS.scene w))
       | None => SS.postProcessStages (SS.scene w)
       end
  /\ SS.inCollection (SS.self w1) = false
  /\ SS.primitives (SS.scene w1)
     = (if SS.inCollection (SS.self w)
        then SS.removeFirst (SS.id (SS.self w)) (SS.primitives (SS.scene w))
        else SS.primitives (SS.scene w))
  /\ SS.isDestroyed (SS.self w1) = true
  /\ SS.viewShadowMap (SS.self w1) = SS.viewShadowMap (SS.self w)
  /\ SS.update enu smt (SS.self w1) shadowMaps = Ok (SS.self w1, shadowMaps)
  /\ (forall (s : SS.t) (sc : SS.Scene),
        SS.isDestroyed s = true ->
        SS.update enu smt s shadowMaps = Ok (s, shadowMaps)
        /\ SS.isDestroyed (SS.self (SS.destroy (SS.mkWorld sc s))) = true).
Proof.
  intros w1. unfold w1. rewrite !destroy_closed_form. cbn.
  do 10 (split; [reflexivity |]).
  intros s sc Hs. split.
  - apply update_destroyed. exact Hs.
  - rewrite destroy_closed_form. reflexivity.
Qed.

Lemma removeFirst_app_last (a : nat) (l : list nat) :
  ~ In a l -> SS.removeFirst a (l ++ [a]) = l.
Proof.
  induction l as [| b rest IH]; intros Hn; cbn.
  - rewrite Nat.eqb_refl. reflexivity.
  - destruct (Nat.eqb a b) eqn:E.
    + apply Nat.eqb_eq in E. subst b. exfalso. apply Hn. left. reflexivity.
    + f_equal. apply IH. intros Hin. apply Hn. right. exact Hin.
Qed.

(** Destroying a freshly constructed instance gives the scene back as it
    was before the constructor ran. *)
Lemma destroy_after_new_restores_scene (ident : nat) (sc : SS.Scene)
    (opts : SS.SensorShadowOptions) (w : SS.World) :
  SS.new fromDegrees enu smt ppt ident sc opts = Ok w ->
  ~ In ident (SS.preUpdate sc) ->
  ~ In ident (SS.postProcessStages sc) ->
  ~ In ident (SS.primitives sc) ->
  SS.scene (SS.destroy w) = sc.
Proof.
  unfold SS.new, SS._addToScene. cbn [SS.self SS.scene].
  set (s0 := SS._initializeProperties fromDegrees ident opts).
  destruct (SS._createShadowMap enu smt false s0) as [s1 | msg] eqn:E;
    cbn; [| discriminate].
  intros H Hu Hs Hp. injection H as <-.
  assert (Hid : SS.id s1 = ident /\ SS.preUpdateListener s1 = None
                /\ SS.postProcess s1 = None).
  { revert E. unfold SS._createShadowMap, s0. cbn.
    destruct (SS.solverCall _ _ _) as [v | m]; cbn; [| discriminate].
    intros E. injection E as <-.
    unfold SS._createNewShadowMap, SS.configureShadowMap.
    destruct smt; cbn; repeat split. }
  destruct Hid as (Hid & Hl & Hpp).
  rewrite destroy_closed_form.
  unfold SS._addPostProcess, SS.primitivesAdd, SS._setupPreUpdateListener.
  destruct sc as [pu ps pr dp]. cbn in Hu, Hs, Hp.
  cbn [SS.self SS.scene].
  destruct (SS.viewShadowMap s1) as [m |]; [destruct ppt |];
    cbn; rewrite ?Hl, ?Hpp, ?Hid; cbn;
    rewrite ?removeFirst_app_last by assumption; reflexivity.
Qed.

(** What a first [_createShadowMap] leaves in the instance. *)
Lemma createShadowMap_first (s s' : SS.t) :
  SS._createShadowMap enu smt false s = Ok s' ->
  SS.viewShadowMap s = None ->
  SS._sensorParameters s' = SS._sensorParameters s
  /\ SS._cameraPosition s' = SS._cameraPosition s
  /\ match SS.viewShadowMap s' with
     | Some m =>
         SS.maximumDistance m = SS._getEffectiveRange s
         /\ SS.frustum (SS._lightCamera m)
            = snd (SS._createFrustum s (SS._getEffectiveRange s))
         /\ SS.destroyed m = false
     | None => True
     end.
Proof.
  unfold SS._createShadowMap. intros H Hnone.
  destruct (SS._cameraPosition s) as [pos |] eqn:Ep.
  - destruct (SS.solverCall enu s pos) as [v | msg]; cbn in H; [| discriminate].
    injection H as <-.
    unfold SS._createNewShadowMap, SS.configureShadowMap.
    destruct smt; cbn; rewrite ?Hnone; cbn; rewrite ?Hnone, ?Ep; repeat split.
  - injection H as <-. rewrite Hnone, Ep. repeat split.
Qed.

Lemma new_self (ident : nat) (sc : SS.Scene) (opts : SS.SensorShadowOptions)
    (w : SS.World) :
  SS.new fromDegrees enu smt ppt ident sc opts = Ok w ->
  let s0 := SS._initializeProperties fromDegrees ident opts in
  SS._sensorParameters (SS.self w) = SS._sensorParameters s0
  /\ SS._cameraPosition (SS.self w) = SS._cameraPosition s0
  /\ match SS.viewShadowMap (SS.self w) with
     | Some m =>
         SS.maximumDistance m = SS._getEffectiveRange s0
         /\ SS.frustum (SS._lightCamera m)
            = snd (SS._createFrustum s0 (SS._getEffectiveRange s0))
         /\ SS.destroyed m = false
     | None => True
     end.
Proof.
  unfold SS.new, SS._addToScene. cbn [SS.self SS.scene].
  set (s0 := SS._initializeProperties fromDegrees ident opts).
  destruct (SS._createShadowMap enu smt false s0) as [s1 | msg] eqn:E;
    cbn; [| discriminate].
  intros H. injection H as <-.
  destruct (createShadowMap_first s0 s1 E eq_refl) as (Hp & Hc & Hm).
  unfold SS._addPostProcess, SS.primitivesAdd, SS._setupPreUpdateListener.
  cbn [SS.self SS.scene].
  destruct (SS.viewShadowMap s1) as [m |] eqn:Em;
    [destruct ppt |]; cbn; rewrite ?Em; (split; [| split]); auto.
Qed.

Lemma createFrustum_parameters (s s' : SS.t) (r : R) :
  SS._sensorParameters s = SS._sensorParameters s' ->
  SS._createFrustum s r = SS._createFrustum s' r.
Proof. intros H. unfold SS._createFrustum. rewrite H. reflexivity. Qed.

(** The camera of the shadow map built by the constructor carries the
    frustum of [_createFrustum] at the effective range, and the shadow map is
    live. *)
Lemma shadow_camera_frustum (ident : nat) (sc : SS.Scene)
    (opts : SS.SensorShadowOptions) (w : SS.World) (m : SS.ShadowMap) :
  SS.new fromDegrees enu smt ppt ident sc opts = Ok w ->
  SS.viewShadowMap (SS.self w) = Some m ->
  SS.frustum (SS._lightCamera m)
  = snd (SS._createFrustum (SS.self w) (SS._getEffectiveRange (SS.self w)))
  /\ SS.maximumDistance m = SS._getEffectiveRange (SS.self w)
  /\ SS.destroyed m = false.
Proof.
  intros Hw Hm. destruct (new_self _ _ _ _ Hw) as (Hp & _ & H).
  rewrite Hm in H. destruct H as (Hd & Hf & Hl).
  assert (Hr : SS._getEffectiveRange (SS.self w)
               = SS._getEffectiveRange
                   (SS._initializeProperties fromDegrees ident opts)).
  { unfold SS._getEffectiveRange. rewrite Hp. reflexivity. }
  rewrite Hr, (createFrustum_parameters _ _ _ Hp).
  split; [exact Hf |]. split; [exact Hd | exact Hl].
Qed.

End ShadowFacts.

(** The range never reaches SensorShadow as null through this caller. *)
Lemma sensorConfig_range_defined (p : SA.Props) (opts : SS.SensorShadowOptions) :
  SA.sensorConfigOf p = Some opts ->
  exists sv r, SS.sensorParameters opts = Some sv /\ SS.range sv = Some r.
Proof.
  unfold SA.sensorConfigOf, SA.sensorConfig, SA.memoizedCurrentViewSensorInfo.
  destruct (SA.currentViewSensorInfo p) as [i |]; [| discriminate].
  intros H. injection H as <-. cbn. do 2 eexists. split; reflexivity.
Qed.

(** C6 as stated fails: after [destroy] the instance still holds its shadow
    map, and the shadow map is not destroyed. *)
Lemma shadow_map_survives_destroy :
  SS.viewShadowMap (SS.self Scenario.liveWorld) = Some Scenario.liveShadowMap
  /\ SS.viewShadowMap (SS.self (SS.destroy Scenario.liveWorld))
     = Some Scenario.liveShadowMap
  /\ SS.destroyed Scenario.liveShadowMap = false
  /\ SS.isDestroyed (SS.self (SS.destroy Scenario.liveWorld)) = true.
Proof. repeat split. Qed.

Lemma new_equator (opts : SS.SensorShadowOptions) (sv : SS.SensorView) :
  SS.sensorParameters opts = Some sv ->
  SS.azimuth sv = 0 ->
  SS.elevation sv = 0 ->
  exists w m,
    SS.new Scenario.fromDegreesEquator Scenario.enuEquator false false
      0 Scenario.emptyScene opts = Ok w
    /\ SS.viewShadowMap (SS.self w) = Some m.
Proof.
  intros Hsv Haz Hel.
  unfold SS.new, SS._addToScene, SS._createShadowMap,
    SS._initializeProperties, SS.solverCall.
  cbn [SS.self SS.scene SS._cameraPosition SS._sensorParameters nullish].
  rewrite Hsv. cbn [nullish]. rewrite Haz.
  rewrite (solver_equator _ _ Hel). cbn.
  do 2 eexists. split; reflexivity.
Qed.

Lemma far_camera_distance :
  SA.cameraDistance Scenario.surface2001 Scenario.farViewer Scenario.point = 2001.
Proof.
  unfold SA.cameraDistance, Scenario.surface2001, SA.orZero, Reqb. cbn.
  destruct (Req_dec_T 0 0) as [_ | N]; [| exfalso; apply N; reflexivity].
  replace (2001 * (2001 * 1) + (0 - 0) * ((0 - 0) * 1)) with (2001 * 2001)
    by ring.
  apply sqrt_square. lra.
Qed.

(** The gate is what decides: the same scene with the camera 1999 m away
    creates the sensor shadow. *)
Lemma near_camera_creates :
  exists s,
    SA.sensorShadowRef
      (SA.effect Scenario.fromDegreesEquator Scenario.enuEquator false false
         (fun _ _ => 1999) Scenario.props (Some Scenario.farViewer)
         (Some "void main() {}"%string) None Scenario.idleState) = Some s.
Proof.
  destruct (new_equator Scenario.options
              (SS.mkSensorView 0 (- 0) 60 (Some 1000) 40) eq_refl eq_refl)
    as (w & m & Hw & Hm); [cbn; ring |].
  exists (SS.self w).
  unfold SA.effect. cbn [SA.isDeviceSelected Scenario.props negb].
  change (SA.sensorConfigOf Scenario.props) with (Some Scenario.options).
  cbn [SA.truthy andb negb].
  assert (D : SA.cameraDistance (fun _ _ => 1999) Scenario.farViewer
                (SA.point Scenario.props) = 1999).
  { unfold SA.cameraDistance, SA.orZero, Reqb. cbn.
    destruct (Req_dec_T 0 0) as [_ | N]; [| exfalso; apply N; reflexivity].
    replace (1999 * (1999 * 1) + (0 - 0) * ((0 - 0) * 1)) with (1999 * 1999)
      by ring.
    apply sqrt_square. lra. }
  rewrite D. unfold Rltb, SA.MAX_CAMERA_DISTANCE.
  destruct (Rlt_dec 2000 1999) as [L | _]; [lra |].
  change (SA.cleanupSensorShadow Scenario.idleState) with Scenario.idleState.
  cbn [SA.nextId SA.scene Scenario.idleState].
  rewrite Hw. reflexivity.
Qed.

(** ** FrustumVisualizer and the degenerate cases *)

Lemma epsilon_pos : 0 < FV.VECTOR_EPSILON.
Proof. unfold FV.VECTOR_EPSILON, CesiumMath.EPSILON10. lra. Qed.

Lemma safeNormalize_nearZero (v : Cartesian3.t) :
  Degeneracy.nearZero v -> FV.safeNormalize v = Ok None.
Proof.
  unfold Degeneracy.nearZero, FV.safeNormalize, Rleb. intros H.
  destruct (Rle_dec _ _) as [_ | N]; [reflexivity | contradiction].
Qed.

Lemma safeNormalize_far (v : Cartesian3.t) :
  ~ Degeneracy.nearZero v ->
  FV.safeNormalize v = (n <- Cartesian3.normalize v ;; Ok (Some n)).
Proof.
  unfold Degeneracy.nearZero, FV.safeNormalize, Rleb. intros H.
  destruct (Rle_dec _ _) as [L | _]; [contradiction | reflexivity].
Qed.

Lemma safeNormalize_unit (v : Cartesian3.t) :
  Cartesian3.magnitudeSquared v = 1 -> FV.safeNormalize v = Ok (Some v).
Proof.
  intros Hv. rewrite safeNormalize_far.
  - rewrite (normalize_unit _ Hv). reflexivity.
  - unfold Degeneracy.nearZero. rewrite Hv. pose proof epsilon_pos.
    unfold FV.VECTOR_EPSILON, CesiumMath.EPSILON10 in *. lra.
Qed.

Lemma nearZero_dec (v : Cartesian3.t) :
  {Degeneracy.nearZero v} + {~ Degeneracy.nearZero v}.
Proof. unfold Degeneracy.nearZero. apply Rle_dec. Qed.

(** A degenerate step makes the [try] block throw. *)
Lemma degenerate_throws (az el : R) (enu : Matrix3.t) :
  Degeneracy.inVisualizer az el enu ->
  exists msg, FV.orientationTry az el enu = Throw msg.
Proof.
  unfold Degeneracy.inVisualizer, FV.orientationTry.
  set (localDir := Cartesian3.mk _ _ _).
  intros [Z | (u1 & N1 & H)]; [rewrite (safeNormalize_nearZero _ Z); cbn; eauto |].
  destruct (nearZero_dec localDir) as [Z | NZ]; [rewrite (safeNormalize_nearZero _ Z); cbn; eauto |].
  rewrite (safeNormalize_far _ NZ), N1. cbn.
  destruct H as [Z | (u2 & N2 & H)]; [rewrite (safeNormalize_nearZero _ Z); cbn; eauto |].
  destruct (nearZero_dec (Cartesian3.cross u1 (Cartesian3.mk 0 0 1)))
    as [Z | NZ2]; [rewrite (safeNormalize_nearZero _ Z); cbn; eauto |].
  rewrite (safeNormalize_far _ NZ2), N2. cbn.
  destruct H as [Z | (u3 & N3 & H)]; [rewrite (safeNormalize_nearZero _ Z); cbn; eauto |].
  destruct (nearZero_dec (Cartesian3.cross u2 u1)) as [Z | NZ3]; [rewrite (safeNormalize_nearZero _ Z); cbn; eauto |].
  rewrite (safeNormalize_far _ NZ3), N3. cbn.
  destruct (FV.safeNormalize (Matrix3.multiplyByVector enu u1))
    as [o1 | m1] eqn:E1; cbn; [| eauto].
  destruct (FV.safeNormalize (Matrix3.multiplyByVector enu u2))
    as [o2 | m2] eqn:E2; cbn; [| eauto].
  destruct (FV.safeNormalize (Matrix3.multiplyByVector enu u3))
    as [o3 | m3] eqn:E3; cbn; [| eauto].
  destruct H as [Z | [Z | Z]]; rewrite (safeNormalize_nearZero _ Z) in *.
  - injection E1 as <-. eauto.
  - injection E2 as <-. destruct o1; eauto.
  - injection E3 as <-. destruct o1; [destruct o2 |]; eauto.
Qed.

Lemma degenerate_identity (az el : R) (enu : Matrix3.t) :
  Degeneracy.inVisualizer az el enu ->
  FV.orientation az el enu = Quaternion.IDENTITY.
Proof.
  intros H. destruct (degenerate_throws az el enu H) as [msg E].
  unfold FV.orientation. rewrite E. reflexivity.
Qed.

(** Looking straight up or down, the local right vector vanishes. *)
Lemma zenith_degenerate (az : R) (enu : Matrix3.t) :
  Degeneracy.inVisualizer az (FV.normalizedElevation 90) enu.
Proof.
  unfold Degeneracy.inVisualizer, FV.normalizedElevation.
  rewrite toRadians_opp, toRadians_90, cos_neg, sin_neg, cos_PI2, sin_PI2.
  right. exists (Cartesian3.mk 0 0 (-1)). split.
  - replace (Cartesian3.mk _ _ _) with (Cartesian3.mk 0 0 (-1))
      by (apply Cartesian3_ext; cbn; ring).
    apply normalize_unit. unit_vec.
  - left. unfold Degeneracy.nearZero, Cartesian3.magnitudeSquared. cbn.
    pose proof epsilon_pos. lra.
Qed.





Lemma equals_refl (q : Quaternion.t) : Quaternion.equals q q = true.
Proof.
  unfold Quaternion.equals, Reqb.
  repeat (destruct (Req_dec_T _ _) as [_ | N]; [| exfalso; apply N; reflexivity]).
  reflexivity.
Qed.

(** C9.  Whenever FrustumVisualizer's orientation is the identity
    quaternion, whatever the reason, the geometry memo yields nothing and the
    component renders nothing. *)
Theorem identity_orientation_renders_nothing (p : FV.Props)
    (origin : Cartesian3.t) (enu : Matrix3.t) :
  FV.orientationOf p enu = Quaternion.IDENTITY ->
  FV.geometryOf p origin enu = None /\ FV.render p origin enu = None.
Proof.
  intros H.
  assert (G : FV.geometryOf p origin enu = None).
  { unfold FV.geometryOf, FV.geometryInstances. rewrite H, equals_refl.
    destruct (FV.frustumOf p); reflexivity. }
  split; [exact G |]. unfold FV.render. rewrite G. reflexivity.
Qed.

Lemma zenith_identity (enu : Matrix3.t) :
  FV.orientationOf Scenario.zenithProps enu = Quaternion.IDENTITY.
Proof. unfold FV.orientationOf. apply degenerate_identity, zenith_degenerate. Qed.

Lemma identity_orientation_renders_nothing_witness :
  FV.orientationOf Scenario.zenithProps (Transforms.eastNorthUp 0 0)
  = Quaternion.IDENTITY
  /\ FV.render Scenario.zenithProps Scenario.origin (Transforms.eastNorthUp 0 0)
     = None.
Proof.
  split; [apply zenith_identity |].
  exact (proj2 (identity_orientation_renders_nothing Scenario.zenithProps
                  Scenario.origin (Transforms.eastNorthUp 0 0)
                  (zenith_identity (Transforms.eastNorthUp 0 0)))).
Defined.

Lemma input_valid_east : FV.isInputValid Scenario.eastProps = true.
Proof.
  unfold FV.isInputValid, FV.isValidAngle, FV.isValidRange, lt, gt, Rltb. cbn.
  repeat (destruct (Rlt_dec _ _) as [_ | N]; [| exfalso; apply N; lra]).
  reflexivity.
Qed.

(** On the equator at longitude 90, pointing North and level, the solver
    succeeds and its result is the identity quaternion. *)
Lemma east_identity :
  FV.orientationTry (FV.normalizedAzimuth 0) (FV.normalizedElevation 0)
    (Transforms.eastNorthUp 0 90) = Ok Quaternion.IDENTITY.
Proof.
  unfold FV.orientationTry, FV.normalizedElevation.
  change (FV.normalizedAzimuth 0) with (SensorFrustum.normalizedAzimuth 0).
  rewrite normalizedAzimuth_0, enu_east.
  replace (0 + 180) with 180 by ring.
  replace (- 0) with 0 by ring.
  rewrite toRadians_180, toRadians_0, sin_PI, cos_PI, sin_0, cos_0.
  replace (Cartesian3.mk (0 * 1) (-1 * 1) 0) with (Cartesian3.mk 0 (-1) 0)
    by (apply Cartesian3_ext; cbn; ring).
  rewrite safeNormalize_unit by unit_vec. cbn [FV.orThrow JS.bind].
  replace (Cartesian3.cross (Cartesian3.mk 0 (-1) 0) (Cartesian3.mk 0 0 1))
    with (Cartesian3.mk (-1) 0 0) by vec_eval.
  rewrite safeNormalize_unit by unit_vec. cbn [FV.orThrow JS.bind].
  replace (Cartesian3.cross (Cartesian3.mk (-1) 0 0) (Cartesian3.mk 0 (-1) 0))
    with (Cartesian3.mk 0 0 1) by vec_eval.
  rewrite safeNormalize_unit by unit_vec. cbn [FV.orThrow JS.bind].
  replace (Matrix3.multiplyByVector _ (Cartesian3.mk 0 (-1) 0))
    with (Cartesian3.mk 0 0 (-1)) by vec_eval.
  replace (Matrix3.multiplyByVector _ (Cartesian3.mk (-1) 0 0))
    with (Cartesian3.mk 1 0 0) by vec_eval.
  replace (Matrix3.multiplyByVector _ (Cartesian3.mk 0 0 1))
    with (Cartesian3.mk 0 1 0) by vec_eval.
  rewrite !safeNormalize_unit by unit_vec. cbn [JS.bind].
  f_equal.
  unfold QuaternionOfMatrix.fromRotationMatrix, Rltb. cbn.
  destruct (Rlt_dec 0 (1 + 1 + - -1)) as [_ | N]; [| exfalso; apply N; lra].
  replace (1 + 1 + - -1 + 1) with (2 * 2) by ring.
  rewrite sqrt_square by lra.
  unfold Quaternion.IDENTITY. f_equal; field.
Qed.

(** The identity quaternion is both the value the [catch] substitutes and a
    value the solver can compute for a valid input, and the component renders
    nothing in either case. *)
Lemma identity_sentinel_and_legitimate :
  (exists msg,
      FV.orientationTry (FV.normalizedAzimuth (FV.azimuth Scenario.zenithProps))
        (FV.normalizedElevation (FV.elevation Scenario.zenithProps))
        (Transforms.eastNorthUp 0 0) = Throw msg)
  /\ FV.render Scenario.zenithProps Scenario.origin (Transforms.eastNorthUp 0 0)
     = None
  /\ FV.isInputValid Scenario.eastProps = true
  /\ FV.orientationTry (FV.normalizedAzimuth (FV.azimuth Scenario.eastProps))
       (FV.normalizedElevation (FV.elevation Scenario.eastProps))
       (Transforms.eastNorthUp 0 90) = Ok Quaternion.IDENTITY
  /\ FV.render Scenario.eastProps Scenario.origin (Transforms.eastNorthUp 0 90)
     = None.
Proof.
  split; [apply degenerate_throws, zenith_degenerate |].
  split.
  { unfold FV.render,FV.geometryOf, FV.geometryInstances.
    rewrite zenith_identity, equals_refl.
    destruct (FV.frustumOf Scenario.zenithProps); reflexivity. }
  split; [exact input_valid_east |].
  split; [exact east_identity |].
  assert (E : FV.orientationOf Scenario.eastProps (Transforms.eastNorthUp 0 90)
              = Quaternion.IDENTITY).
  { unfold FV.orientationOf, FV.orientation.
    cbn [FV.azimuth FV.elevation Scenario.eastProps].
    rewrite east_identity. reflexivity. }
  unfold FV.render, FV.geometryOf, FV.geometryInstances.
  rewrite E, equals_refl.
  destruct (FV.frustumOf Scenario.eastProps); reflexivity.
Qed.

Lemma isValidAngle_spec (a : number) :
  FV.isValidAngle a = true <-> exists r, a = Fin r /\ 0 < r < 180.
Proof.
  unfold FV.isValidAngle, lt, gt, Rltb. split.
  - destruct a as [r | | |]; cbn; try discriminate.
    destruct (Rlt_dec 0 r), (Rlt_dec r 180); cbn; try discriminate.
    intros _. exists r. auto.
  - intros (r & -> & H0 & H1). cbn.
    destruct (Rlt_dec 0 r), (Rlt_dec r 180); cbn; auto; lra.
Qed.

Lemma invalid_no_geometry (p : FV.Props) (origin : Cartesian3.t)
    (enu : Matrix3.t) :
  FV.isInputValid p = false ->
  FV.frustumOf p = None
  /\ FV.geometryOf p origin enu = None
  /\ FV.render p origin enu = None.
Proof.
  intros H.
  assert (F : FV.frustumOf p = None).
  { unfold FV.frustumOf, FV.frustum. rewrite H. reflexivity. }
  assert (G : FV.geometryOf p origin enu = None).
  { unfold FV.geometryOf. rewrite F. reflexivity. }
  split; [exact F |]. split; [exact G |].
  unfold FV.render. rewrite G. reflexivity.
Qed.

Lemma invalid_angle_input (p : FV.Props) :
  FV.isValidAngle (FV.hfov p) = false \/ FV.isValidAngle (FV.vfov p) = false ->
  FV.isInputValid p = false.
Proof.
  unfold FV.isInputValid. intros [H | H]; rewrite H; cbn; [reflexivity |].
  destruct (FV.isValidAngle (FV.hfov p)); reflexivity.
Qed.

(** C5, as amended.  A horizontal or vertical field of view that is not a
    finite number strictly between 0 and 180 (in particular vfov = 0) makes
    FrustumVisualizer's frustum construction yield null, and the component
    produces no geometry and renders nothing; nothing is thrown. *)
Theorem invalid_fov_yields_nothing (p : FV.Props) (origin : Cartesian3.t)
    (enu : Matrix3.t) :
  (~ (exists r, FV.hfov p = Fin r /\ 0 < r < 180)
   \/ ~ (exists r, FV.vfov p = Fin r /\ 0 < r < 180)) ->
  FV.frustumOf p = None
  /\ FV.geometryOf p origin enu = None
  /\ FV.render p origin enu = None.
Proof.
  intros H. apply invalid_no_geometry, invalid_angle_input.
  destruct H as [H | H]; [left | right];
    (destruct (FV.isValidAngle _) eqn:E; [| reflexivity]);
    exfalso; apply H; apply isValidAngle_spec; exact E.
Qed.

Lemma invalid_fov_yields_nothing_witness :
  ~ (exists r, FV.vfov Scenario.flatProps = Fin r /\ 0 < r < 180)
  /\ FV.frustumOf Scenario.flatProps = None
  /\ FV.render Scenario.flatProps Scenario.origin (Transforms.eastNorthUp 0 0)
     = None.
Proof.
  assert (H : ~ (exists r, FV.vfov Scenario.flatProps = Fin r /\ 0 < r < 180)).
  { intros (r & E & H0 & _). cbn in E. injection E as <-. lra. }
  split; [exact H |].
  destruct (invalid_fov_yields_nothing Scenario.flatProps Scenario.origin
              (Transforms.eastNorthUp 0 0) (or_intror H)) as (F & _ & Rn).
  split; [exact F | exact Rn].
Defined.

(** C5 as stated fails for the shadow camera: with vfov = 0 SensorShadow
    builds its camera all the same, with field of view 0 and an infinite
    aspect ratio. *)
Lemma shadow_frustum_not_validated :
  exists w m,
    SS.new Scenario.fromDegreesEquator Scenario.enuEquator false false
      0 Scenario.emptyScene Scenario.flatOptions = Ok w
    /\ SS.viewShadowMap (SS.self w) = Some m
    /\ SS.frustum (SS._lightCamera m)
       = PerspectiveFrustum.mk (Fin 0) PosInf (Fin 5) (Fin 1000).
Proof.
  destruct (new_equator Scenario.flatOptions _ eq_refl eq_refl eq_refl)
    as (w & m & Hw & Hm).
  exists w, m. split; [exact Hw |]. split; [exact Hm |].
  destruct (new_self _ _ _ _ _ _ _ _ Hw) as (_ & _ & H).
  rewrite Hm in H. destruct H as (_ & Hf & _). rewrite Hf.
  unfold SS._createFrustum. cbn.
  rewrite toRadians_30, toRadians_0.
  replace (CesiumMath.toRadians (0 / 2)) with 0
    by (unfold CesiumMath.toRadians; field).
  rewrite tan_0, (div_pos_zero _ tan_PI6_pos). reflexivity.
Qed.

(** * Further properties of the code *)

(** ** The azimuth normalization of SensorFrustum and FrustumVisualizer *)

Lemma Int_part_bounds (r : R) : IZR (Int_part r) <= r < IZR (Int_part r) + 1.
Proof.
  pose proof (base_Int_part r) as [H1 H2]. lra.
Qed.

Lemma trunc_nonneg (r : R) : 0 <= r -> IZR (JS.trunc r) <= r < IZR (JS.trunc r) + 1.
Proof.
  intros H. unfold JS.trunc. destruct (Rle_dec 0 r); [| contradiction].
  apply Int_part_bounds.
Qed.

Lemma trunc_neg (r : R) : r < 0 -> IZR (JS.trunc r) - 1 < r <= IZR (JS.trunc r).
Proof.
  intros H. unfold JS.trunc. destruct (Rle_dec 0 r); [lra |].
  rewrite opp_IZR. pose proof (Int_part_bounds (- r)). lra.
Qed.

(** The remainder has the sign of the dividend and is smaller than the
    divisor. *)
Lemma rem_nonneg (a b : R) : 0 < b -> 0 <= a -> 0 <= JS.rem a b < b.
Proof.
  intros Hb Ha. unfold JS.rem.
  assert (Hq : 0 <= a / b)
    by (apply Rmult_le_pos; [lra | left; apply Rinv_0_lt_compat; lra]).
  pose proof (trunc_nonneg _ Hq) as [H1 H2].
  assert (E : a = b * (a / b)) by (field; lra).
  split; nra.
Qed.

Lemma rem_neg (a b : R) : 0 < b -> a < 0 -> - b < JS.rem a b <= 0.
Proof.
  intros Hb Ha. unfold JS.rem.
  assert (Hq : a / b < 0).
  { unfold Rdiv. pose proof (Rinv_0_lt_compat b Hb). nra. }
  pose proof (trunc_neg _ Hq) as [H1 H2].
  assert (E : a = b * (a / b)) by (field; lra).
  split; nra.
Qed.

Lemma rem_small (a b : R) : 0 <= a < b -> JS.rem a b = a.
Proof.
  intros [H0 H1]. unfold JS.rem.
  assert (Hb : 0 < b) by lra.
  assert (Hq : 0 <= a / b < 1).
  { split.
    - apply Rmult_le_pos; [lra | left; apply Rinv_0_lt_compat; lra].
    - apply Rmult_lt_reg_r with b; [lra |].
      replace (a / b * b) with a by (field; lra). lra. }
  pose proof (trunc_nonneg _ (proj1 Hq)) as [T1 T2].
  assert (Z : JS.trunc (a / b) = 0%Z).
  { assert (-1 < IZR (JS.trunc (a / b)) < 1) by lra.
    destruct H as [A B]. apply lt_IZR in A, B. lia. }
  rewrite Z. ring.
Qed.

Lemma rem_shift (a b : R) : 0 < b -> 0 <= a < b -> JS.rem (a + b) b = a.
Proof.
  intros Hb [H0 H1]. unfold JS.rem.
  assert (Hq : 1 <= (a + b) / b < 2).
  { split.
    - apply Rmult_le_reg_r with b; [lra |].
      replace ((a + b) / b * b) with (a + b) by (field; lra). lra.
    - apply Rmult_lt_reg_r with b; [lra |].
      replace ((a + b) / b * b) with (a + b) by (field; lra). lra. }
  assert (Hq0 : 0 <= (a + b) / b) by lra.
  pose proof (trunc_nonneg _ Hq0) as [T1 T2].
  assert (Z : JS.trunc ((a + b) / b) = 1%Z).
  { assert (0 < IZR (JS.trunc ((a + b) / b)) < 2) by lra.
    destruct H as [A B]. apply lt_IZR in A, B. lia. }
  rewrite Z. ring.
Qed.

(** [((a % 360) + 360) % 360] is the mathematical residue of [a]. *)
Lemma normalizedAzimuth_floor (a : R) :
  SensorFrustum.normalizedAzimuth a = a - 360 * IZR (Int_part (a / 360)).
Proof.
  unfold SensorFrustum.normalizedAzimuth.
  pose proof (Int_part_bounds (a / 360)) as [F1 F2].
  assert (Ea : a = 360 * (a / 360)) by field.
  destruct (Rle_dec 0 a) as [Hp | Hn].
  - pose proof (rem_nonneg a 360 ltac:(lra) Hp) as Hr.
    rewrite (rem_shift _ 360) by lra.
    unfold JS.rem, JS.trunc.
    destruct (Rle_dec 0 (a / 360)) as [_ | N]; [reflexivity |].
    exfalso. apply N. unfold Rdiv. nra.
  - assert (Ha : a < 0) by lra.
    pose proof (rem_neg a 360 ltac:(lra) Ha) as [R1 R2].
    assert (Hq : a / 360 < 0) by (unfold Rdiv; nra).
    pose proof (trunc_neg _ Hq) as [T1 T2].
    assert (Er : JS.rem a 360 = a - 360 * IZR (JS.trunc (a / 360))) by reflexivity.
    destruct (Req_dec_T (JS.rem a 360) 0) as [Z | NZ].
    + rewrite Z, Rplus_0_l, rem_self by lra.
      assert (EI : Int_part (a / 360) = JS.trunc (a / 360)).
      { symmetry. apply Int_part_spec. split; nra. }
      rewrite EI. lra.
    + rewrite rem_small by lra.
      assert (EI : Int_part (a / 360) = (JS.trunc (a / 360) - 1)%Z).
      { symmetry. apply Int_part_spec. rewrite minus_IZR. split; nra. }
      rewrite EI, minus_IZR. lra.
Qed.

Lemma normalizedAzimuth_bounds (a : R) :
  0 <= SensorFrustum.normalizedAzimuth a < 360.
Proof.
  rewrite normalizedAzimuth_floor.
  pose proof (Int_part_bounds (a / 360)) as [F1 F2].
  assert (Ea : a = 360 * (a / 360)) by field.
  split; nra.
Qed.

(** X1.  The normalized azimuth [((azimuth % 360) + 360) % 360] lies in
    [0, 360) for every azimuth, negative ones included, and SensorFrustum
    and FrustumVisualizer compute the same value. *)
Theorem normalizedAzimuth_in_range (a : R) :
  0 <= SensorFrustum.normalizedAzimuth a < 360
  /\ FrustumVisualizer.normalizedAzimuth a = SensorFrustum.normalizedAzimuth a.
Proof.
  split; [apply normalizedAzimuth_bounds | reflexivity].
Qed.

(** X2.  Azimuths that differ by a whole number of turns have the same
    normalized azimuth. *)
Theorem normalizedAzimuth_periodic (a : R) (k : Z) :
  SensorFrustum.normalizedAzimuth (a + 360 * IZR k)
  = SensorFrustum.normalizedAzimuth a.
Proof.
  rewrite !normalizedAzimuth_floor.
  assert (E : Int_part ((a + 360 * IZR k) / 360) = (Int_part (a / 360) + k)%Z).
  { symmetry. apply Int_part_spec. rewrite plus_IZR.
    pose proof (Int_part_bounds (a / 360)) as [F1 F2].
    replace ((a + 360 * IZR k) / 360) with (a / 360 + IZR k) by field.
    lra. }
  rewrite E, plus_IZR. ring.
Qed.

Lemma sin_period_Z (x : R) (k : Z) : sin (x + 2 * IZR k * PI) = sin x.
Proof.
  destruct (Z_le_gt_dec 0 k) as [Hk | Hk].
  - rewrite <- (Z2Nat.id k Hk), <- INR_IZR_INZ. apply sin_period.
  - rewrite <- (sin_period (x + 2 * IZR k * PI) (Z.to_nat (- k))).
    rewrite INR_IZR_INZ, Z2Nat.id by lia. rewrite opp_IZR. f_equal. ring.
Qed.

Lemma cos_period_Z (x : R) (k : Z) : cos (x + 2 * IZR k * PI) = cos x.
Proof.
  destruct (Z_le_gt_dec 0 k) as [Hk | Hk].
  - rewrite <- (Z2Nat.id k Hk), <- INR_IZR_INZ. apply cos_period.
  - rewrite <- (cos_period (x + 2 * IZR k * PI) (Z.to_nat (- k))).
    rewrite INR_IZR_INZ, Z2Nat.id by lia. rewrite opp_IZR. f_equal. ring.
Qed.

Lemma normalized_sin_cos (az : R) :
  sin (CesiumMath.toRadians (SensorFrustum.normalizedAzimuth az))
  = sin (CesiumMath.toRadians az)
  /\ cos (CesiumMath.toRadians (SensorFrustum.normalizedAzimuth az))
     = cos (CesiumMath.toRadians az).
Proof.
  assert (E : CesiumMath.toRadians (SensorFrustum.normalizedAzimuth az)
              = CesiumMath.toRadians az
                + 2 * IZR (- Int_part (az / 360)) * PI).
  { rewrite normalizedAzimuth_floor, opp_IZR.
    unfold CesiumMath.toRadians, CesiumMath.RADIANS_PER_DEGREE. field. }
  rewrite E, sin_period_Z, cos_period_Z. auto.
Qed.

Lemma normalized_half_turn (az : R) :
  sin (CesiumMath.toRadians (SensorFrustum.normalizedAzimuth az + 180))
  = - sin (CesiumMath.toRadians az)
  /\ cos (CesiumMath.toRadians (SensorFrustum.normalizedAzimuth az + 180))
     = - cos (CesiumMath.toRadians az).
Proof.
  assert (E : CesiumMath.toRadians (SensorFrustum.normalizedAzimuth az + 180)
              = CesiumMath.toRadians az + PI
                + 2 * IZR (- Int_part (az / 360)) * PI).
  { rewrite normalizedAzimuth_floor, opp_IZR.
    unfold CesiumMath.toRadians, CesiumMath.RADIANS_PER_DEGREE. field. }
  rewrite E, sin_period_Z, cos_period_Z, neg_sin, neg_cos. auto.
Qed.

Lemma opposite_elevation (el : R) :
  sin (CesiumMath.toRadians (- el)) = - sin (CesiumMath.toRadians el)
  /\ cos (CesiumMath.toRadians (- el)) = cos (CesiumMath.toRadians el).
Proof. rewrite toRadians_opp, sin_neg, cos_neg. auto. Qed.

(** ** Unit vectors, cross products and orthonormal frames *)

Lemma magnitude_sq (v : Cartesian3.t) :
  Cartesian3.magnitude v * Cartesian3.magnitude v = Cartesian3.magnitudeSquared v.
Proof. unfold Cartesian3.magnitude. apply sqrt_sqrt, magnitudeSquared_nonneg. Qed.

(** Whenever [Cartesian3.normalize] returns, its result has length one and
    points along the input. *)
Lemma normalize_Ok_unit (v u : Cartesian3.t) :
  Cartesian3.normalize v = Ok u ->
  Geometry.isUnit u
  /\ Cartesian3.magnitudeSquared v <> 0
  /\ v = Cartesian3.multiplyByScalar u (Cartesian3.magnitude v).
Proof.
  unfold Cartesian3.normalize.
  destruct (Req_dec_T (Cartesian3.magnitude v) 0) as [E | N]; [discriminate |].
  intros H. injection H as <-.
  pose proof (magnitude_sq v) as Hs.
  split; [| split].
  - unfold Geometry.isUnit, Cartesian3.magnitudeSquared at 1. cbn.
    unfold Cartesian3.magnitudeSquared in Hs.
    set (m := Cartesian3.magnitude v) in *.
    replace (Cartesian3.x v / m * (Cartesian3.x v / m)
             + Cartesian3.y v / m * (Cartesian3.y v / m)
             + Cartesian3.z v / m * (Cartesian3.z v / m))
      with ((Cartesian3.x v * Cartesian3.x v + Cartesian3.y v * Cartesian3.y v
             + Cartesian3.z v * Cartesian3.z v) / (m * m)) by (field; exact N).
    rewrite <- Hs. field. exact N.
  - intros Z. apply N. apply magnitude_zero_iff. exact Z.
  - apply Cartesian3_ext; cbn; field; exact N.
Qed.

Lemma normalize_total (v : Cartesian3.t) :
  Cartesian3.magnitudeSquared v <> 0 -> exists u, Cartesian3.normalize v = Ok u.
Proof. intros H. rewrite (normalize_nonzero _ H). eauto. Qed.

(** An orthonormal matrix preserves dot products. *)
Lemma orthonormal_dot (m : Matrix3.t) (a b : Cartesian3.t) :
  Geometry.orthonormal m ->
  Geometry.dot (Matrix3.multiplyByVector m a) (Matrix3.multiplyByVector m b)
  = Geometry.dot a b.
Proof.
  unfold Geometry.orthonormal, Geometry.orthonormalTriple, Geometry.isUnit,
    Geometry.dot, Cartesian3.magnitudeSquared.
  destruct m, a, b; cbn. intros (H0 & H1 & H2 & H01 & H02 & H12). nsatz.
Qed.

Lemma magnitudeSquared_dot (v : Cartesian3.t) :
  Cartesian3.magnitudeSquared v = Geometry.dot v v.
Proof. reflexivity. Qed.

Lemma orthonormal_isUnit (m : Matrix3.t) (a : Cartesian3.t) :
  Geometry.orthonormal m -> Geometry.isUnit a ->
  Geometry.isUnit (Matrix3.multiplyByVector m a).
Proof.
  intros Hm Ha. unfold Geometry.isUnit in *.
  rewrite magnitudeSquared_dot, (orthonormal_dot m a a Hm). exact Ha.
Qed.

(** Lagrange's identity and the double cross product. *)
Lemma cross_magnitudeSquared (a b : Cartesian3.t) :
  Cartesian3.magnitudeSquared (Cartesian3.cross a b)
  = Cartesian3.magnitudeSquared a * Cartesian3.magnitudeSquared b
    - Geometry.dot a b * Geometry.dot a b.
Proof.
  destruct a, b. unfold Cartesian3.magnitudeSquared, Geometry.dot. cbn. ring.
Qed.

Lemma cross_dot_left (a b : Cartesian3.t) :
  Geometry.dot a (Cartesian3.cross a b) = 0.
Proof. destruct a, b. unfold Geometry.dot. cbn. ring. Qed.

Lemma cross_dot_right (a b : Cartesian3.t) :
  Geometry.dot b (Cartesian3.cross a b) = 0.
Proof. destruct a, b. unfold Geometry.dot. cbn. ring. Qed.

Lemma cross_cross (a b : Cartesian3.t) :
  Geometry.isUnit a -> Geometry.dot a b = 0 ->
  Cartesian3.cross (Cartesian3.cross a b) a = b.
Proof.
  destruct a, b. unfold Geometry.isUnit, Geometry.dot, Cartesian3.magnitudeSquared.
  cbn. intros Hu Hd. apply Cartesian3_ext; cbn; nsatz.
Qed.

(** The two local vectors of the shadow solver are an orthonormal pair. *)
Lemma local_pair_orthonormal (a e : R) :
  let d := SensorFrustum.localDirection a e in
  let u := Cartesian3.mk (- sin a * sin e) (- cos a * sin e) (cos e) in
  Geometry.isUnit d /\ Geometry.isUnit u /\ Geometry.dot d u = 0
  /\ Cartesian3.cross d u = Cartesian3.mk (cos a) (- sin a) 0.
Proof.
  intros d u. unfold d, u, SensorFrustum.localDirection, Geometry.isUnit,
    Geometry.dot, Cartesian3.magnitudeSquared. cbn.
  pose proof (sin_cos_sq a) as Ha. pose proof (sin_cos_sq e) as He.
  revert Ha He. generalize (sin a) (cos a) (sin e) (cos e). intros sa ca se ce Ha He.
  repeat split; try nsatz.
  apply Cartesian3_ext; cbn; nsatz.
Qed.

Section ShadowSolver.

Variable enu : Cartesian3.t -> Matrix3.t.

(** For an orthonormal East-North-Up rotation the shadow solver never fails
    and returns an orthonormal frame: the direction is the rotated local
    direction, up the rotated local up, right their cross product. *)
Lemma shadow_solver_frame (pos : Cartesian3.t) (az el : R) :
  Geometry.orthonormal (enu pos) ->
  let a := CesiumMath.toRadians az in
  let e := CesiumMath.toRadians el in
  let d := Matrix3.multiplyByVector (enu pos) (SensorFrustum.localDirection a e) in
  let u := Matrix3.multiplyByVector (enu pos)
             (Cartesian3.mk (- sin a * sin e) (- cos a * sin e) (cos e)) in
  SensorShadow._calculateCameraVectors enu pos az el
  = Ok (SensorShadow.mkVectors d u (Cartesian3.cross d u))
  /\ Geometry.orthonormalTriple d u (Cartesian3.cross d u).
Proof.
  intros Hm a e d u.
  destruct (local_pair_orthonormal a e) as (Hd & Hu & Hdu & _).
  assert (HD : Geometry.isUnit d) by (apply orthonormal_isUnit; assumption).
  assert (HU : Geometry.isUnit u) by (apply orthonormal_isUnit; assumption).
  assert (HDU : Geometry.dot d u = 0).
  { unfold d, u. rewrite orthonormal_dot by exact Hm. exact Hdu. }
  assert (HR : Geometry.isUnit (Cartesian3.cross d u)).
  { unfold Geometry.isUnit in *. rewrite cross_magnitudeSquared, HD, HU, HDU. ring. }
  split.
  - unfold SensorShadow._calculateCameraVectors.
    rewrite localVectors_closed_form. cbn [JS.bind].
    fold a e. fold d u.
    rewrite (normalize_unit d HD), (normalize_unit u HU). cbn [JS.bind].
    rewrite (normalize_unit _ HR). cbn [JS.bind].
    rewrite (cross_cross d u HD HDU).
    rewrite (normalize_unit u HU). reflexivity.
  - unfold Geometry.orthonormalTriple.
    repeat split; try assumption.
    + apply cross_dot_left.
    + apply cross_dot_right.
Qed.

End ShadowSolver.

(** ** The steps of SensorFrustum's solver *)

Lemma normalize_scaled (v : Cartesian3.t) (k : R) :
  Geometry.isUnit v -> k <> 0 ->
  Cartesian3.normalize (Cartesian3.multiplyByScalar v k)
  = Ok (Cartesian3.multiplyByScalar v (k / Rabs k)).
Proof.
  intros Hv Hk.
  assert (Hs : Cartesian3.magnitudeSquared (Cartesian3.multiplyByScalar v k) = Rsqr k).
  { unfold Geometry.isUnit, Cartesian3.magnitudeSquared in *. destruct v; cbn in *.
    unfold Rsqr. nsatz. }
  assert (Hm : Cartesian3.magnitude (Cartesian3.multiplyByScalar v k) = Rabs k).
  { unfold Cartesian3.magnitude. rewrite Hs. apply sqrt_Rsqr_abs. }
  pose proof (Rabs_no_R0 k Hk) as Ha.
  rewrite normalize_nonzero.
  - rewrite Hm. f_equal. destruct v; apply Cartesian3_ext; cbn; field; exact Ha.
  - rewrite Hs. unfold Rsqr. nra.
Qed.


Lemma sgn_sq (k : R) : k <> 0 -> Geometry.sgn k * Geometry.sgn k = 1.
Proof.
  intros Hk. unfold Geometry.sgn. pose proof (Rabs_no_R0 k Hk).
  replace (k / Rabs k * (k / Rabs k)) with ((k * k) / (Rabs k * Rabs k)) by (field; assumption).
  replace (Rabs k * Rabs k) with (k * k).
  - field. nra.
  - unfold Rabs. destruct (Rcase_abs k); ring.
Qed.

Lemma scaled_isUnit (v : Cartesian3.t) (s : R) :
  Geometry.isUnit v -> s * s = 1 -> Geometry.isUnit (Cartesian3.multiplyByScalar v s).
Proof.
  unfold Geometry.isUnit, Cartesian3.magnitudeSquared. destruct v; cbn.
  intros Hv Hs. nsatz.
Qed.

(** The first two steps of the outline solvers, in local coordinates. *)
Lemma outline_local_steps (a e : R) :
  cos e <> 0 ->
  let d := SensorFrustum.localDirection a e in
  let r := Cartesian3.multiplyByScalar (Cartesian3.mk (cos a) (- sin a) 0) (Geometry.sgn (cos e)) in
  let u := Cartesian3.multiplyByScalar
             (Cartesian3.mk (- sin a * sin e) (- cos a * sin e) (cos e))
             (Geometry.sgn (cos e)) in
  Cartesian3.normalize (Cartesian3.cross d (Cartesian3.mk 0 0 1)) = Ok r
  /\ Cartesian3.normalize (Cartesian3.cross r d) = Ok u
  /\ Geometry.isUnit d /\ Geometry.isUnit r /\ Geometry.isUnit u
  /\ Geometry.dot r u = 0 /\ Geometry.dot r d = 0 /\ Geometry.dot u d = 0.
Proof.
  intros Hc d r u.
  pose proof (sgn_sq _ Hc) as Hs.
  pose proof (sin_cos_sq a) as Ha. pose proof (sin_cos_sq e) as He.
  assert (U0 : Geometry.isUnit (Cartesian3.mk (cos a) (- sin a) 0)).
  { unfold Geometry.isUnit, Cartesian3.magnitudeSquared. cbn. lra. }
  assert (E1 : Cartesian3.cross d (Cartesian3.mk 0 0 1)
               = Cartesian3.multiplyByScalar (Cartesian3.mk (cos a) (- sin a) 0) (cos e)).
  { unfold d, SensorFrustum.localDirection. apply Cartesian3_ext; cbn; ring. }
  assert (N1 : Cartesian3.normalize (Cartesian3.cross d (Cartesian3.mk 0 0 1)) = Ok r).
  { rewrite E1. apply normalize_scaled; assumption. }
  assert (Ur : Geometry.isUnit r) by (apply scaled_isUnit; assumption).
  assert (E2 : Cartesian3.cross r d = u).
  { unfold r, u, d, SensorFrustum.localDirection.
    revert Ha He. generalize (Geometry.sgn (cos e)) (sin a) (cos a) (sin e) (cos e).
    intros s sa ca se ce Ha He. apply Cartesian3_ext; cbn; nsatz. }
  assert (Uu : Geometry.isUnit u).
  { apply scaled_isUnit; [| assumption].
    unfold Geometry.isUnit, Cartesian3.magnitudeSquared. cbn.
    revert Ha He. generalize (sin a) (cos a) (sin e) (cos e).
    intros sa ca se ce Ha He. nsatz. }
  split; [exact N1 |]. split; [rewrite E2; apply normalize_unit; exact Uu |].
  split; [apply (local_pair_orthonormal a e) |].
  split; [exact Ur |]. split; [exact Uu |].
  unfold r, u, d, SensorFrustum.localDirection, Geometry.dot. cbn.
  revert Ha He. generalize (Geometry.sgn (cos e)) (sin a) (cos a) (sin e) (cos e).
  intros s sa ca se ce Ha He. repeat split; nsatz.
Qed.

Section OutlineSolver.

Variable m : Matrix3.t.
Hypothesis Hm : Geometry.orthonormal m.

(** SensorFrustum's solver for an orthonormal frame: it succeeds whenever
    the cosine of the elevation is not zero, with an orthonormal triple. *)
Lemma outline_solver_frame (az el : R) :
  let a := CesiumMath.toRadians az in
  let e := CesiumMath.toRadians el in
  cos e <> 0 ->
  let s := Geometry.sgn (cos e) in
  let right := Matrix3.multiplyByVector m
                 (Cartesian3.multiplyByScalar (Cartesian3.mk (cos a) (- sin a) 0) s) in
  let up := Matrix3.multiplyByVector m
              (Cartesian3.multiplyByScalar
                 (Cartesian3.mk (- sin a * sin e) (- cos a * sin e) (cos e)) s) in
  let direction := Matrix3.multiplyByVector m (SensorFrustum.localDirection a e) in
  SensorFrustum.frame az el m = Ok (SensorFrustum.mkFrame right up direction)
  /\ Geometry.orthonormalTriple right up direction.
Proof.
  intros a e Hc s right up direction.
  destruct (outline_local_steps a e Hc) as (N1 & N2 & Ud & Ur & Uu & Hru & Hrd & Hud).
  assert (UD : Geometry.isUnit direction) by (apply orthonormal_isUnit; assumption).
  assert (UR : Geometry.isUnit right) by (apply orthonormal_isUnit; assumption).
  assert (UU : Geometry.isUnit up) by (apply orthonormal_isUnit; assumption).
  split.
  - unfold SensorFrustum.frame. fold a e.
    rewrite N1. cbn [JS.bind]. rewrite N2. cbn [JS.bind].
    fold s. fold right up direction.
    rewrite (normalize_unit _ UD), (normalize_unit _ UR), (normalize_unit _ UU).
    reflexivity.
  - unfold Geometry.orthonormalTriple. repeat split; try assumption;
      unfold right, up, direction; rewrite orthonormal_dot by exact Hm; assumption.
Qed.

End OutlineSolver.

(** ** The steps of FrustumVisualizer's solver *)

Lemma not_nearZero_normalize (v : Cartesian3.t) :
  ~ Degeneracy.nearZero v ->
  exists u, Cartesian3.normalize v = Ok u /\ FV.safeNormalize v = Ok (Some u).
Proof.
  intros H.
  assert (NZ : Cartesian3.magnitudeSquared v <> 0).
  { unfold Degeneracy.nearZero in H. pose proof epsilon_pos. lra. }
  destruct (normalize_total v NZ) as [u E]. exists u. split; [exact E |].
  rewrite (safeNormalize_far _ H), E. reflexivity.
Qed.

(** X4.  [safeNormalize] never throws: it returns null for a vector of
    squared length at most 1e-10, and otherwise a vector of length one that
    points along the input. *)
Theorem safeNormalize_cases (v : Cartesian3.t) :
  (Cartesian3.magnitudeSquared v <= CesiumMath.EPSILON10
   /\ FV.safeNormalize v = Ok None)
  \/ (CesiumMath.EPSILON10 < Cartesian3.magnitudeSquared v
      /\ exists u, FV.safeNormalize v = Ok (Some u)
                   /\ Geometry.isUnit u
                   /\ v = Cartesian3.multiplyByScalar u (Cartesian3.magnitude v)).
Proof.
  destruct (nearZero_dec v) as [Z | NZ].
  - left. split; [exact Z | apply safeNormalize_nearZero; exact Z].
  - right. split; [unfold Degeneracy.nearZero, FV.VECTOR_EPSILON in NZ; lra |].
    destruct (not_nearZero_normalize v NZ) as (u & N & S).
    exists u. split; [exact S |].
    destruct (normalize_Ok_unit v u N) as (Hu & _ & Hv). split; assumption.
Qed.

(** Off the degenerate cases FrustumVisualizer's solver computes what
    SensorFrustum's solver computes for the azimuth plus 180 degrees. *)
Lemma visualizer_steps_regular (az el : R) (enu : Matrix3.t) :
  ~ Degeneracy.inVisualizer az el enu ->
  FV.orientationTry az el enu = SensorFrustum.orientationTry (az + 180) el enu
  /\ exists q, FV.orientationTry az el enu = Ok q.
Proof.
  unfold Degeneracy.inVisualizer, FV.orientationTry,
    SensorFrustum.orientationTry, SensorFrustum.frame.
  fold (SensorFrustum.localDirection (CesiumMath.toRadians (az + 180))
          (CesiumMath.toRadians el)).
  set (d := SensorFrustum.localDirection _ _).
  intros H.
  assert (Ud : Geometry.isUnit d) by apply (local_pair_orthonormal _ _).
  rewrite (safeNormalize_unit d Ud). cbn [FV.orThrow JS.bind].
  assert (H1 : ~ Degeneracy.nearZero (Cartesian3.cross d (Cartesian3.mk 0 0 1))).
  { intros Z. apply H. right. exists d. split; [apply normalize_unit; exact Ud |].
    left. exact Z. }
  destruct (not_nearZero_normalize _ H1) as (u2 & N2 & S2).
  rewrite S2, N2. cbn [FV.orThrow JS.bind].
  assert (H2 : ~ Degeneracy.nearZero (Cartesian3.cross u2 d)).
  { intros Z. apply H. right. exists d. split; [apply normalize_unit; exact Ud |].
    right. exists u2. split; [exact N2 |]. left. exact Z. }
  destruct (not_nearZero_normalize _ H2) as (u3 & N3 & S3).
  rewrite S3, N3. cbn [FV.orThrow JS.bind].
  assert (H3 : ~ Degeneracy.nearZero (Matrix3.multiplyByVector enu d)
               /\ ~ Degeneracy.nearZero (Matrix3.multiplyByVector enu u2)
               /\ ~ Degeneracy.nearZero (Matrix3.multiplyByVector enu u3)).
  { repeat split; intros Z; apply H; right; exists d;
      (split; [apply normalize_unit; exact Ud |]);
      right; exists u2; (split; [exact N2 |]);
      right; exists u3; (split; [exact N3 |]); tauto. }
  destruct H3 as (Hd & Hr & Hu).
  destruct (not_nearZero_normalize _ Hd) as (wd & Nd & Sd).
  destruct (not_nearZero_normalize _ Hr) as (wr & Nr & Sr).
  destruct (not_nearZero_normalize _ Hu) as (wu & Nu & Su).
  rewrite Sd, Sr, Su, Nd, Nr, Nu. cbn [JS.bind SensorFrustum.right
    SensorFrustum.up SensorFrustum.direction].
  split; [reflexivity | eauto].
Qed.

Lemma local_right_magnitudeSquared (a e : R) :
  Cartesian3.magnitudeSquared
    (Cartesian3.cross (SensorFrustum.localDirection a e) (Cartesian3.mk 0 0 1))
  = cos e * cos e.
Proof.
  unfold SensorFrustum.localDirection, Cartesian3.magnitudeSquared. cbn.
  pose proof (sin_cos_sq a). nsatz.
Qed.

Lemma visualizer_regular (az el : R) (enu : Matrix3.t) :
  Geometry.orthonormal enu ->
  CesiumMath.EPSILON10
  < cos (CesiumMath.toRadians el) * cos (CesiumMath.toRadians el) ->
  ~ Degeneracy.inVisualizer az el enu.
Proof.
  intros Hm Hc.
  set (a := CesiumMath.toRadians (az + 180)).
  set (e := CesiumMath.toRadians el) in *.
  assert (C1 : cos e <> 0).
  { intros C0. rewrite C0 in Hc. unfold CesiumMath.EPSILON10 in Hc. lra. }
  destruct (outline_local_steps a e C1) as (M1 & M2 & Ud & Ur & Uu & _ & Hrd & _).
  pose proof (local_right_magnitudeSquared a e) as Er.
  unfold Degeneracy.inVisualizer.
  fold a e. fold (SensorFrustum.localDirection a e).
  intros [Z | (u1 & N1 & H)]; [not_small Z |].
  rewrite (normalize_unit _ Ud) in N1. injection N1 as <-.
  destruct H as [Z | (u2 & N2 & H)]; [rewrite <- Er in Hc; not_small Z |].
  rewrite M1 in N2. injection N2 as <-.
  destruct H as [Z | (u3 & N3 & H)].
  { pose proof (cross_magnitudeSquared
                  (Cartesian3.multiplyByScalar
                     (Cartesian3.mk (cos a) (- sin a) 0) (Geometry.sgn (cos e)))
                  (SensorFrustum.localDirection a e)) as L.
    rewrite Hrd in L. unfold Geometry.isUnit in Ur, Ud. rewrite Ur, Ud in L.
    not_small Z. }
  rewrite M2 in N3. injection N3 as <-.
  destruct H as [Z | [Z | Z]].
  - pose proof (orthonormal_isUnit enu _ Hm Ud). not_small Z.
  - pose proof (orthonormal_isUnit enu _ Hm Ur). not_small Z.
  - pose proof (orthonormal_isUnit enu _ Hm Uu). not_small Z.
Qed.

Lemma visualizer_flat (az el : R) (enu : Matrix3.t) :
  cos (CesiumMath.toRadians el) * cos (CesiumMath.toRadians el)
  <= CesiumMath.EPSILON10 ->
  Degeneracy.inVisualizer az el enu.
Proof.
  intros Hc.
  set (a := CesiumMath.toRadians (az + 180)).
  set (e := CesiumMath.toRadians el) in *.
  assert (Ud : Geometry.isUnit (SensorFrustum.localDirection a e))
    by apply (local_pair_orthonormal a e).
  unfold Degeneracy.inVisualizer.
  fold a e. fold (SensorFrustum.localDirection a e).
  right. exists (SensorFrustum.localDirection a e).
  split; [apply normalize_unit; exact Ud |]. left.
  unfold Degeneracy.nearZero, FV.VECTOR_EPSILON.
  rewrite local_right_magnitudeSquared. exact Hc.
Qed.

(** X5.  The [try] block of FrustumVisualizer's solver throws exactly when
    one of the vectors it normalizes is degenerate; there is no other way
    for it to fail. *)
Theorem visualizer_throws_iff_degenerate (az el : R) (enu : Matrix3.t) :
  (exists msg, FV.orientationTry az el enu = Throw msg)
  <-> Degeneracy.inVisualizer az el enu.
Proof.
  split; [| apply degenerate_throws].
  intros [msg H]. revert H.
  unfold Degeneracy.inVisualizer, FV.orientationTry.
  set (d := Cartesian3.mk _ _ _).
  destruct (nearZero_dec d) as [Z | N1]; [left; exact Z |].
  destruct (not_nearZero_normalize d N1) as (u1 & E1 & S1).
  rewrite S1. cbn [FV.orThrow JS.bind].
  destruct (nearZero_dec (Cartesian3.cross u1 (Cartesian3.mk 0 0 1)))
    as [Z | N2]; [intros _; right; exists u1; split; [exact E1 | left; exact Z] |].
  destruct (not_nearZero_normalize _ N2) as (u2 & E2 & S2).
  rewrite S2. cbn [FV.orThrow JS.bind].
  destruct (nearZero_dec (Cartesian3.cross u2 u1)) as [Z | N3].
  { intros _. right. exists u1. split; [exact E1 |]. right.
    exists u2. split; [exact E2 |]. left. exact Z. }
  destruct (not_nearZero_normalize _ N3) as (u3 & E3 & S3).
  rewrite S3. cbn [FV.orThrow JS.bind].
  intros H. right. exists u1. split; [exact E1 |]. right.
  exists u2. split; [exact E2 |]. right. exists u3. split; [exact E3 |].
  destruct (nearZero_dec (Matrix3.multiplyByVector enu u1)) as [Z | Nd];
    [left; exact Z |].
  destruct (nearZero_dec (Matrix3.multiplyByVector enu u2)) as [Z | Nr];
    [right; left; exact Z |].
  destruct (nearZero_dec (Matrix3.multiplyByVector enu u3)) as [Z | Nu];
    [right; right; exact Z |].
  exfalso.
  destruct (not_nearZero_normalize _ Nd) as (wd & _ & Sd).
  destruct (not_nearZero_normalize _ Nr) as (wr & _ & Sr).
  destruct (not_nearZero_normalize _ Nu) as (wu & _ & Su).
  rewrite Sd, Sr, Su in H. cbn in H. discriminate.
Qed.

(** X6.  When the East-North-Up frame is orthonormal, the only step of
    FrustumVisualizer's solver that can be degenerate is the local right
    vector, and it is when the squared cosine of the elevation is at most
    1e-10; the azimuth plays no part. *)
Theorem visualizer_degenerate_iff (az el : R) (enu : Matrix3.t) :
  Geometry.orthonormal enu ->
  (Degeneracy.inVisualizer az el enu
   <-> cos (CesiumMath.toRadians el) * cos (CesiumMath.toRadians el)
       <= CesiumMath.EPSILON10).
Proof.
  intros Hm. split.
  - intros H.
    destruct (Rle_dec (cos (CesiumMath.toRadians el) * cos (CesiumMath.toRadians el))
                      CesiumMath.EPSILON10) as [L | N]; [exact L |].
    exfalso. apply (visualizer_regular az el enu Hm); [lra | exact H].
  - apply visualizer_flat.
Qed.

(** ** FrustumVisualizer: the frustum memo and what is rendered *)

Lemma half_angle_tan_pos (d : R) :
  0 < d < 180 -> 0 < tan (CesiumMath.toRadians d / 2).
Proof.
  intros [H0 H1]. apply tan_gt_0;
    unfold CesiumMath.toRadians, CesiumMath.RADIANS_PER_DEGREE;
    pose proof PI_RGT_0; nra.
Qed.

Lemma isValidRange_spec (x : number) :
  FV.isValidRange (Some x) = true <-> exists r, x = Fin r /\ 0 < r.
Proof.
  unfold FV.isValidRange, gt, Rltb. split.
  - destruct x as [r | | |]; cbn; try discriminate.
    destruct (Rlt_dec 0 r); [eauto | discriminate].
  - intros (r & -> & H). cbn. destruct (Rlt_dec 0 r); [reflexivity | contradiction].
Qed.

Lemma isInputValid_spec (p : FV.Props) :
  FV.isInputValid p = true
  <-> (exists h, FV.hfov p = Fin h /\ 0 < h < 180)
      /\ (exists v, FV.vfov p = Fin v /\ 0 < v < 180)
      /\ (exists r, FV.rangeOf p = Fin r /\ 0 < r).
Proof.
  unfold FV.isInputValid. cbn [isFinite].
  rewrite !andb_true_r, !andb_true_iff, !isValidAngle_spec, isValidRange_spec.
  tauto.
Qed.

Lemma frustum_valid (p : FV.Props) (h v r : R) :
  FV.hfov p = Fin h -> 0 < h < 180 ->
  FV.vfov p = Fin v -> 0 < v < 180 ->
  FV.rangeOf p = Fin r -> 0 < r ->
  FV.frustumOf p
  = Some (PerspectiveFrustum.mk
            (Fin (CesiumMath.toRadians v))
            (Fin (tan (CesiumMath.toRadians h / 2) / tan (CesiumMath.toRadians v / 2)))
            (Fin (1 / 2)) (Fin r)).
Proof.
  intros Eh Hh Ev Hv Er Hr.
  assert (V : FV.isInputValid p = true).
  { apply isInputValid_spec. eauto 10. }
  unfold FV.frustumOf, FV.frustum. rewrite V, Eh, Ev, Er.
  cbn [negb FV.toRadiansNum FV.halfNum FV.tanNum FV.isZeroNum isFinite orb].
  pose proof (half_angle_tan_pos v Hv) as Tv.
  unfold Reqb. destruct (Req_dec_T _ 0) as [E | _]; [lra |].
  cbn [FV.divNum try_catch]. rewrite div_nonzero by lra. reflexivity.
Qed.

(** X8.  The frustum memo of FrustumVisualizer yields null for an invalid
    input, and whenever it yields a frustum the input is valid: both fields
    of view are finite and strictly between 0 and 180, the range is finite
    and positive, and the frustum has the vertical field of view in radians,
    the aspect ratio tan(hfov/2) / tan(vfov/2), the near plane at 0.5 and
    the far plane at the range, whether or not the range exceeds 0.5. *)
Theorem frustum_characterized (p : FV.Props) :
  (FV.isInputValid p = false -> FV.frustumOf p = None)
  /\ forall f, FV.frustumOf p = Some f ->
       FV.isInputValid p = true
       /\ exists h v r,
            FV.hfov p = Fin h /\ 0 < h < 180
            /\ FV.vfov p = Fin v /\ 0 < v < 180
            /\ FV.rangeOf p = Fin r /\ 0 < r
            /\ PerspectiveFrustum.fov f = Fin (CesiumMath.toRadians v)
            /\ PerspectiveFrustum.aspectRatio f
               = Fin (tan (CesiumMath.toRadians h / 2)
                      / tan (CesiumMath.toRadians v / 2))
            /\ PerspectiveFrustum.near f = Fin (1 / 2)
            /\ PerspectiveFrustum.far f = Fin r.
Proof.
  split.
  { intros V. unfold FV.frustumOf, FV.frustum. rewrite V. reflexivity. }
  intros f Hf.
  destruct (FV.isInputValid p) eqn:V.
  - split; [reflexivity |].
    apply isInputValid_spec in V.
    destruct V as ((h & Eh & Hh) & (v & Ev & Hv) & (r & Er & Hr)).
    rewrite (frustum_valid p h v r Eh Hh Ev Hv Er Hr) in Hf.
    injection Hf as <-. exists h, v, r. cbn.
    repeat (split; [assumption || reflexivity || lra |]).
    reflexivity.
  - unfold FV.frustumOf, FV.frustum in Hf. rewrite V in Hf. discriminate.
Qed.

(** X9.  FrustumVisualizer renders a primitive exactly when the frustum
    memo yielded a frustum, the device is selected and the orientation
    differs from the identity quaternion; the validity test of the return
    statement never decides, since a frustum exists for valid input only.
    The primitive carries that frustum, the origin, the orientation and the
    alpha, and is translucent exactly when the alpha is below 1. *)
Theorem render_some_iff (p : FV.Props) (origin : Cartesian3.t) (enu : Matrix3.t) :
  (FV.render p origin enu <> None
   <-> FV.frustumOf p <> None
       /\ FV.isDeviceSelected p = true
       /\ Quaternion.equals (FV.orientationOf p enu) Quaternion.IDENTITY = false)
  /\ forall g, FV.render p origin enu = Some g ->
       exists f,
         FV.frustumOf p = Some f
         /\ g = (FV.mkInstance
                   (FV.mkGeometry f origin (FV.orientationOf p enu))
                   (FV.alphaOf p),
                 FV.mkAppearance true (Rltb (FV.alphaOf p) 1)).
Proof.
  unfold FV.render, FV.geometryOf, FV.geometryInstances.
  destruct (FV.frustumOf p) as [f |] eqn:F.
  - assert (V : FV.isInputValid p = true).
    { destruct (FV.isInputValid p) eqn:V; [reflexivity |].
      unfold FV.frustumOf, FV.frustum in F. rewrite V in F. discriminate. }
    rewrite V.
    destruct (Quaternion.equals _ _), (FV.isDeviceSelected p);
      cbn [try_catch negb orb]; split;
      try (split; [congruence | intros (_ & ? & ?); congruence]);
      try (split; [intros _; repeat split; congruence | congruence]);
      intros g Hg; try discriminate.
    injection Hg as <-. exists f. auto.
  - split; [split; [congruence | intros (? & _); congruence] |].
    intros g Hg. discriminate.
Qed.

(** ** Rotations and their quaternions *)

(** The matrix of a unit quaternion is a proper rotation. *)
Lemma fromQuaternion_rotation (q : Quaternion.t) :
  Geometry.unitQuaternion q -> Geometry.rotation (Matrix3.fromQuaternion q).
Proof.
  destruct q as [x y z w].
  unfold Geometry.unitQuaternion, Geometry.rotation, Geometry.orthonormal,
    Geometry.orthonormalTriple, Geometry.isUnit, Geometry.dot,
    Cartesian3.magnitudeSquared, Matrix3.fromQuaternion.
  cbn. intros H.
  repeat split; try nsatz.
  apply Cartesian3_ext; cbn; nsatz.
Qed.

Lemma rotation_orthonormal (m : Matrix3.t) :
  Geometry.rotation m -> Geometry.orthonormal m.
Proof. intros [H _]. exact H. Qed.

(** The East-North-Up basis is a proper rotation at every latitude and
    longitude. *)
Lemma eastNorthUp_rotation (lat lon : R) :
  Geometry.rotation (Transforms.eastNorthUp lat lon).
Proof.
  unfold Transforms.eastNorthUp.
  pose proof (sin_cos_sq (CesiumMath.toRadians lat)) as Hp.
  pose proof (sin_cos_sq (CesiumMath.toRadians lon)) as Hl.
  revert Hp Hl.
  generalize (sin (CesiumMath.toRadians lat)) (cos (CesiumMath.toRadians lat))
             (sin (CesiumMath.toRadians lon)) (cos (CesiumMath.toRadians lon)).
  intros sp cp sl cl Hp Hl.
  unfold Geometry.rotation, Geometry.orthonormal, Geometry.orthonormalTriple,
    Geometry.isUnit, Geometry.dot, Cartesian3.magnitudeSquared. cbn.
  repeat split; try nsatz.
  apply Cartesian3_ext; cbn; nsatz.
Qed.

Lemma orthonormal_magnitudeSquared (m : Matrix3.t) (v : Cartesian3.t) :
  Geometry.orthonormal m ->
  Cartesian3.magnitudeSquared (Matrix3.multiplyByVector m v)
  = Cartesian3.magnitudeSquared v.
Proof. intros Hm. rewrite !magnitudeSquared_dot. apply orthonormal_dot, Hm. Qed.

Lemma multiplyByVector_add (m : Matrix3.t) (a b : Cartesian3.t) :
  Matrix3.multiplyByVector m (Cartesian3.add a b)
  = Cartesian3.add (Matrix3.multiplyByVector m a) (Matrix3.multiplyByVector m b).
Proof. destruct m, a, b. apply Cartesian3_ext; cbn; ring. Qed.

Lemma multiplyByVector_negate (m : Matrix3.t) (a : Cartesian3.t) :
  Matrix3.multiplyByVector m (Cartesian3.negate a)
  = Cartesian3.negate (Matrix3.multiplyByVector m a).
Proof. destruct m, a. apply Cartesian3_ext; cbn; ring. Qed.

(** The entries of a proper rotation: the third column is determined by the
    first two, which are an orthonormal pair. *)
Lemma rotation_entries (m : Matrix3.t) :
  Geometry.rotation m ->
  exists a b c d e f,
    m = Matrix3.mk a b c d e f (b * f - c * e) (c * d - a * f) (a * e - b * d)
    /\ a * a + b * b + c * c = 1 /\ d * d + e * e + f * f = 1
    /\ a * d + b * e + c * f = 0.
Proof.
  destruct m as [a b c d e f g h i].
  unfold Geometry.rotation, Geometry.orthonormal, Geometry.orthonormalTriple,
    Geometry.isUnit, Geometry.dot, Cartesian3.magnitudeSquared. cbn.
  intros ((H1 & H2 & H3 & H4 & H5 & H6) & Hc).
  injection Hc as C1 C2 C3. subst g h i.
  exists a, b, c, d, e, f. auto.
Qed.

(** A proper rotation maps cross products to cross products. *)
Lemma rotation_cross (m : Matrix3.t) (u v : Cartesian3.t) :
  Geometry.rotation m ->
  Cartesian3.cross (Matrix3.multiplyByVector m u) (Matrix3.multiplyByVector m v)
  = Matrix3.multiplyByVector m (Cartesian3.cross u v).
Proof.
  intros Hm.
  destruct (rotation_entries m Hm) as (a & b & c & d & e & f & -> & H1 & H2 & H3).
  destruct u as [u1 u2 u3], v as [v1 v2 v3].
  assert (K1 : e * (a * e - b * d) - f * (c * d - a * f) = a) by nsatz.
  assert (K2 : f * (b * f - c * e) - d * (a * e - b * d) = b) by nsatz.
  assert (K3 : d * (c * d - a * f) - e * (b * f - c * e) = c) by nsatz.
  assert (K4 : (c * d - a * f) * c - (a * e - b * d) * b = d) by nsatz.
  assert (K5 : (a * e - b * d) * a - (b * f - c * e) * c = e) by nsatz.
  assert (K6 : (b * f - c * e) * b - (c * d - a * f) * a = f) by nsatz.
  clear H1 H2 H3.
  apply Cartesian3_ext; cbn.
  - transitivity ((u2 * v3 - u3 * v2) * (e * (a * e - b * d) - f * (c * d - a * f))
                  + (u3 * v1 - u1 * v3) * ((c * d - a * f) * c - (a * e - b * d) * b)
                  + (u1 * v2 - u2 * v1) * (b * f - c * e)); [ring |].
    rewrite K1, K4. ring.
  - transitivity ((u2 * v3 - u3 * v2) * (f * (b * f - c * e) - d * (a * e - b * d))
                  + (u3 * v1 - u1 * v3) * ((a * e - b * d) * a - (b * f - c * e) * c)
                  + (u1 * v2 - u2 * v1) * (c * d - a * f)); [ring |].
    rewrite K2, K5. ring.
  - transitivity ((u2 * v3 - u3 * v2) * (d * (c * d - a * f) - e * (b * f - c * e))
                  + (u3 * v1 - u1 * v3) * ((b * f - c * e) * b - (c * d - a * f) * a)
                  + (u1 * v2 - u2 * v1) * (a * e - b * d)); [ring |].
    rewrite K3, K6. ring.
Qed.

(** [Quaternion.fromRotationMatrix] followed by [Matrix3.fromQuaternion]
    gives back every proper rotation, through each of the four branches of
    the conversion. *)
Lemma fromRotationMatrix_round_trip (m : Matrix3.t) :
  Geometry.rotation m ->
  Matrix3.fromQuaternion (QuaternionOfMatrix.fromRotationMatrix m) = m.
Proof.
  intros Hm.
  destruct (rotation_entries m Hm) as (a & b & c & d & e & f & -> & H1 & H2 & H3).
  unfold QuaternionOfMatrix.fromRotationMatrix, Rltb.
  cbn [Matrix3.c0r0 Matrix3.c0r1 Matrix3.c0r2 Matrix3.c1r0 Matrix3.c1r1
       Matrix3.c1r2 Matrix3.c2r0 Matrix3.c2r1 Matrix3.c2r2].
  destruct (Rlt_dec 0 _) as [Ht | Ht].
  - shepperd_root r Hr Hn.
    unfold Matrix3.fromQuaternion; cbn; f_equal; shepperd_eq.
  - destruct (Rlt_dec a e) as [L1 | L1],
             (Rlt_dec a (a * e - b * d)) as [L2 | L2],
             (Rlt_dec e (a * e - b * d)) as [L3 | L3];
      cbn [andb QuaternionOfMatrix.next Matrix3.getElement Nat.eqb
           Matrix3.c0r0 Matrix3.c0r1 Matrix3.c0r2 Matrix3.c1r0 Matrix3.c1r1
           Matrix3.c1r2 Matrix3.c2r0 Matrix3.c2r1 Matrix3.c2r2];
      shepperd_root r Hr Hn;
      unfold Matrix3.fromQuaternion; cbn; f_equal; shepperd_eq.
Qed.

(** The quaternion of a proper rotation has norm one. *)
Lemma fromRotationMatrix_unit (m : Matrix3.t) :
  Geometry.rotation m ->
  Geometry.unitQuaternion (QuaternionOfMatrix.fromRotationMatrix m).
Proof.
  intros Hm.
  destruct (rotation_entries m Hm) as (a & b & c & d & e & f & -> & H1 & H2 & H3).
  unfold QuaternionOfMatrix.fromRotationMatrix, Rltb, Geometry.unitQuaternion.
  cbn [Matrix3.c0r0 Matrix3.c0r1 Matrix3.c0r2 Matrix3.c1r0 Matrix3.c1r1
       Matrix3.c1r2 Matrix3.c2r0 Matrix3.c2r1 Matrix3.c2r2].
  destruct (Rlt_dec 0 _) as [Ht | Ht].
  - shepperd_root r Hr Hn. cbn. shepperd_eq.
  - destruct (Rlt_dec a e) as [L1 | L1],
             (Rlt_dec a (a * e - b * d)) as [L2 | L2],
             (Rlt_dec e (a * e - b * d)) as [L3 | L3];
      cbn [andb QuaternionOfMatrix.next Matrix3.getElement Nat.eqb
           Matrix3.c0r0 Matrix3.c0r1 Matrix3.c0r2 Matrix3.c1r0 Matrix3.c1r1
           Matrix3.c1r2 Matrix3.c2r0 Matrix3.c2r1 Matrix3.c2r2];
      shepperd_root r Hr Hn; cbn; shepperd_eq.
Qed.

(** ** The rotation the solvers encode *)

Lemma setColumns (r u d : Cartesian3.t) :
  let m := Matrix3.setColumn
             (Matrix3.setColumn (Matrix3.setColumn Matrix3.zero 0 r) 1 u) 2 d in
  Matrix3.getColumn m 0 = r /\ Matrix3.getColumn m 1 = u
  /\ Matrix3.getColumn m 2 = d.
Proof. destruct r, u, d. cbn. auto. Qed.

Lemma negate_isUnit (v : Cartesian3.t) :
  Geometry.isUnit v -> Geometry.isUnit (Cartesian3.negate v).
Proof.
  destruct v. unfold Geometry.isUnit, Cartesian3.magnitudeSquared. cbn.
  intros H. rewrite <- H. ring.
Qed.

Lemma dot_negate_r (a b : Cartesian3.t) :
  Geometry.dot a (Cartesian3.negate b) = - Geometry.dot a b.
Proof. destruct a, b. unfold Geometry.dot. cbn. ring. Qed.

(** The cross product of the local right and up vectors is the local
    direction, negated. *)
Lemma local_right_cross_up (a e s : R) :
  s * s = 1 ->
  Cartesian3.cross
    (Cartesian3.multiplyByScalar (Cartesian3.mk (cos a) (- sin a) 0) s)
    (Cartesian3.multiplyByScalar
       (Cartesian3.mk (- sin a * sin e) (- cos a * sin e) (cos e)) s)
  = Cartesian3.negate (SensorFrustum.localDirection a e).
Proof.
  intros Hs. pose proof (sin_cos_sq a) as Ha.
  unfold SensorFrustum.localDirection.
  apply Cartesian3_ext; cbn.
  - transitivity (- (s * s) * (sin a * cos e)); [ring | rewrite Hs; ring].
  - transitivity (- (s * s) * (cos a * cos e)); [ring | rewrite Hs; ring].
  - transitivity (- (s * s) * ((sin a * sin a + cos a * cos a) * sin e));
      [ring | rewrite Hs, Ha; ring].
Qed.

Section SolverRotation.

Variable enu : Matrix3.t.
Hypothesis Henu : Geometry.rotation enu.

(** The matrix SensorFrustum's solver hands to
    [Quaternion.fromRotationMatrix] is a proper rotation, and the
    quaternion encodes exactly that matrix. *)
Lemma outline_solver_quaternion (az el : R) :
  let a := CesiumMath.toRadians az in
  let e := CesiumMath.toRadians el in
  cos e <> 0 ->
  let s := Geometry.sgn (cos e) in
  let right := Matrix3.multiplyByVector enu
                 (Cartesian3.multiplyByScalar (Cartesian3.mk (cos a) (- sin a) 0) s) in
  let up := Matrix3.multiplyByVector enu
              (Cartesian3.multiplyByScalar
                 (Cartesian3.mk (- sin a * sin e) (- cos a * sin e) (cos e)) s) in
  let direction := Matrix3.multiplyByVector enu (SensorFrustum.localDirection a e) in
  exists q,
    SensorFrustum.orientationTry az el enu = Ok q
    /\ Geometry.unitQuaternion q
    /\ Matrix3.getColumn (Matrix3.fromQuaternion q) 0 = right
    /\ Matrix3.getColumn (Matrix3.fromQuaternion q) 1 = up
    /\ Matrix3.getColumn (Matrix3.fromQuaternion q) 2 = Cartesian3.negate direction.
Proof.
  intros a e Hc s right up direction.
  pose proof (rotation_orthonormal enu Henu) as Ho.
  destruct (outline_solver_frame enu Ho az el Hc) as (F & T).
  fold a e s right up direction in F, T.
  destruct T as (Ur & Uu & Ud & Dru & Drd & Dud).
  set (m := Matrix3.setColumn
              (Matrix3.setColumn (Matrix3.setColumn Matrix3.zero 0 right) 1 up)
              2 (Cartesian3.negate direction)).
  destruct (setColumns right up (Cartesian3.negate direction)) as (C0 & C1 & C2).
  fold m in C0, C1, C2.
  assert (R : Geometry.rotation m).
  { unfold Geometry.rotation, Geometry.orthonormal, Geometry.orthonormalTriple.
    rewrite C0, C1, C2, !dot_negate_r, Drd, Dud.
    repeat split; auto using negate_isUnit; try lra.
    unfold right, up, direction.
    rewrite (rotation_cross enu _ _ Henu), local_right_cross_up
      by (apply sgn_sq; exact Hc).
    apply multiplyByVector_negate. }
  exists (QuaternionOfMatrix.fromRotationMatrix m).
  split.
  { unfold SensorFrustum.orientationTry. rewrite F. reflexivity. }
  split; [apply fromRotationMatrix_unit, R |].
  rewrite (fromRotationMatrix_round_trip m R). auto.
Qed.

(** The same for the orientation SensorFrustum uses, azimuth normalized. *)
Lemma outline_orientation_columns (az el : R) :
  cos (CesiumMath.toRadians el) <> 0 ->
  let a := CesiumMath.toRadians az in
  let e := CesiumMath.toRadians el in
  let s := Geometry.sgn (cos e) in
  let q := SensorFrustum.orientation (SensorFrustum.normalizedAzimuth az)
             (SensorFrustum.normalizedElevation el) enu in
  Geometry.unitQuaternion q
  /\ Matrix3.getColumn (Matrix3.fromQuaternion q) 0
     = Matrix3.multiplyByVector enu
         (Cartesian3.multiplyByScalar (Cartesian3.mk (cos a) (- sin a) 0) s)
  /\ Matrix3.getColumn (Matrix3.fromQuaternion q) 1
     = Matrix3.multiplyByVector enu
         (Cartesian3.multiplyByScalar
            (Cartesian3.mk (- sin a * sin e) (- cos a * sin e) (cos e)) s)
  /\ Matrix3.getColumn (Matrix3.fromQuaternion q) 2
     = Cartesian3.negate
         (Matrix3.multiplyByVector enu (SensorFrustum.localDirection a e)).
Proof.
  intros Hcos a e s. unfold SensorFrustum.normalizedElevation.
  destruct (outline_solver_quaternion (SensorFrustum.normalizedAzimuth az) el Hcos)
    as (q & E & U & C0 & C1 & C2).
  destruct (normalized_sin_cos az) as [Es Ec].
  unfold SensorFrustum.localDirection in C2.
  rewrite Es, Ec in C0, C1, C2.
  unfold SensorFrustum.orientation. rewrite E. cbn [try_catch].
  auto.
Qed.

(** And for the orientation FrustumVisualizer uses: the first and third
    columns change sign. *)
Lemma visualizer_orientation_columns (az el : R) :
  CesiumMath.EPSILON10
  < cos (CesiumMath.toRadians el) * cos (CesiumMath.toRadians el) ->
  let a := CesiumMath.toRadians az in
  let e := CesiumMath.toRadians el in
  let s := Geometry.sgn (cos e) in
  let q := FV.orientation (FV.normalizedAzimuth az)
             (FV.normalizedElevation el) enu in
  q = SensorFrustum.orientation (FV.normalizedAzimuth az + 180)
        (FV.normalizedElevation el) enu
  /\ Geometry.unitQuaternion q
  /\ Matrix3.getColumn (Matrix3.fromQuaternion q) 0
     = Cartesian3.negate
         (Matrix3.multiplyByVector enu
            (Cartesian3.multiplyByScalar (Cartesian3.mk (cos a) (- sin a) 0) s))
  /\ Matrix3.getColumn (Matrix3.fromQuaternion q) 1
     = Matrix3.multiplyByVector enu
         (Cartesian3.multiplyByScalar
            (Cartesian3.mk (- sin a * sin e) (- cos a * sin e) (cos e)) s)
  /\ Matrix3.getColumn (Matrix3.fromQuaternion q) 2
     = Matrix3.multiplyByVector enu (SensorFrustum.localDirection a e).
Proof.
  intros Heps a e s.
  assert (Hcos : cos e <> 0).
  { intros C0. unfold e in C0. rewrite C0 in Heps.
    unfold CesiumMath.EPSILON10 in Heps. lra. }
  destruct (opposite_elevation el) as [Os Oc]. fold e in Os, Oc.
  destruct (normalized_half_turn az) as [Ns Nc]. fold a in Ns, Nc.
  assert (Hreg : ~ Degeneracy.inVisualizer (FV.normalizedAzimuth az)
                     (FV.normalizedElevation el) enu).
  { apply visualizer_regular; [apply rotation_orthonormal, Henu |].
    unfold FV.normalizedElevation. rewrite Oc. exact Heps. }
  destruct (visualizer_steps_regular _ _ _ Hreg) as [Eq _].
  assert (Hc' : cos (CesiumMath.toRadians (FV.normalizedElevation el)) <> 0).
  { unfold FV.normalizedElevation. rewrite Oc. exact Hcos. }
  destruct (outline_solver_quaternion
              (FV.normalizedAzimuth az + 180) (FV.normalizedElevation el) Hc')
    as (q & E & U & C0 & C1 & C2).
  unfold SensorFrustum.localDirection, FV.normalizedElevation in C0, C1, C2.
  change (FV.normalizedAzimuth az) with (SensorFrustum.normalizedAzimuth az)
    in C0, C1, C2.
  rewrite ?Oc, ?Ns, ?Nc in C0. rewrite ?Os, ?Oc, ?Ns, ?Nc in C1.
  rewrite ?Os, ?Oc, ?Ns, ?Nc in C2.
  unfold FV.orientation, SensorFrustum.orientation. rewrite Eq, E.
  cbn [try_catch].
  split; [reflexivity |]. split; [exact U |].
  split; [rewrite C0 | split; [rewrite C1 | rewrite C2]];
    unfold s, SensorFrustum.localDirection;
    rewrite <- ?multiplyByVector_negate; f_equal;
    apply Cartesian3_ext; cbn; ring.
Qed.

End SolverRotation.

(** ** Degenerate vectors in the two solvers *)







(** ** The outline SensorFrustum draws *)

Lemma distanceSquared_add (o v : Cartesian3.t) :
  Geometry.distanceSquared (Cartesian3.add o v) o = Cartesian3.magnitudeSquared v.
Proof.
  destruct o, v.
  unfold Geometry.distanceSquared, Geometry.subtract, Cartesian3.magnitudeSquared.
  cbn. ring.
Qed.

Lemma subtract_add (o : Cartesian3.t) (m : Matrix3.t) (v w : Cartesian3.t) :
  Geometry.subtract (Cartesian3.add o (Matrix3.multiplyByVector m v))
                    (Cartesian3.add o (Matrix3.multiplyByVector m w))
  = Matrix3.multiplyByVector m (Geometry.subtract v w).
Proof.
  unfold Geometry.subtract.
  rewrite multiplyByVector_add, multiplyByVector_negate.
  destruct o, (Matrix3.multiplyByVector m v), (Matrix3.multiplyByVector m w).
  apply Cartesian3_ext; cbn; ring.
Qed.

(** The four corners, read off the polyline. *)
Lemma outline_corner_values (origin : Cartesian3.t) (q : Quaternion.t)
    (hfov vfov range : R) :
  let ps := SensorFrustum.outlinePositions origin q hfov vfov range in
  let th := tan (CesiumMath.toRadians hfov / 3) in
  let tv := tan (CesiumMath.toRadians vfov / 3) in
  let m := Matrix3.fromQuaternion q in
  Outline.corner ps 0
  = Cartesian3.add origin
      (Matrix3.multiplyByVector m
         (Cartesian3.mk (- th * range) (- tv * range) (- range)))
  /\ Outline.corner ps 1
     = Cartesian3.add origin
         (Matrix3.multiplyByVector m
            (Cartesian3.mk (th * range) (- tv * range) (- range)))
  /\ Outline.corner ps 2
     = Cartesian3.add origin
         (Matrix3.multiplyByVector m
            (Cartesian3.mk (th * range) (tv * range) (- range)))
  /\ Outline.corner ps 3
     = Cartesian3.add origin
         (Matrix3.multiplyByVector m
            (Cartesian3.mk (- th * range) (tv * range) (- range))).
Proof.
  unfold Outline.corner, SensorFrustum.outlinePositions,
    SensorFrustum.relativeAngles.
  cbn [map nth Nat.mul Nat.add]. rewrite !tan_neg. auto.
Qed.

(** The base of the outline is a parallelogram whatever the orientation,
    its diagonals crossing at [range] along the third column, negated. *)
Lemma outline_base_parallelogram (origin : Cartesian3.t) (q : Quaternion.t)
    (hfov vfov range : R) :
  let ps := SensorFrustum.outlinePositions origin q hfov vfov range in
  Cartesian3.add (Outline.corner ps 0) (Outline.corner ps 2)
  = Cartesian3.add (Outline.corner ps 1) (Outline.corner ps 3)
  /\ Cartesian3.multiplyByScalar
       (Cartesian3.add (Outline.corner ps 0) (Outline.corner ps 2)) (1 / 2)
     = Cartesian3.add origin
         (Cartesian3.multiplyByScalar
            (Cartesian3.negate (Matrix3.getColumn (Matrix3.fromQuaternion q) 2))
            range).
Proof.
  destruct (outline_corner_values origin q hfov vfov range) as (E0 & E1 & E2 & E3).
  cbv zeta in *. rewrite E0, E1, E2, E3.
  destruct origin, (Matrix3.fromQuaternion q).
  split; apply Cartesian3_ext; cbn; field.
Qed.

(** For a unit quaternion the four corners are at one distance from the
    apex and the base is a rectangle. *)
Lemma outline_base_rectangle (origin : Cartesian3.t) (q : Quaternion.t)
    (hfov vfov range : R) :
  Geometry.unitQuaternion q ->
  let ps := SensorFrustum.outlinePositions origin q hfov vfov range in
  let th := tan (CesiumMath.toRadians hfov / 3) in
  let tv := tan (CesiumMath.toRadians vfov / 3) in
  (forall i, (i < 4)%nat ->
     Geometry.distanceSquared (Outline.corner ps i) origin
     = range * range * (1 + th * th + tv * tv))
  /\ Geometry.dot (Geometry.subtract (Outline.corner ps 1) (Outline.corner ps 0))
                  (Geometry.subtract (Outline.corner ps 3) (Outline.corner ps 0))
     = 0.
Proof.
  intros Hq ps th tv.
  pose proof (rotation_orthonormal _ (fromQuaternion_rotation q Hq)) as Hm.
  destruct (outline_corner_values origin q hfov vfov range) as (E0 & E1 & E2 & E3).
  fold ps th tv in E0, E1, E2, E3.
  split.
  - intros i Hi.
    assert (Hc : (i = 0 \/ i = 1 \/ i = 2 \/ i = 3)%nat) by lia.
    destruct Hc as [-> | [-> | [-> | ->]]];
      rewrite ?E0, ?E1, ?E2, ?E3, distanceSquared_add,
        (orthonormal_magnitudeSquared _ _ Hm);
      unfold Cartesian3.magnitudeSquared; cbn; ring.
  - rewrite E0, E1, E3, !subtract_add, (orthonormal_dot _ _ _ Hm).
    unfold Geometry.dot, Geometry.subtract. cbn. ring.
Qed.

(** X11.  For a proper East-North-Up rotation and an elevation whose cosine
    is not zero, the outline SensorFrustum draws for a selected device is a
    right pyramid around the line of sight: the diagonals of its base cross
    at the origin plus range times the direction
    ENU (sin az cos el, cos az cos el, sin el), the base is a rectangle, and
    the four corners are at the same distance from the origin,
    range * sqrt (1 + tan(hfov/3)^2 + tan(vfov/3)^2). *)
Theorem outline_around_line_of_sight (origin : Cartesian3.t) (enu : Matrix3.t)
    (az el hfov vfov : R) (range : option R) :
  Geometry.rotation enu ->
  cos (CesiumMath.toRadians el) <> 0 ->
  let direction :=
    Matrix3.multiplyByVector enu
      (SensorFrustum.localDirection (CesiumMath.toRadians az)
                                    (CesiumMath.toRadians el)) in
  let r := nullish range SensorFrustum.DEFAULT_RANGE in
  let th := tan (CesiumMath.toRadians hfov / 3) in
  let tv := tan (CesiumMath.toRadians vfov / 3) in
  exists ps,
    SensorFrustum.render origin enu az el hfov vfov range true = Some ps
    /\ Cartesian3.multiplyByScalar
         (Cartesian3.add (Outline.corner ps 0) (Outline.corner ps 2)) (1 / 2)
       = Cartesian3.add origin (Cartesian3.multiplyByScalar direction r)
    /\ Cartesian3.add (Outline.corner ps 0) (Outline.corner ps 2)
       = Cartesian3.add (Outline.corner ps 1) (Outline.corner ps 3)
    /\ Geometry.dot
         (Geometry.subtract (Outline.corner ps 1) (Outline.corner ps 0))
         (Geometry.subtract (Outline.corner ps 3) (Outline.corner ps 0)) = 0
    /\ forall i, (i < 4)%nat ->
         Geometry.distanceSquared (Outline.corner ps i) origin
         = r * r * (1 + th * th + tv * tv).
Proof.
  intros Henu Hc direction r th tv.
  destruct (outline_orientation_columns enu Henu az el Hc) as (U & _ & _ & C2).
  cbv zeta in U, C2.
  unfold SensorFrustum.render. fold r.
  set (q := SensorFrustum.orientation _ _ _) in *.
  eexists. split; [reflexivity |].
  destruct (outline_base_parallelogram origin q hfov vfov r) as [P1 P2].
  destruct (outline_base_rectangle origin q hfov vfov r U) as (R1 & R2).
  cbv zeta in P1, P2, R1, R2.
  split.
  { rewrite P2, C2. f_equal. f_equal.
    destruct (Matrix3.multiplyByVector enu _). apply Cartesian3_ext; cbn; ring. }
  split; [exact P1 |]. split; [exact R2 | exact R1].
Qed.

Lemma level_cos : cos (CesiumMath.toRadians 0) <> 0.
Proof. rewrite toRadians_0, cos_0. lra. Qed.

Lemma outline_around_line_of_sight_witness :
  Geometry.rotation (Transforms.eastNorthUp 0 0)
  /\ cos (CesiumMath.toRadians 0) <> 0
  /\ exists ps,
       SensorFrustum.render Scenario.origin (Transforms.eastNorthUp 0 0)
         0 0 60 40 None true = Some ps
       /\ Cartesian3.add (Outline.corner ps 0) (Outline.corner ps 2)
          = Cartesian3.add (Outline.corner ps 1) (Outline.corner ps 3).
Proof.
  split; [apply eastNorthUp_rotation |]. split; [apply level_cos |].
  destruct (outline_around_line_of_sight Scenario.origin
              (Transforms.eastNorthUp 0 0) 0 0 60 40 None
              (eastNorthUp_rotation 0 0) level_cos)
    as (ps & Hr & _ & Hp & _).
  exists ps. split; [exact Hr | exact Hp].
Defined.

(** X12.  For one azimuth and elevation and a proper East-North-Up
    rotation, off the degenerate elevations, FrustumVisualizer's
    orientation is what SensorFrustum's solver returns for the azimuth plus
    180 degrees and the opposite elevation; its rotation is the rotation
    of SensorFrustum's orientation turned half a turn about the up column:
    the right and third columns change sign, the up column is the same, and
    the third column is ENU (sin az cos el, cos az cos el, sin el). *)
Theorem visualizer_turns_outline (az el : R) (enu : Matrix3.t) :
  Geometry.rotation enu ->
  CesiumMath.EPSILON10
  < cos (CesiumMath.toRadians el) * cos (CesiumMath.toRadians el) ->
  let qv := FV.orientation (FV.normalizedAzimuth az)
              (FV.normalizedElevation el) enu in
  let qo := SensorFrustum.orientation (SensorFrustum.normalizedAzimuth az)
              (SensorFrustum.normalizedElevation el) enu in
  let mv := Matrix3.fromQuaternion qv in
  let mo := Matrix3.fromQuaternion qo in
  qv = SensorFrustum.orientation (FV.normalizedAzimuth az + 180) (- el) enu
  /\ Geometry.unitQuaternion qv
  /\ Geometry.unitQuaternion qo
  /\ Matrix3.getColumn mv 0 = Cartesian3.negate (Matrix3.getColumn mo 0)
  /\ Matrix3.getColumn mv 1 = Matrix3.getColumn mo 1
  /\ Matrix3.getColumn mv 2 = Cartesian3.negate (Matrix3.getColumn mo 2)
  /\ Matrix3.getColumn mv 2
     = Matrix3.multiplyByVector enu
         (SensorFrustum.localDirection (CesiumMath.toRadians az)
                                       (CesiumMath.toRadians el)).
Proof.
  intros Henu Heps qv qo mv mo.
  assert (Hc : cos (CesiumMath.toRadians el) <> 0).
  { intros C0. rewrite C0 in Heps. unfold CesiumMath.EPSILON10 in Heps. lra. }
  destruct (outline_orientation_columns enu Henu az el Hc) as (Uo & O0 & O1 & O2).
  destruct (visualizer_orientation_columns enu Henu az el Heps)
    as (Eq & Uv & V0 & V1 & V2).
  cbv zeta in Uo, O0, O1, O2, Eq, Uv, V0, V1, V2. unfold mv, mo, qv, qo.
  rewrite V0, V1, V2, O0, O1, O2.
  split; [exact Eq |]. split; [exact Uv |]. split; [exact Uo |].
  repeat split.
  destruct (Matrix3.multiplyByVector enu _). apply Cartesian3_ext; cbn; ring.
Qed.

Lemma level_cos_sq :
  CesiumMath.EPSILON10
  < cos (CesiumMath.toRadians 0) * cos (CesiumMath.toRadians 0).
Proof. rewrite toRadians_0, cos_0. unfold CesiumMath.EPSILON10. lra. Qed.

Lemma visualizer_turns_outline_witness :
  Geometry.rotation (Transforms.eastNorthUp 0 0)
  /\ Matrix3.getColumn
       (Matrix3.fromQuaternion
          (FV.orientation (FV.normalizedAzimuth 0) (FV.normalizedElevation 0)
             (Transforms.eastNorthUp 0 0))) 1
     = Matrix3.getColumn
         (Matrix3.fromQuaternion
            (SensorFrustum.orientation (SensorFrustum.normalizedAzimuth 0)
               (SensorFrustum.normalizedElevation 0)
               (Transforms.eastNorthUp 0 0))) 1.
Proof.
  split; [apply eastNorthUp_rotation |].
  destruct (visualizer_turns_outline 0 0 (Transforms.eastNorthUp 0 0)
              (eastNorthUp_rotation 0 0) level_cos_sq)
    as (_ & _ & _ & _ & H & _).
  exact H.
Defined.

(** ** SensorShadow: the constructor, the camera and [update] *)

Section ConstructorFacts.

Variable fromDegrees : R -> R -> R -> Cartesian3.t.
Variable enu : Cartesian3.t -> Matrix3.t.
Variable smt ppt : bool.

(** [_createShadowMap] touches the view position and the shadow map only. *)
Lemma createShadowMap_keeps (updateOnly : bool) (s s' : SS.t) :
  SS._createShadowMap enu smt updateOnly s = Ok s' ->
  SS.id s' = SS.id s
  /\ SS._sensorParameters s' = SS._sensorParameters s
  /\ SS._cameraPosition s' = SS._cameraPosition s
  /\ SS._size s' = SS._size s
  /\ SS.preUpdateListener s' = SS.preUpdateListener s
  /\ SS.postProcess s' = SS.postProcess s
  /\ SS._isDestroyed s' = SS._isDestroyed s
  /\ SS.inCollection s' = SS.inCollection s.
Proof.
  unfold SS._createShadowMap.
  destruct (SS._cameraPosition s) as [pos |] eqn:Ep.
  - destruct (SS.solverCall enu s pos) as [v | msg]; cbn [bind]; [| discriminate].
    intros H. injection H as <-.
    unfold SS._createNewShadowMap, SS._updateExistingShadowMap,
      SS.configureShadowMap.
    destruct s as [i sp cp cv sz l vm d pp ic]. cbn in Ep. subst cp.
    destruct updateOnly, smt, vm; cbn; auto 10.
  - intros H. injection H as <-. auto 10.
Qed.

(** In update mode the shadow map is never created and never dropped. *)
Lemma createShadowMap_update_presence (s s' : SS.t) :
  SS._createShadowMap enu smt true s = Ok s' ->
  (SS.viewShadowMap s' = None <-> SS.viewShadowMap s = None).
Proof.
  unfold SS._createShadowMap.
  destruct (SS._cameraPosition s) as [pos |] eqn:Ep.
  - destruct (SS.solverCall enu s pos) as [v | msg]; cbn [bind]; [| discriminate].
    intros H. injection H as <-.
    unfold SS._updateExistingShadowMap, SS.configureShadowMap.
    destruct s as [i sp cp cv sz l vm d pp ic]. cbn in Ep. subst cp.
    destruct vm; cbn; split; congruence.
  - intros H. injection H as <-. tauto.
Qed.

(** With an orthonormal East-North-Up rotation [_createShadowMap] does not
    throw. *)
Lemma createShadowMap_total (updateOnly : bool) (s : SS.t) :
  (forall pos, Geometry.orthonormal (enu pos)) ->
  exists s', SS._createShadowMap enu smt updateOnly s = Ok s'.
Proof.
  intros Henu. unfold SS._createShadowMap.
  destruct (SS._cameraPosition s) as [pos |]; [| eauto].
  unfold SS.solverCall.
  match goal with
  | |- context [SS._calculateCameraVectors enu ?p ?az ?el] =>
      destruct (shadow_solver_frame enu p az el (Henu p)) as [E _];
      rewrite E
  end.
  cbn [bind]. destruct (SS._createFrustum _ _). eauto.
Qed.

Lemma new_total (ident : nat) (sc : SS.Scene) (opts : SS.SensorShadowOptions) :
  (forall pos, Geometry.orthonormal (enu pos)) ->
  exists w, SS.new fromDegrees enu smt ppt ident sc opts = Ok w.
Proof.
  intros Henu. unfold SS.new, SS._addToScene.
  destruct (createShadowMap_total false
              (SS.self (SS.mkWorld sc (SS._initializeProperties fromDegrees ident opts)))
              Henu) as [s' E].
  rewrite E. cbn [bind]. eauto.
Qed.

(** X13.  With an orthonormal East-North-Up rotation, the camera of the
    shadow map the constructor builds sits at the sensor position and
    carries an orthonormal frame: its direction is
    ENU (sin az cos el, cos az cos el, sin el) for the azimuth and the
    elevation of the sensor parameters, its up vector is
    ENU (-sin az sin el, -cos az sin el, cos el), and its right vector is
    direction x up.  The view position is the sensor position plus the
    effective range along the direction. *)
Theorem shadow_camera_frame (ident : nat) (sc : SS.Scene)
    (opts : SS.SensorShadowOptions) (w : SS.World) (m : SS.ShadowMap) :
  (forall pos, Geometry.orthonormal (enu pos)) ->
  SS.new fromDegrees enu smt ppt ident sc opts = Ok w ->
  SS.viewShadowMap (SS.self w) = Some m ->
  let sv := nullish (SS.sensorParameters opts) SS.DEFAULT_SENSOR_PARAMETERS in
  let p := SS.cameraPosition opts in
  let pos := fromDegrees (SS.lon p) (SS.lat p) (SS.hae p) in
  let a := CesiumMath.toRadians (SS.azimuth sv) in
  let e := CesiumMath.toRadians (SS.elevation sv) in
  let d := Matrix3.multiplyByVector (enu pos) (SensorFrustum.localDirection a e) in
  let u := Matrix3.multiplyByVector (enu pos)
             (Cartesian3.mk (- sin a * sin e) (- cos a * sin e) (cos e)) in
  let cam := SS._lightCamera m in
  SS.position cam = pos
  /\ SS.cameraDirection cam = d
  /\ SS.cameraUp cam = u
  /\ SS.cameraRight cam = Cartesian3.cross d u
  /\ Geometry.orthonormalTriple d u (Cartesian3.cross d u)
  /\ SS._calculatedViewPosition (SS.self w)
     = Cartesian3.add pos
         (Cartesian3.multiplyByScalar d (SS._getEffectiveRange (SS.self w))).
Proof.
  intros Henu Hnew Hm sv p pos a e d u cam.
  destruct (shadow_solver_frame enu pos (SS.azimuth sv) (SS.elevation sv)
              (Henu pos)) as [E T].
  fold a e d u in E, T.
  revert Hnew. unfold SS.new, SS._addToScene, SS._createShadowMap. cbn.
  unfold SS.solverCall. cbn. fold sv p pos. rewrite E. cbn.
  intros H. injection H as <-.
  revert cam Hm.
  unfold SS._createNewShadowMap, SS.configureShadowMap, SS._addPostProcess,
    SS.primitivesAdd, SS._setupPreUpdateListener.
  destruct smt, ppt; cbn; intros Hm; try discriminate;
    injection Hm as <-; cbn; auto 10.
Qed.

(** X15.  What the constructor leaves in the scene when it returns: the
    instance is always added to the primitives, live and with the identity
    it was given; it has a shadow map unless the shadow-map constructor
    threw; the post-process stage and the [preUpdate] listener are
    registered together, exactly when neither the shadow-map constructor
    nor the stage constructor threw. *)
Theorem new_registers (ident : nat) (sc : SS.Scene)
    (opts : SS.SensorShadowOptions) (w : SS.World) :
  SS.new fromDegrees enu smt ppt ident sc opts = Ok w ->
  let s := SS.self w in
  SS.id s = ident
  /\ SS._isDestroyed s = false
  /\ SS.inCollection s = true
  /\ SS.primitives (SS.scene w) = SS.primitives sc ++ [ident]
  /\ SS.destroyPrimitives (SS.scene w) = SS.destroyPrimitives sc
  /\ (SS.viewShadowMap s = None <-> smt = true)
  /\ (if smt || ppt
      then SS.postProcess s = None /\ SS.preUpdateListener s = None
           /\ SS.postProcessStages (SS.scene w) = SS.postProcessStages sc
           /\ SS.preUpdate (SS.scene w) = SS.preUpdate sc
      else SS.postProcess s = Some ident /\ SS.preUpdateListener s = Some ident
           /\ SS.postProcessStages (SS.scene w) = SS.postProcessStages sc ++ [ident]
           /\ SS.preUpdate (SS.scene w) = SS.preUpdate sc ++ [ident]).
Proof.
  unfold SS.new, SS._addToScene. cbn [SS.self SS.scene].
  set (s0 := SS._initializeProperties fromDegrees ident opts).
  destruct (SS._createShadowMap enu smt false s0) as [s1 | msg] eqn:E;
    cbn [bind]; [| discriminate].
  intros H. injection H as <-.
  destruct (createShadowMap_keeps _ _ _ E) as (Hid & _ & _ & _ & Hl & Hp & Hd & Hc).
  assert (Hm : SS.viewShadowMap s1 = None <-> smt = true).
  { revert E. unfold SS._createShadowMap, s0. cbn [SS._cameraPosition SS._initializeProperties].
    destruct (SS.solverCall _ _ _) as [v | m]; cbn [bind]; [| discriminate].
    destruct (SS._createFrustum _ _) as [ar fr].
    intros E. injection E as <-.
    unfold SS._createNewShadowMap, SS.configureShadowMap.
    destruct smt; cbn; split; congruence. }
  unfold s0 in Hid, Hl, Hp, Hd, Hc. cbn in Hid, Hl, Hp, Hd, Hc.
  unfold SS._addPostProcess, SS.primitivesAdd, SS._setupPreUpdateListener.
  cbn [SS.self SS.scene].
  destruct sc as [pu ps pr dp].
  destruct (SS.viewShadowMap s1) as [m |] eqn:Em.
  - assert (Hs : smt = false).
    { destruct smt; [| reflexivity]. destruct Hm as [_ Hm]. discriminate (Hm eq_refl). }
    rewrite Hs. destruct ppt; cbn; rewrite ?Hl, ?Hp, ?Hid, ?Em; cbn;
      repeat split; auto; try discriminate.
  - rewrite (proj1 Hm eq_refl). cbn. rewrite ?Hl, ?Hp, ?Hid, ?Em.
    repeat split; auto.
Qed.

Lemma update_live (s s' : SS.t) (maps maps' : list (option SS.ShadowMap)) :
  SS.update enu smt s maps = Ok (s', maps') ->
  SS._isDestroyed s = false ->
  SS._createShadowMap enu smt true s = Ok s'
  /\ maps' = maps ++ [SS.viewShadowMap s'].
Proof.
  unfold SS.update. intros H Hd. rewrite Hd in H. cbn [negb] in H.
  destruct (SS._createShadowMap enu smt true s) as [s1 | msg]; cbn in H;
    [| discriminate].
  injection H as <- <-. auto.
Qed.

Lemma update_keeps (s s' : SS.t) (maps maps' : list (option SS.ShadowMap)) :
  SS.update enu smt s maps = Ok (s', maps') ->
  SS.id s' = SS.id s
  /\ SS.preUpdateListener s' = SS.preUpdateListener s
  /\ SS.postProcess s' = SS.postProcess s
  /\ SS._isDestroyed s' = SS._isDestroyed s
  /\ SS.inCollection s' = SS.inCollection s.
Proof.
  intros H. destruct (SS._isDestroyed s) eqn:Hd.
  - rewrite (update_destroyed enu smt s maps Hd) in H. injection H as <- _. auto.
  - destruct (update_live _ _ _ _ H Hd) as [E _].
    destruct (createShadowMap_keeps _ _ _ E) as (A & _ & _ & _ & B & C & D & F).
    rewrite Hd in D. auto.
Qed.

(** X16.  With an orthonormal East-North-Up rotation, [update] on an
    instance that is not destroyed never throws; it pushes exactly one
    entry on the frame's shadow maps, the shadow map of the instance, which
    is missing (the pushed entry is then undefined) exactly when the
    instance had none: [update] neither creates nor drops a shadow map.  The
    identity, the listener, the stage, the sensor parameters and the camera
    position are left alone, and the instance stays live. *)
Theorem update_on_live_instance (s : SS.t) (maps : list (option SS.ShadowMap)) :
  (forall pos, Geometry.orthonormal (enu pos)) ->
  SS._isDestroyed s = false ->
  exists s',
    SS.update enu smt s maps = Ok (s', maps ++ [SS.viewShadowMap s'])
    /\ (SS.viewShadowMap s' = None <-> SS.viewShadowMap s = None)
    /\ SS.id s' = SS.id s
    /\ SS._sensorParameters s' = SS._sensorParameters s
    /\ SS._cameraPosition s' = SS._cameraPosition s
    /\ SS.preUpdateListener s' = SS.preUpdateListener s
    /\ SS.postProcess s' = SS.postProcess s
    /\ SS._isDestroyed s' = false
    /\ SS.inCollection s' = SS.inCollection s.
Proof.
  intros Henu Hd.
  destruct (createShadowMap_total true s Henu) as [s' E].
  exists s'. split.
  { unfold SS.update. rewrite Hd, E. reflexivity. }
  split; [exact (createShadowMap_update_presence _ _ E) |].
  destruct (createShadowMap_keeps _ _ _ E) as (A & B & C & _ & D & F & G & H).
  rewrite Hd in G. auto 10.
Qed.

End ConstructorFacts.

Lemma equator_orthonormal (pos : Cartesian3.t) :
  Geometry.orthonormal (Scenario.enuEquator pos).
Proof. apply rotation_orthonormal, eastNorthUp_rotation. Qed.

Lemma shadow_camera_frame_witness :
  exists w m,
    SS.new Scenario.fromDegreesEquator Scenario.enuEquator false false
      0 Scenario.emptyScene Scenario.options = Ok w
    /\ SS.viewShadowMap (SS.self w) = Some m
    /\ SS.position (SS._lightCamera m) = Scenario.fromDegreesEquator 0 0 0
    /\ Geometry.isUnit (SS.cameraDirection (SS._lightCamera m)).
Proof.
  destruct (new_equator Scenario.options
              (SS.mkSensorView 0 (- 0) 60 (Some 1000) 40) eq_refl eq_refl)
    as (w & m & Hw & Hm); [cbn; ring |].
  exists w, m. split; [exact Hw |]. split; [exact Hm |].
  destruct (shadow_camera_frame Scenario.fromDegreesEquator Scenario.enuEquator
              false false 0 Scenario.emptyScene Scenario.options w m
              equator_orthonormal Hw Hm) as (Hp & Hd & _ & _ & (Ud & _) & _).
  split; [exact Hp |]. rewrite Hd. exact Ud.
Defined.

Lemma new_registers_witness :
  exists w,
    SS.new Scenario.fromDegreesEquator Scenario.enuEquator false false
      0 Scenario.emptyScene Scenario.options = Ok w
    /\ SS.primitives (SS.scene w) = [0%nat]
    /\ SS.postProcessStages (SS.scene w) = [0%nat]
    /\ SS.preUpdate (SS.scene w) = [0%nat].
Proof.
  destruct (new_equator Scenario.options
              (SS.mkSensorView 0 (- 0) 60 (Some 1000) 40) eq_refl eq_refl)
    as (w & m & Hw & Hm); [cbn; ring |].
  exists w. split; [exact Hw |].
  destruct (new_registers Scenario.fromDegreesEquator Scenario.enuEquator
              false false 0 Scenario.emptyScene Scenario.options w Hw)
    as (_ & _ & _ & Hp & _ & _ & _ & _ & Hs & Hu).
  split; [exact Hp |]. split; [exact Hs | exact Hu].
Defined.

Lemma update_on_live_instance_witness :
  SS._isDestroyed Examples.bareInstance = false
  /\ exists s',
       SS.update Scenario.enuEquator false Examples.bareInstance []
       = Ok (s', [SS.viewShadowMap s'])
       /\ SS.viewShadowMap s' = None.
Proof.
  split; [reflexivity |].
  destruct (update_on_live_instance Scenario.enuEquator false
              Examples.bareInstance [] equator_orthonormal eq_refl)
    as (s' & Hu & Hn & _).
  exists s'. split; [exact Hu |]. apply Hn. reflexivity.
Defined.

(** ** Frames after the constructor *)

Section Frames.

Variable fromDegrees : R -> R -> R -> Cartesian3.t.
Variable enu : Cartesian3.t -> Matrix3.t.
Variable smt ppt : bool.

(** [_createShadowMap] reads the sensor parameters, the camera position and
    the shadow map, and nothing else of the instance. *)
Lemma createShadowMap_update_closed_form (s : SS.t) (pos : Cartesian3.t)
    (v : SS.CameraVectors) :
  SS._cameraPosition s = Some pos ->
  SS.solverCall enu s pos = Ok v ->
  let r := SS._getEffectiveRange s in
  let camera (near : number) :=
    SS.mkCamera pos (SS.direction v) (SS.up v) (SS.right v)
      (PerspectiveFrustum.mk
         (Fin (CesiumMath.toRadians (SS.vfov (SS._sensorParameters s))))
         (fst (SS._createFrustum s r)) near (Fin r)) in
  SS._createShadowMap enu smt true s
  = Ok (SS.mkInstance (SS.id s) (SS._sensorParameters s) (Some pos)
          (Cartesian3.add pos (Cartesian3.multiplyByScalar (SS.direction v) r))
          (SS._size s) (SS.preUpdateListener s)
          (match SS.viewShadowMap s with
           | Some m =>
               Some (SS.mkShadowMap
                       (camera (PerspectiveFrustum.near
                                  (SS.frustum (SS._lightCamera m))))
                       (SS.shadowMapSize m) (SS.pointLightRadius m) r
                       true (Some 0) (SS.destroyed m))
           | None => None
           end)
          (SS._isDestroyed s) (SS.postProcess s) (SS.inCollection s)).
Proof.
  intros Hp Hv r camera. unfold camera, r.
  unfold SS._createShadowMap. rewrite Hp, Hv.
  destruct s as [i sp cp cv sz l vm d pp ic].
  shadow_fields_in Hp. subst cp.
  unfold SS._getEffectiveRange, SS._createFrustum,
    SS._updateExistingShadowMap, SS.configureShadowMap.
  shadow_fields.
  destruct vm as [m |]; shadow_fields; reflexivity.
Qed.

(** The instance the constructor returns, field by field. *)
Lemma new_closed_form (ident : nat) (sc : SS.Scene)
    (opts : SS.SensorShadowOptions) (w : SS.World) :
  SS.new fromDegrees enu smt ppt ident sc opts = Ok w ->
  let s0 := SS._initializeProperties fromDegrees ident opts in
  let p := SS.cameraPosition opts in
  let pos := fromDegrees (SS.lon p) (SS.lat p) (SS.hae p) in
  let r := SS._getEffectiveRange s0 in
  exists v,
    SS.solverCall enu s0 pos = Ok v
    /\ SS.self w
       = SS.mkInstance ident (SS._sensorParameters s0) (Some pos)
           (Cartesian3.add pos
              (Cartesian3.multiplyByScalar (SS.direction v) r))
           (SS._size s0)
           (if smt || ppt then None else Some ident)
           (if smt then None
            else Some (SS.mkShadowMap
                         (SS.mkCamera pos (SS.direction v) (SS.up v) (SS.right v)
                            (PerspectiveFrustum.mk
                               (Fin (CesiumMath.toRadians
                                       (SS.vfov (SS._sensorParameters s0))))
                               (fst (SS._createFrustum s0 r))
                               (Fin SS.DEFAULT_NEAR_PLANE) (Fin r)))
                         (SS._size s0) r r true (Some 0) false))
           false
           (if smt || ppt then None else Some ident)
           true.
Proof.
  intros H s0 p pos r. revert H.
  unfold SS.new, SS._addToScene, SS._createShadowMap.
  fold s0. shadow_fields.
  change (SS._cameraPosition s0) with (Some pos). shadow_fields.
  destruct (SS.solverCall enu s0 pos) as [v | msg]; shadow_fields;
    [| discriminate].
  unfold SS._createFrustum at 1. shadow_fields.
  intros H. injection H as <-. exists v. split; [reflexivity |].
  unfold SS._createFrustum, SS._createNewShadowMap, SS.configureShadowMap,
    SS._addPostProcess, SS.primitivesAdd, SS._setupPreUpdateListener.
  shadow_fields.
  destruct smt, ppt; shadow_fields; reflexivity.
Qed.

(** On the instance the constructor returned, [_createShadowMap] in update
    mode recomputes what is already there. *)
Lemma createShadowMap_after_new (ident : nat) (sc : SS.Scene)
    (opts : SS.SensorShadowOptions) (w : SS.World) :
  SS.new fromDegrees enu smt ppt ident sc opts = Ok w ->
  SS._isDestroyed (SS.self w) = false
  /\ SS._createShadowMap enu smt true (SS.self w) = Ok (SS.self w).
Proof.
  intros H.
  destruct (new_closed_form ident sc opts w H) as (v & Hv & Hs).
  cbv zeta in Hv, Hs.
  set (s0 := SS._initializeProperties fromDegrees ident opts) in *.
  set (pos := fromDegrees _ _ _) in *.
  assert (Hp : SS._cameraPosition (SS.self w) = Some pos)
    by (rewrite Hs; reflexivity).
  assert (Hsp : SS._sensorParameters (SS.self w) = SS._sensorParameters s0)
    by (rewrite Hs; reflexivity).
  assert (Hv' : SS.solverCall enu (SS.self w) pos = Ok v).
  { unfold SS.solverCall in *. rewrite Hsp. exact Hv. }
  assert (Hr : SS._getEffectiveRange (SS.self w) = SS._getEffectiveRange s0).
  { unfold SS._getEffectiveRange. rewrite Hsp. reflexivity. }
  assert (Hf : SS._createFrustum (SS.self w) (SS._getEffectiveRange s0)
               = SS._createFrustum s0 (SS._getEffectiveRange s0)).
  { apply createFrustum_parameters. exact Hsp. }
  split; [rewrite Hs; reflexivity |].
  rewrite (createShadowMap_update_closed_form (SS.self w) pos v Hp Hv').
  cbv zeta. rewrite Hr, Hf, Hsp. rewrite Hs at 8.
  f_equal. rewrite Hs. shadow_fields.
  destruct smt; reflexivity.
Qed.

(** X17.  Frames do not change a SensorShadow: on the instance the
    constructor returned, [update] succeeds, recomputes the view position,
    the camera of the shadow map, its frustum and its maximum distance to
    the values they already have, and only pushes the shadow map on the
    frame's list; so does every later frame. *)
Theorem update_is_stationary (ident : nat) (sc : SS.Scene)
    (opts : SS.SensorShadowOptions) (w : SS.World)
    (maps : list (option SS.ShadowMap)) :
  SS.new fromDegrees enu smt ppt ident sc opts = Ok w ->
  SS.update enu smt (SS.self w) maps
  = Ok (SS.self w, maps ++ [SS.viewShadowMap (SS.self w)]).
Proof.
  intros H.
  destruct (createShadowMap_after_new ident sc opts w H) as [Hd E].
  unfold SS.update. rewrite Hd. cbn [negb]. rewrite E. reflexivity.
Qed.

(** C10.  When the sensor info has no range, SensorShadowArea passes
    range 1000 to SensorShadow, and the default of 2000 is not used: the
    effective range is 1000; unless the constructor of the shadow map threw,
    the instance holds a shadow map whose maximum distance is 1000 and whose
    camera has its far plane at 1000; and every [update] succeeds and leaves
    the range, the far plane and the maximum distance at 1000. *)
Theorem undefined_range_gives_1000
    (p : SA.Props) (info : SA.CurrentViewSensorInfo)
    (opts : SS.SensorShadowOptions) (ident : nat) (sc : SS.Scene)
    (w : SS.World) :
  SA.currentViewSensorInfo p = Some info ->
  SA.range info = None ->
  SA.sensorConfigOf p = Some opts ->
  SS.new fromDegrees enu smt ppt ident sc opts = Ok w ->
  SS.range (SS._sensorParameters (SS.self w)) = Some SA.DEFAULT_RANGE
  /\ SA.DEFAULT_RANGE = 1000
  /\ SS._getEffectiveRange (SS.self w) = 1000
  /\ SS._getEffectiveRange (SS.self w) <> SS.DEFAULT_VISUALIZATION_RANGE
  /\ (SS.viewShadowMap (SS.self w) = None <-> smt = true)
  /\ (smt = false ->
      exists m,
        SS.viewShadowMap (SS.self w) = Some m
        /\ SS.maximumDistance m = 1000
        /\ PerspectiveFrustum.far (SS.frustum (SS._lightCamera m)) = Fin 1000
        /\ SS.destroyed m = false)
  /\ (forall shadowMaps,
        exists s',
          SS.update enu smt (SS.self w) shadowMaps
          = Ok (s', shadowMaps ++ [SS.viewShadowMap s'])
          /\ SS._getEffectiveRange s' = 1000
          /\ (SS.viewShadowMap s' = None <-> smt = true)
          /\ (smt = false ->
              exists m',
                SS.viewShadowMap s' = Some m'
                /\ SS.maximumDistance m' = 1000
                /\ PerspectiveFrustum.far (SS.frustum (SS._lightCamera m'))
                   = Fin 1000)).
Proof.
  intros Hinfo Hrange Hcfg Hnew.
  unfold SA.sensorConfigOf, SA.sensorConfig, SA.memoizedCurrentViewSensorInfo in Hcfg.
  rewrite Hinfo in Hcfg. cbn in Hcfg. rewrite Hrange in Hcfg. cbn in Hcfg.
  injection Hcfg as <-.
  destruct (createShadowMap_after_new _ _ _ _ Hnew) as [Hd E].
  destruct (new_closed_form _ _ _ _ Hnew) as (v & _ & Hs). cbv zeta in Hs.
  set (s0 := SS._initializeProperties _ _ _) in Hs.
  change (SS._getEffectiveRange s0) with 1000 in Hs.
  assert (Hp : SS._sensorParameters (SS.self w) = SS._sensorParameters s0)
    by (rewrite Hs; reflexivity).
  assert (Hr : SS._getEffectiveRange (SS.self w) = 1000)
    by (unfold SS._getEffectiveRange; rewrite Hp; reflexivity).
  assert (Hnone : SS.viewShadowMap (SS.self w) = None <-> smt = true).
  { rewrite Hs. shadow_fields. destruct smt; split; congruence. }
  assert (Hsome : smt = false ->
                  exists m,
                    SS.viewShadowMap (SS.self w) = Some m
                    /\ SS.maximumDistance m = 1000
                    /\ PerspectiveFrustum.far (SS.frustum (SS._lightCamera m))
                       = Fin 1000
                    /\ SS.destroyed m = false).
  { intros Hf. rewrite Hs, Hf. shadow_fields.
    eexists. split; [reflexivity |]. shadow_fields. repeat split. }
  split; [rewrite Hp; reflexivity |].
  split; [reflexivity |].
  split; [exact Hr |].
  split; [rewrite Hr; unfold SS.DEFAULT_VISUALIZATION_RANGE; lra |].
  split; [exact Hnone |].
  split; [exact Hsome |].
  intros maps. exists (SS.self w).
  split; [unfold SS.update; rewrite Hd; cbn [negb]; rewrite E; reflexivity |].
  split; [exact Hr |]. split; [exact Hnone |].
  intros Hf. destruct (Hsome Hf) as (m & Hm & Hmd & Hfar & _). eauto.
Qed.

End Frames.

Lemma update_is_stationary_witness :
  exists w,
    SS.new Scenario.fromDegreesEquator Scenario.enuEquator false false
      0 Scenario.emptyScene Scenario.options = Ok w
    /\ SS.update Scenario.enuEquator false (SS.self w) []
       = Ok (SS.self w, [SS.viewShadowMap (SS.self w)]).
Proof.
  destruct (new_equator Scenario.options
              (SS.mkSensorView 0 (- 0) 60 (Some 1000) 40) eq_refl eq_refl)
    as (w & m & Hw & Hm); [cbn; ring |].
  exists w. split; [exact Hw |].
  exact (update_is_stationary Scenario.fromDegreesEquator Scenario.enuEquator
           false false 0 Scenario.emptyScene Scenario.options w [] Hw).
Defined.

Lemma undefined_range_gives_1000_witness :
  SA.range Scenario.info = None
  /\ exists w m,
       SS.new Scenario.fromDegreesEquator Scenario.enuEquator false false
         0 Scenario.emptyScene Scenario.options = Ok w
       /\ SS._getEffectiveRange (SS.self w) = 1000
       /\ SS.viewShadowMap (SS.self w) = Some m
       /\ SS.maximumDistance m = 1000
       /\ PerspectiveFrustum.far (SS.frustum (SS._lightCamera m)) = Fin 1000.
Proof.
  split; [reflexivity |].
  destruct (new_equator Scenario.options
              (SS.mkSensorView 0 (- 0) 60 (Some 1000) 40) eq_refl eq_refl)
    as (w & m0 & Hw & _); [cbn; ring |].
  destruct (undefined_range_gives_1000 Scenario.fromDegreesEquator
              Scenario.enuEquator false false Scenario.props Scenario.info
              Scenario.options 0 Scenario.emptyScene w
              eq_refl eq_refl eq_refl Hw) as (_ & _ & Hr & _ & _ & Hm & _).
  destruct (Hm eq_refl) as (m & Em & Hd & Hf & _).
  exists w, m. auto.
Defined.

(** ** SensorShadowArea: the effect over the life of the component *)

Lemma cleanup_idempotent (st : SA.State) :
  SA.cleanupSensorShadow (SA.cleanupSensorShadow st) = SA.cleanupSensorShadow st.
Proof.
  unfold SA.cleanupSensorShadow.
  destruct (SA.sensorShadowRef st) eqn:E; cbn; rewrite ?E; reflexivity.
Qed.

Lemma cleanup_clears (st : SA.State) :
  SA.sensorShadowRef (SA.cleanupSensorShadow st) = None
  /\ SA.nextId (SA.cleanupSensorShadow st) = SA.nextId st.
Proof.
  unfold SA.cleanupSensorShadow. destruct (SA.sensorShadowRef st) eqn:E; cbn; auto.
Qed.

Lemma destroy_scene_depends (sc : SS.Scene) (s s' : SS.t) :
  SS.id s' = SS.id s ->
  SS.preUpdateListener s' = SS.preUpdateListener s ->
  SS.postProcess s' = SS.postProcess s ->
  SS.inCollection s' = SS.inCollection s ->
  SS.scene (SS.destroy (SS.mkWorld sc s')) = SS.scene (SS.destroy (SS.mkWorld sc s)).
Proof.
  intros H1 H2 H3 H4. rewrite !destroy_closed_form. cbn. rewrite H1, H2, H3, H4.
  reflexivity.
Qed.

Section LifecycleFacts.

Variable fromDegrees : R -> R -> R -> Cartesian3.t.
Variable enu : Cartesian3.t -> Matrix3.t.
Variable smt ppt : bool.
Variable surfaceDistance : SA.Cartographic -> SA.Cartographic -> R.

Lemma leakFree_cleanup (base : SS.Scene) (st : SA.State) :
  Lifecycle.leakFree base st ->
  Lifecycle.leakFree base (SA.cleanupSensorShadow st).
Proof.
  intros [H1 H2]. split.
  - rewrite cleanup_idempotent. exact H1.
  - rewrite (proj2 (cleanup_clears st)). exact H2.
Qed.

Lemma leakFree_effect (base : SS.Scene) (st : SA.State) (p : SA.Props)
    (viewer : option SA.Viewer) (fsShader shaderError : option string) :
  Lifecycle.leakFree base st ->
  Lifecycle.leakFree base
    (SA.effect fromDegrees enu smt ppt surfaceDistance
       p viewer fsShader shaderError st).
Proof.
  intros L. pose proof (leakFree_cleanup base st L) as Lc.
  unfold SA.effect.
  destruct (negb (SA.isDeviceSelected p)); [exact Lc |].
  destruct viewer as [v |]; [| exact Lc].
  destruct (SA.sensorConfigOf p) as [cfg |]; [| exact Lc].
  destruct (negb _); [exact Lc |].
  destruct (Rltb _ _); [exact Lc |].
  destruct (SS.new _ _ _ _ _ _ _) as [w | msg] eqn:En.
  - destruct Lc as [Hs Hi].
    destruct (cleanup_clears st) as [Hr Hn].
    split.
    + unfold SA.cleanupSensorShadow. cbn.
      replace (SS.mkWorld (SS.scene w) (SS.self w)) with w
        by (destruct w; reflexivity).
      rewrite cleanup_idempotent in Hs. rewrite <- Hs.
      apply (destroy_after_new_restores_scene _ _ _ _ _ _ _ _ En);
        intros Hin; rewrite Hs in Hin;
        apply (Nat.lt_irrefl (SA.nextId (SA.cleanupSensorShadow st)));
        apply Hi; unfold Lifecycle.identities; rewrite !in_app_iff; auto.
    + cbn. intros i Hin. specialize (Hi i Hin). lia.
  - apply leakFree_cleanup. exact Lc.
Qed.

Lemma leakFree_frame (base : SS.Scene) (st : SA.State)
    (maps : list (option SS.ShadowMap)) :
  Lifecycle.leakFree base st ->
  Lifecycle.leakFree base (Lifecycle.frame enu smt maps st).
Proof.
  intros [H1 H2]. unfold Lifecycle.frame.
  destruct (SA.sensorShadowRef st) as [s |] eqn:Er; [| split; assumption].
  destruct (SS.update enu smt s maps) as [[s' maps'] | msg] eqn:Eu;
    [| split; assumption].
  destruct (update_keeps _ _ _ _ _ _ Eu) as (K1 & K2 & K3 & _ & K5).
  split; [| exact H2].
  unfold SA.cleanupSensorShadow in *. rewrite Er in H1. cbn in *.
  rewrite (destroy_scene_depends _ s s' K1 K2 K3 K5). exact H1.
Qed.

Lemma leakFree_run (base : SS.Scene) (events : list Lifecycle.Event)
    (st : SA.State) :
  Lifecycle.leakFree base st ->
  Lifecycle.leakFree base
    (Lifecycle.run fromDegrees enu smt ppt surfaceDistance events st).
Proof.
  unfold Lifecycle.run. revert st.
  induction events as [| ev rest IH]; intros st L; [exact L |].
  cbn [fold_left]. apply IH.
  destruct ev as [p v f e | | maps]; cbn [Lifecycle.step].
  - apply leakFree_effect, L.
  - apply leakFree_cleanup, L.
  - apply leakFree_frame, L.
Qed.

(** X19.  The component never leaks into the scene.  Start from a scene
    [base] whose identities are all older than the next one and no sensor
    shadow; let the effect run any number of times with any properties,
    viewer and shader, let cleanups run at any point and frames call
    [update] in between: whenever the reference is empty the scene is
    [base] again, and at any moment one cleanup gives back [base]. *)
Theorem effect_sequence_is_leak_free (base : SS.Scene) (n : nat)
    (events : list Lifecycle.Event) :
  (forall i, In i (Lifecycle.identities base) -> (i < n)%nat) ->
  let st := Lifecycle.run fromDegrees enu smt ppt surfaceDistance events
              (SA.mkState base None n) in
  SA.scene (SA.cleanupSensorShadow st) = base
  /\ (SA.sensorShadowRef st = None -> SA.scene st = base).
Proof.
  intros Hn st.
  assert (L0 : Lifecycle.leakFree base (SA.mkState base None n)).
  { split; [reflexivity | exact Hn]. }
  pose proof (leakFree_run base events _ L0) as [H1 _]. fold st in H1.
  split; [exact H1 |].
  intros Hr. unfold SA.cleanupSensorShadow in H1. rewrite Hr in H1. exact H1.
Qed.

End LifecycleFacts.

Lemma effect_sequence_is_leak_free_witness :
  let st := Lifecycle.run Scenario.fromDegreesEquator Scenario.enuEquator
              false false (fun _ _ => 1999) Examples.session
              (SA.mkState Scenario.emptyScene None 0) in
  SA.scene (SA.cleanupSensorShadow st) = Scenario.emptyScene.
Proof.
  refine (proj1 (effect_sequence_is_leak_free Scenario.fromDegreesEquator
                   Scenario.enuEquator false false (fun _ _ => 1999)
                   Scenario.emptyScene 0 Examples.session _)).
  intros i Hin. cbn in Hin. contradiction.
Defined.

Section EffectFacts.

Variable fromDegrees : R -> R -> R -> Cartesian3.t.
Variable enu : Cartesian3.t -> Matrix3.t.
Variable smt ppt : bool.
Variable surfaceDistance : SA.Cartographic -> SA.Cartographic -> R.

(** X18.  With an orthonormal East-North-Up rotation the constructor of
    SensorShadow cannot throw, so the effect leaves a sensor shadow behind
    exactly when the device is selected, there is a viewer and sensor
    info, the shader text is loaded and not empty, no shader error is
    recorded, and the viewing camera is at most 2000 m from the sensor. *)
Theorem effect_creates_iff (p : SA.Props) (viewer : option SA.Viewer)
    (fsShader shaderError : option string) (st : SA.State) :
  (forall pos, Geometry.orthonormal (enu pos)) ->
  SA.sensorShadowRef
    (SA.effect fromDegrees enu smt ppt surfaceDistance p viewer
       fsShader shaderError st) <> None
  <-> SA.isDeviceSelected p = true
      /\ SA.currentViewSensorInfo p <> None
      /\ SA.truthy fsShader = true
      /\ SA.truthy shaderError = false
      /\ exists v, viewer = Some v
                   /\ SA.cameraDistance surfaceDistance v (SA.point p)
                      <= SA.MAX_CAMERA_DISTANCE.
Proof.
  intros Henu.
  pose proof (proj1 (cleanup_clears st)) as Hc.
  unfold SA.effect.
  destruct (SA.isDeviceSelected p); cbn [negb];
    [| rewrite Hc; split; [congruence | intros (? & _); discriminate]].
  destruct viewer as [v |];
    [| rewrite Hc; split;
       [congruence | intros (_ & _ & _ & _ & ? & ? & _); discriminate]].
  unfold SA.sensorConfigOf, SA.sensorConfig, SA.memoizedCurrentViewSensorInfo.
  destruct (SA.currentViewSensorInfo p) as [info |];
    [| rewrite Hc; split; [congruence | intros (_ & ? & _); congruence]].
  destruct (SA.truthy fsShader); cbn [andb negb];
    [| rewrite Hc; split; [congruence | intros (_ & _ & ? & _); discriminate]].
  destruct (SA.truthy shaderError); cbn [andb negb];
    [rewrite Hc; split; [congruence | intros (_ & _ & _ & ? & _); discriminate] |].
  unfold Rltb. destruct (Rlt_dec _ _) as [Hfar | Hnear].
  - rewrite Hc. split; [congruence |].
    intros (_ & _ & _ & _ & v' & Ev & Hd). injection Ev as <-. lra.
  - match goal with
    | |- context [SS.new _ _ _ _ ?i ?sc ?o] =>
        destruct (new_total fromDegrees enu smt ppt i sc o Henu) as [w Ew];
        rewrite Ew
    end.
    cbn. split; [| discriminate].
    intros _. repeat split; try discriminate.
    exists v. split; [reflexivity | lra].
Qed.

End EffectFacts.

Lemma near_camera_distance :
  SA.cameraDistance (fun _ _ => 1999) Scenario.farViewer
    (SA.point Scenario.props) = 1999.
Proof.
  unfold SA.cameraDistance, SA.orZero, Reqb. cbn.
  destruct (Req_dec_T 0 0) as [_ | N]; [| exfalso; apply N; reflexivity].
  replace (1999 * (1999 * 1) + (0 - 0) * ((0 - 0) * 1)) with (1999 * 1999)
    by ring.
  apply sqrt_square. lra.
Qed.

Lemma effect_creates_iff_witness :
  SA.sensorShadowRef
    (SA.effect Scenario.fromDegreesEquator Scenario.enuEquator false false
       (fun _ _ => 1999) Scenario.props (Some Scenario.farViewer)
       (Some "void main() {}"%string) None Scenario.idleState) <> None.
Proof.
  apply (effect_creates_iff Scenario.fromDegreesEquator Scenario.enuEquator
           false false (fun _ _ => 1999) Scenario.props
           (Some Scenario.farViewer) (Some "void main() {}"%string) None
           Scenario.idleState equator_orthonormal).
  split; [reflexivity |]. split; [discriminate |].
  split; [reflexivity |]. split; [reflexivity |].
  exists Scenario.farViewer. split; [reflexivity |].
  rewrite near_camera_distance. unfold SA.MAX_CAMERA_DISTANCE. lra.
Defined.

(** ** The distance gate *)

Section Gate.

Variable fromDegrees : R -> R -> R -> Cartesian3.t.
Variable enu : Cartesian3.t -> Matrix3.t.
Variable smt ppt : bool.
Variable surfaceDistance : SA.Cartographic -> SA.Cartographic -> R.

(** C7, as amended.  On a run of the effect in which the distance from the
    viewing camera to the sensor, the square root of the squared surface
    distance plus the squared height difference, exceeds 2000, no sensor
    shadow is constructed and the one the reference holds, if any, is torn
    down: its [preUpdate] listener and its post-process stage are removed,
    it is taken out of the primitives and the reference is cleared.  When
    the sensor shadow had been created by an earlier run of the effect, the
    scene is back to what it was before that run. *)
Theorem distance_gate
    (p : SA.Props) (viewer : SA.Viewer) (fsShader shaderError : option string)
    (st : SA.State) :
  SA.MAX_CAMERA_DISTANCE < SA.cameraDistance surfaceDistance viewer (SA.point p) ->
  let st' := SA.effect fromDegrees enu smt ppt surfaceDistance p (Some viewer)
                       fsShader shaderError st in
  SA.MAX_CAMERA_DISTANCE = 2000
  /\ SA.sensorShadowRef st' = None
  /\ SA.nextId st' = SA.nextId st
  /\ match SA.sensorShadowRef st with
     | None => SA.scene st' = SA.scene st
     | Some s =>
         SS.preUpdate (SA.scene st')
         = match SS.preUpdateListener s with
           | Some l => SS.removeFirst l (SS.preUpdate (SA.scene st))
           | None => SS.preUpdate (SA.scene st)
           end
         /\ SS.postProcessStages (SA.scene st')
            = match SS.postProcess s with
              | Some stage =>
                  SS.removeFirst stage (SS.postProcessStages (SA.scene st))
              | None => SS.postProcessStages (SA.scene st)
              end
         /\ SS.primitives (SA.scene st')
            = (if SS.inCollection s
               then SS.removeFirst (SS.id s) (SS.primitives (SA.scene st))
               else SS.primitives (SA.scene st))
     end
  /\ (forall (st0 : SA.State) (p0 : SA.Props) (viewer0 : option SA.Viewer)
             (fsShader0 shaderError0 : option string),
        SA.sensorShadowRef st0 = None ->
        (forall i, In i (Lifecycle.identities (SA.scene st0)) ->
                   (i < SA.nextId st0)%nat) ->
        st = SA.effect fromDegrees enu smt ppt surfaceDistance p0 viewer0
                       fsShader0 shaderError0 st0 ->
        SA.scene st' = SA.scene st0).
Proof.
  intros Hfar st'.
  assert (E : st' = SA.cleanupSensorShadow st).
  { unfold st', SA.effect.
    destruct (negb (SA.isDeviceSelected p)); [reflexivity |].
    destruct (SA.sensorConfigOf p); [| reflexivity].
    destruct (negb (SA.truthy fsShader && negb (SA.truthy shaderError)));
      [reflexivity |].
    unfold Rltb. destruct (Rlt_dec _ _) as [_ | N]; [reflexivity | contradiction]. }
  split; [reflexivity |].
  split; [rewrite E; apply cleanup_clears |].
  split; [rewrite E; apply cleanup_clears |].
  split.
  - rewrite E. unfold SA.cleanupSensorShadow.
    destruct (SA.sensorShadowRef st) as [s |]; [| reflexivity].
    cbn [SA.scene]. rewrite destroy_closed_form. cbn. auto.
  - intros st0 p0 viewer0 fs0 err0 Hr Hids Hst.
    assert (L0 : Lifecycle.leakFree (SA.scene st0) st0).
    { split; [| exact Hids]. unfold SA.cleanupSensorShadow. rewrite Hr.
      reflexivity. }
    pose proof (leakFree_effect fromDegrees enu smt ppt surfaceDistance
                  (SA.scene st0) st0 p0 viewer0 fs0 err0 L0) as [L _].
    rewrite <- Hst in L. rewrite E. exact L.
Qed.

End Gate.

(** The effect finds the live instance of [Scenario.liveWorld] while the
    camera is 2001 m away: the reference is cleared and the listener, the
    stage and the primitive are gone from the scene. *)
Lemma distance_gate_witness :
  SA.MAX_CAMERA_DISTANCE
  < SA.cameraDistance Scenario.surface2001 Scenario.farViewer
      (SA.point Scenario.props)
  /\ SA.sensorShadowRef Examples.liveState
     = Some (SS.self Scenario.liveWorld)
  /\ SS.primitives (SA.scene Examples.liveState) = [7%nat]
  /\ let st' :=
       SA.effect Scenario.fromDegreesEquator Scenario.enuEquator false false
         Scenario.surface2001 Scenario.props (Some Scenario.farViewer)
         (Some "void main() {}"%string) None Examples.liveState in
     SA.sensorShadowRef st' = None
     /\ SS.preUpdate (SA.scene st') = []
     /\ SS.postProcessStages (SA.scene st') = []
     /\ SS.primitives (SA.scene st') = [].
Proof.
  assert (H : SA.MAX_CAMERA_DISTANCE
              < SA.cameraDistance Scenario.surface2001 Scenario.farViewer
                  (SA.point Scenario.props)).
  { change (SA.point Scenario.props) with Scenario.point.
    rewrite far_camera_distance. unfold SA.MAX_CAMERA_DISTANCE. lra. }
  split; [exact H |]. split; [reflexivity |]. split; [reflexivity |].
  destruct (distance_gate Scenario.fromDegreesEquator Scenario.enuEquator
              false false Scenario.surface2001 Scenario.props
              Scenario.farViewer (Some "void main() {}"%string) None
              Examples.liveState H) as (_ & Hr & _ & Hs & _).
  cbv zeta. split; [exact Hr |]. exact Hs.
Defined.

Lemma meridian_distance (d : R) :
  0 <= d ->
  SA.cameraDistance Examples.meridianDistance
    (SA.mkViewer (SA.mkCartographic 0 (d / 6378137) 0)) Scenario.point = d.
Proof.
  intros Hd.
  unfold SA.cameraDistance, Examples.meridianDistance, SA.orZero, Reqb,
    SA.Cartographic_fromDegrees.
  cbn [SA.positionCartographic SA.latitude SA.height SS.lon SS.lat SS.hae
       Scenario.point].
  rewrite toRadians_0.
  destruct (Req_dec_T 0 0) as [_ | N]; [| exfalso; apply N; reflexivity].
  replace (d / 6378137 - 0) with (d / 6378137) by ring.
  rewrite Rabs_pos_eq by (apply Rmult_le_pos; [exact Hd | lra]).
  replace ((6378137 * (d / 6378137)) ^ 2 + (0 - 0) ^ 2) with (d * d)
    by (field; lra).
  apply sqrt_square. exact Hd.
Qed.

(** The world the constructor builds on the equator for a level sensor
    pointing North, in an empty scene. *)
Lemma new_equator_world (opts : SS.SensorShadowOptions) (sv : SS.SensorView)
    (w : SS.World) :
  SS.sensorParameters opts = Some sv ->
  SS.azimuth sv = 0 ->
  SS.elevation sv = 0 ->
  SS.new Scenario.fromDegreesEquator Scenario.enuEquator false false
    0 Scenario.emptyScene opts = Ok w ->
  SS.scene w = SS.mkScene [0%nat] [0%nat] [0%nat] true
  /\ SS.isDestroyed (SS.self w) = false
  /\ exists m, SS.viewShadowMap (SS.self w) = Some m /\ SS.destroyed m = false.
Proof.
  intros Hsv Haz Hel.
  unfold SS.new, SS._addToScene, SS._createShadowMap,
    SS._initializeProperties, SS.solverCall.
  cbn [SS.self SS.scene SS._cameraPosition SS._sensorParameters nullish].
  rewrite Hsv. cbn [nullish]. rewrite Haz.
  rewrite (solver_equator _ _ Hel). cbn.
  intros H. injection H as <-. cbn.
  split; [reflexivity |]. split; [reflexivity |].
  eexists. split; reflexivity.
Qed.

(** C7 as stated fails: the gate is tested only when the effect runs, and
    the position of the viewing camera is no dependency of the effect.  The
    effect creates the sensor shadow with the camera 1999 m away; the camera
    then moves to 2001 m and a frame is rendered: the distance exceeds 2000,
    and the sensor shadow is still referenced, live and registered in the
    scene.  Were the effect to run now, it would tear it down. *)
Lemma distant_camera_keeps_shadow :
  let shader := Some "void main() {}"%string in
  let created :=
    Mounted.runEffect Scenario.fromDegreesEquator Scenario.enuEquator
      false false Examples.meridianDistance Scenario.props shader None
      Examples.mountedNear in
  let moved :=
    Mounted.renderFrame Scenario.enuEquator false []
      (Mounted.moveCamera Examples.camera2001 created) in
  Mounted.distance Examples.meridianDistance Scenario.point Examples.mountedNear
  = 1999
  /\ Mounted.distance Examples.meridianDistance Scenario.point moved = 2001
  /\ SA.MAX_CAMERA_DISTANCE
     < Mounted.distance Examples.meridianDistance Scenario.point moved
  /\ (exists s m,
        SA.sensorShadowRef (Mounted.state moved) = Some s
        /\ SS.isDestroyed s = false
        /\ SS.viewShadowMap s = Some m
        /\ SS.destroyed m = false)
  /\ SA.scene (Mounted.state moved) = SS.mkScene [0%nat] [0%nat] [0%nat] true
  /\ SA.sensorShadowRef
       (Mounted.state
          (Mounted.runEffect Scenario.fromDegreesEquator Scenario.enuEquator
             false false Examples.meridianDistance Scenario.props shader None
             moved)) = None.
Proof.
  intros shader created moved.
  assert (D1 : Mounted.distance Examples.meridianDistance Scenario.point
                 Examples.mountedNear = 1999)
    by (apply meridian_distance; lra).
  assert (D2 : Mounted.distance Examples.meridianDistance Scenario.point moved
               = 2001) by (apply meridian_distance; lra).
  destruct (new_equator Scenario.options
              (SS.mkSensorView 0 (- 0) 60 (Some 1000) 40) eq_refl eq_refl)
    as (w & m0 & Hw & _); [cbn; ring |].
  destruct (new_equator_world Scenario.options _ w eq_refl eq_refl
              ltac:(cbn; ring) Hw) as (Hsc & Hlive & m & Hm & Hmd).
  destruct (createShadowMap_after_new Scenario.fromDegreesEquator
              Scenario.enuEquator false false 0 Scenario.emptyScene
              Scenario.options w Hw) as [Hd Hup].
  assert (Ec : Mounted.state created
               = SA.mkState (SS.scene w) (Some (SS.self w)) 1).
  { unfold created, Mounted.runEffect. cbn [Mounted.state Mounted.viewer].
    unfold SA.effect. cbn [SA.isDeviceSelected Scenario.props negb].
    change (SA.sensorConfigOf Scenario.props) with (Some Scenario.options).
    cbn [SA.truthy shader andb negb].
    change (SA.cameraDistance Examples.meridianDistance
              (Mounted.viewer Examples.mountedNear) (SA.point Scenario.props))
      with (Mounted.distance Examples.meridianDistance Scenario.point
              Examples.mountedNear).
    rewrite D1. unfold Rltb, SA.MAX_CAMERA_DISTANCE.
    destruct (Rlt_dec 2000 1999) as [L | _]; [lra |].
    change (SA.cleanupSensorShadow (Mounted.state Examples.mountedNear))
      with Scenario.idleState.
    cbn [SA.nextId SA.scene Scenario.idleState].
    rewrite Hw. reflexivity. }
  assert (Em : Mounted.state moved = Mounted.state created).
  { unfold moved, Mounted.renderFrame, Mounted.moveCamera.
    cbn [Mounted.state Mounted.viewer]. rewrite Ec.
    unfold Lifecycle.frame, SS.update. cbn [SA.sensorShadowRef SA.scene SA.nextId].
    rewrite Hd. cbn [negb]. rewrite Hup. reflexivity. }
  split; [exact D1 |]. split; [exact D2 |].
  split; [rewrite D2; unfold SA.MAX_CAMERA_DISTANCE; lra |].
  split.
  { exists (SS.self w), m. rewrite Em, Ec. auto. }
  split; [rewrite Em, Ec; exact Hsc |].
  unfold Mounted.runEffect. cbn [Mounted.state].
  unfold SA.effect. cbn [SA.isDeviceSelected Scenario.props negb].
  change (SA.sensorConfigOf Scenario.props) with (Some Scenario.options).
  cbn [SA.truthy shader andb negb].
  change (SA.cameraDistance Examples.meridianDistance (Mounted.viewer moved)
            (SA.point Scenario.props))
    with (Mounted.distance Examples.meridianDistance Scenario.point moved).
  rewrite D2. unfold Rltb, SA.MAX_CAMERA_DISTANCE.
  destruct (Rlt_dec 2000 2001) as [_ | N]; [| lra].
  apply cleanup_clears.
Qed.

(** ** The caller: one sensor info for the shadow and for the frustum *)

Section Caller.

Variable fromDegrees : R -> R -> R -> Cartesian3.t.
Variable enu : Cartesian3.t -> Matrix3.t.
Variable smt ppt : bool.

(** X14.  MapDeviceEntity hands one sensor info and one point to
    SensorShadowArea and to FrustumVisualizer.  With a proper
    East-North-Up rotation and off the degenerate elevations, the camera
    of the shadow map looks along
    ENU (sin az cos el, cos az cos el, -sin el), while the direction vector
    of FrustumVisualizer's solver, the negated third column of its
    rotation, is ENU (-sin az cos el, -cos az cos el, -sin el): the two have
    the same vertical component and opposite horizontal components. *)
Theorem shadow_and_visualizer_directions
    (p : SA.Props) (i : SA.CurrentViewSensorInfo)
    (opts : SS.SensorShadowOptions) (ident : nat) (sc : SS.Scene)
    (w : SS.World) (m : SS.ShadowMap) :
  (forall pos, Geometry.rotation (enu pos)) ->
  SA.currentViewSensorInfo p = Some i ->
  CesiumMath.EPSILON10
  < cos (CesiumMath.toRadians (SA.elevation i))
    * cos (CesiumMath.toRadians (SA.elevation i)) ->
  SA.sensorConfigOf p = Some opts ->
  SS.new fromDegrees enu smt ppt ident sc opts = Ok w ->
  SS.viewShadowMap (SS.self w) = Some m ->
  let pos := fromDegrees (SS.lon (SA.point p)) (SS.lat (SA.point p))
                         (SS.hae (SA.point p)) in
  let a := CesiumMath.toRadians (SA.azimuth i) in
  let e := CesiumMath.toRadians (SA.elevation i) in
  let qv := FV.orientation (FV.normalizedAzimuth (SA.azimuth i))
              (FV.normalizedElevation (SA.elevation i)) (enu pos) in
  SS.position (SS._lightCamera m) = pos
  /\ SS.cameraDirection (SS._lightCamera m)
     = Matrix3.multiplyByVector (enu pos)
         (Cartesian3.mk (sin a * cos e) (cos a * cos e) (- sin e))
  /\ Cartesian3.negate (Matrix3.getColumn (Matrix3.fromQuaternion qv) 2)
     = Matrix3.multiplyByVector (enu pos)
         (Cartesian3.mk (- (sin a * cos e)) (- (cos a * cos e)) (- sin e)).
Proof.
  intros Henu Hi Heps Hcfg Hnew Hm pos a e qv.
  unfold SA.sensorConfigOf, SA.sensorConfig, SA.memoizedCurrentViewSensorInfo in Hcfg.
  rewrite Hi in Hcfg. cbn in Hcfg. injection Hcfg as <-.
  destruct (opposite_elevation (SA.elevation i)) as [Os Oc].
  destruct (shadow_solver_frame enu pos (SA.azimuth i) (- SA.elevation i)
              (rotation_orthonormal _ (Henu pos))) as [E _].
  cbv zeta in E. unfold SensorFrustum.localDirection in E.
  rewrite Os, Oc in E. fold a e in E.
  assert (Hcam : SS.position (SS._lightCamera m) = pos
                 /\ SS.cameraDirection (SS._lightCamera m)
                    = Matrix3.multiplyByVector (enu pos)
                        (Cartesian3.mk (sin a * cos e) (cos a * cos e) (- sin e))).
  { revert Hnew Hm. unfold SS.new, SS._addToScene, SS._createShadowMap.
    cbn [SS.self SS.scene SS._cameraPosition SS._initializeProperties
         SS.cameraPosition SA.cameraPosition SS.lon SS.lat SS.hae nullish].
    unfold SS.solverCall.
    cbn [SS._sensorParameters SS._initializeProperties SS.sensorParameters
         SS.azimuth SS.elevation nullish].
    fold pos. rewrite E. cbn [bind SS.direction SS.up SS.right].
    destruct (SS._createFrustum _ _) as [ar fr].
    intros H. injection H as <-.
    unfold SS._createNewShadowMap, SS.configureShadowMap, SS._addPostProcess,
      SS.primitivesAdd, SS._setupPreUpdateListener.
    destruct smt, ppt; cbn; intros Hm; try discriminate;
      injection Hm as <-; cbn; auto. }
  destruct Hcam as [Hp Hd].
  split; [exact Hp |]. split; [exact Hd |].
  destruct (visualizer_orientation_columns (enu pos) (Henu pos)
              (SA.azimuth i) (SA.elevation i) Heps) as (_ & _ & _ & _ & V).
  cbv zeta in V. unfold qv. rewrite V.
  rewrite <- multiplyByVector_negate. reflexivity.
Qed.

End Caller.

Lemma shadow_and_visualizer_directions_witness :
  exists w m,
    SS.new Scenario.fromDegreesEquator Scenario.enuEquator false false
      0 Scenario.emptyScene Scenario.options = Ok w
    /\ SS.viewShadowMap (SS.self w) = Some m
    /\ SS.position (SS._lightCamera m) = Scenario.fromDegreesEquator 0 0 0.
Proof.
  destruct (new_equator Scenario.options
              (SS.mkSensorView 0 (- 0) 60 (Some 1000) 40) eq_refl eq_refl)
    as (w & m & Hw & Hm); [cbn; ring |].
  exists w, m. split; [exact Hw |]. split; [exact Hm |].
  exact (proj1 (shadow_and_visualizer_directions Scenario.fromDegreesEquator
                  Scenario.enuEquator false false Scenario.props Scenario.info
                  Scenario.options 0 Scenario.emptyScene w m
                  (fun _ => eastNorthUp_rotation 0 0) eq_refl level_cos_sq
                  eq_refl Hw Hm)).
Defined.

(** ** The conventions of the shadow camera, end to end *)

Section Convention.

Variable fromDegrees : R -> R -> R -> Cartesian3.t.
Variable enu : Cartesian3.t -> Matrix3.t.
Variable smt ppt : bool.

(** C1, as amended.  Through SensorShadowArea the shadow-camera solver
    receives the azimuth unchanged (no offset of 180 degrees) and the
    elevation negated exactly once, by the caller; the solver negates
    nothing: its local direction is Variant A's formula at that azimuth and
    at the negated elevation.  End to end, with an orthonormal
    East-North-Up rotation, the solver returns, and the camera of the shadow
    map the constructor builds carries, the direction
    ENU (sin az cos el, cos az cos el, -sin el), the up vector
    ENU (sin az sin el, cos az sin el, cos el) and their cross product as
    right vector, for the azimuth and the elevation of the sensor info. *)
Theorem shadow_solver_convention
    (p : SA.Props) (i : SA.CurrentViewSensorInfo)
    (opts : SS.SensorShadowOptions) (ident : nat) :
  SA.currentViewSensorInfo p = Some i ->
  SA.sensorConfigOf p = Some opts ->
  let s := SS._initializeProperties fromDegrees ident opts in
  let pos := fromDegrees (SS.lon (SA.point p)) (SS.lat (SA.point p))
                         (SS.hae (SA.point p)) in
  let a := CesiumMath.toRadians (SA.azimuth i) in
  let e := CesiumMath.toRadians (SA.elevation i) in
  let d := Matrix3.multiplyByVector (enu pos)
             (Cartesian3.mk (sin a * cos e) (cos a * cos e) (- sin e)) in
  let u := Matrix3.multiplyByVector (enu pos)
             (Cartesian3.mk (sin a * sin e) (cos a * sin e) (cos e)) in
  SS.azimuth (SS._sensorParameters s) = SA.azimuth i
  /\ SS.elevation (SS._sensorParameters s) = - SA.elevation i
  /\ SS._cameraPosition s = Some pos
  /\ SS.solverCall enu s pos
     = SS._calculateCameraVectors enu pos (SA.azimuth i) (- SA.elevation i)
  /\ (exists localUpRotated,
        SS.localVectors (SA.azimuth i) (- SA.elevation i)
        = Ok (SensorFrustum.localDirection
                (CesiumMath.toRadians (SA.azimuth i))
                (CesiumMath.toRadians (- SA.elevation i)),
              localUpRotated))
  /\ (Geometry.orthonormal (enu pos) ->
      SS.solverCall enu s pos = Ok (SS.mkVectors d u (Cartesian3.cross d u))
      /\ forall (sc : SS.Scene) (w : SS.World) (m : SS.ShadowMap),
           SS.new fromDegrees enu smt ppt ident sc opts = Ok w ->
           SS.viewShadowMap (SS.self w) = Some m ->
           SS.position (SS._lightCamera m) = pos
           /\ SS.cameraDirection (SS._lightCamera m) = d
           /\ SS.cameraUp (SS._lightCamera m) = u
           /\ SS.cameraRight (SS._lightCamera m) = Cartesian3.cross d u).
Proof.
  intros Hi Hcfg s pos a e d u.
  unfold SA.sensorConfigOf, SA.sensorConfig, SA.memoizedCurrentViewSensorInfo in Hcfg.
  rewrite Hi in Hcfg. injection Hcfg as <-.
  assert (Hcall : SS.solverCall enu s pos
                  = SS._calculateCameraVectors enu pos (SA.azimuth i)
                      (- SA.elevation i)) by reflexivity.
  split; [reflexivity |]. split; [reflexivity |]. split; [reflexivity |].
  split; [exact Hcall |].
  split; [eexists; apply localVectors_closed_form |].
  intros Ho.
  destruct (shadow_solver_frame enu pos (SA.azimuth i) (- SA.elevation i) Ho)
    as [E _].
  cbv zeta in E. unfold SensorFrustum.localDirection in E.
  destruct (opposite_elevation (SA.elevation i)) as [Os Oc].
  rewrite Os, Oc in E. fold a e in E.
  replace (- sin a * - sin e) with (sin a * sin e) in E by ring.
  replace (- cos a * - sin e) with (cos a * sin e) in E by ring.
  fold d u in E.
  assert (Hv : SS.solverCall enu s pos
               = Ok (SS.mkVectors d u (Cartesian3.cross d u)))
    by (rewrite Hcall; exact E).
  split; [exact Hv |].
  intros sc w m Hnew Hm.
  destruct (new_closed_form fromDegrees enu smt ppt ident sc _ w Hnew)
    as (v & Hv' & Hs).
  cbv zeta in Hv', Hs.
  change (SS.solverCall enu s pos = Ok v) in Hv'.
  rewrite Hv in Hv'. injection Hv' as <-.
  rewrite Hs in Hm. shadow_fields_in Hm.
  destruct smt; [discriminate |]. injection Hm as <-.
  shadow_fields. repeat split.
Qed.

End Convention.

Lemma toRadians_30_degrees : CesiumMath.toRadians 30 = PI / 6.
Proof. unfold CesiumMath.toRadians, CesiumMath.RADIANS_PER_DEGREE. field. Qed.

(** A sensor on the equator raised by 30 degrees and pointing North: the
    shadow camera looks North and 30 degrees below the horizon. *)
Lemma shadow_solver_convention_witness :
  SA.currentViewSensorInfo Examples.raisedProps = Some Examples.raisedInfo
  /\ SA.sensorConfigOf Examples.raisedProps = Some Examples.raisedOptions
  /\ Geometry.orthonormal (Scenario.enuEquator Scenario.origin)
  /\ SS.elevation
       (SS._sensorParameters
          (SS._initializeProperties Scenario.fromDegreesEquator 0
             Examples.raisedOptions))
     = - 30
  /\ SS.solverCall Scenario.enuEquator
       (SS._initializeProperties Scenario.fromDegreesEquator 0
          Examples.raisedOptions)
       Scenario.origin
     = Ok (SS.mkVectors (Cartesian3.mk (- (1 / 2)) 0 (sqrt 3 / 2))
                        (Cartesian3.mk (sqrt 3 / 2) 0 (1 / 2))
                        (Cartesian3.mk 0 1 0)).
Proof.
  pose proof (equator_orthonormal Scenario.origin) as Ho.
  destruct (shadow_solver_convention Scenario.fromDegreesEquator
              Scenario.enuEquator false false Examples.raisedProps
              Examples.raisedInfo Examples.raisedOptions 0 eq_refl eq_refl)
    as (_ & He & _ & _ & _ & Hend).
  split; [reflexivity |]. split; [reflexivity |]. split; [exact Ho |].
  split; [exact He |].
  destruct (Hend Ho) as [Hv _].
  change (Scenario.fromDegreesEquator _ _ _) with Scenario.origin in Hv.
  rewrite Hv. clear Hv Hend He.
  cbn [SA.azimuth SA.elevation Examples.raisedInfo].
  unfold Scenario.enuEquator.
  rewrite enu_equator, toRadians_0, toRadians_30_degrees, sin_0, cos_0,
    sin_PI6, cos_PI6.
  assert (H3 : sqrt 3 * sqrt 3 = 3) by (apply sqrt_sqrt; lra).
  revert H3. generalize (sqrt 3). intros r H3.
  f_equal. unfold Cartesian3.cross, Matrix3.multiplyByVector.
  cbn [Cartesian3.x Cartesian3.y Cartesian3.z
       Matrix3.c0r0 Matrix3.c0r1 Matrix3.c0r2
       Matrix3.c1r0 Matrix3.c1r1 Matrix3.c1r2
       Matrix3.c2r0 Matrix3.c2r1 Matrix3.c2r2].
  f_equal; apply Cartesian3_ext;
    cbn [Cartesian3.x Cartesian3.y Cartesian3.z]; nra.
Defined.

(** C1 as stated fails: for azimuth 0 and elevation 0 the solver's local
    direction is (0,1,0), the North axis, whereas Variant A's formula at
    azimuth 0 + 180 gives (0,-1,0); on the equator the shadow camera looks
    North, (0,0,1), where the offset would make it look South. *)
Lemma shadow_azimuth_not_offset :
  SA.sensorConfigOf Scenario.props = Some Scenario.options
  /\ SS.localVectors (SA.azimuth Scenario.info) (- SA.elevation Scenario.info)
     = Ok (Cartesian3.mk 0 1 0, Cartesian3.mk 0 0 1)
  /\ SensorFrustum.localDirection
       (CesiumMath.toRadians (SA.azimuth Scenario.info + 180))
       (CesiumMath.toRadians (- SA.elevation Scenario.info))
     = Cartesian3.mk 0 (-1) 0
  /\ Cartesian3.mk 0 1 0 <> Cartesian3.mk 0 (-1) 0
  /\ SS.solverCall Scenario.enuEquator
       (SS._initializeProperties Scenario.fromDegreesEquator 0 Scenario.options)
       Scenario.origin
     = Ok (SS.mkVectors (Cartesian3.mk 0 0 1) (Cartesian3.mk 1 0 0)
                        (Cartesian3.mk 0 1 0))
  /\ Matrix3.multiplyByVector (Scenario.enuEquator Scenario.origin)
       (SensorFrustum.localDirection
          (CesiumMath.toRadians (SA.azimuth Scenario.info + 180))
          (CesiumMath.toRadians (- SA.elevation Scenario.info)))
     = Cartesian3.mk 0 0 (-1).
Proof.
  split; [reflexivity |].
  cbn [SA.azimuth SA.elevation Scenario.info].
  replace (- 0) with 0 by ring. replace (0 + 180) with 180 by ring.
  assert (L : SensorFrustum.localDirection (CesiumMath.toRadians 180)
                (CesiumMath.toRadians 0) = Cartesian3.mk 0 (-1) 0).
  { unfold SensorFrustum.localDirection.
    rewrite toRadians_180, toRadians_0, sin_PI, cos_PI, sin_0, cos_0.
    apply Cartesian3_ext; cbn; ring. }
  split; [| split; [exact L | split; [| split]]].
  - rewrite localVectors_closed_form. unfold SensorFrustum.localDirection.
    rewrite toRadians_0, sin_0, cos_0.
    f_equal. f_equal; apply Cartesian3_ext; cbn; ring.
  - intros E. apply (f_equal Cartesian3.y) in E. cbn in E. lra.
  - unfold SS.solverCall.
    cbn [SS._sensorParameters SS._initializeProperties SS.sensorParameters
         Scenario.options SS.azimuth SS.elevation nullish].
    apply solver_equator. ring.
  - rewrite L. unfold Scenario.enuEquator. rewrite enu_equator. vec_eval.
Qed.

(** ** A regular elevation on the equator *)

Lemma visualizer_degenerate_iff_witness :
  Geometry.orthonormal (Transforms.eastNorthUp 0 0)
  /\ ~ Degeneracy.inVisualizer 0 0 (Transforms.eastNorthUp 0 0).
Proof.
  pose proof (rotation_orthonormal _ (eastNorthUp_rotation 0 0)) as Ho.
  split; [exact Ho |].
  intros H.
  apply (proj1 (visualizer_degenerate_iff 0 0 (Transforms.eastNorthUp 0 0) Ho)) in H.
  rewrite toRadians_0, cos_0 in H. unfold CesiumMath.EPSILON10 in H. lra.
Defined.

(** ** The wrapper around the shader text *)

Section ShaderText.

Local Open Scope string_scope.

Lemma dropPrefix_app (prefix rest : string) :
  Shader.dropPrefix prefix (prefix ++ rest) = Some rest.
Proof.
  induction prefix as [| a p IH]; cbn; [reflexivity |].
  rewrite Ascii.eqb_refl. exact IH.
Qed.

Lemma replaceStart_wrapped (rest : string) :
  Shader.replaceStart (Shader.WRAPPER_START ++ rest) = rest.
Proof. unfold Shader.replaceStart. rewrite dropPrefix_app. reflexivity. Qed.

Lemma length_append (a b : string) :
  String.length (a ++ b) = (String.length a + String.length b)%nat.
Proof. induction a as [| c a IH]; cbn; [reflexivity | rewrite IH; reflexivity]. Qed.

Lemma append_assoc (a b c : string) : (a ++ b) ++ c = a ++ b ++ c.
Proof. induction a as [| x a IH]; cbn; [reflexivity | rewrite IH; reflexivity]. Qed.

Lemma app_not_short (body tail : string) :
  (2 <= String.length tail)%nat ->
  String.eqb (body ++ tail) EmptyString = false
  /\ String.eqb (body ++ tail) ";" = false.
Proof.
  intros H. split; apply String.eqb_neq; intros E;
    apply (f_equal String.length) in E;
    rewrite length_append in E; cbn in E; lia.
Qed.

Lemma replaceEnd_closed (body : string) :
  Shader.replaceEnd (body ++ "`;") = body
  /\ Shader.replaceEnd (body ++ "`") = body.
Proof.
  induction body as [| c rest [IH1 IH2]]; [split; reflexivity |].
  split; cbn.
  - destruct (app_not_short rest "`;") as [E1 E2]; [cbn; lia |].
    rewrite E1, E2, andb_false_r, IH1. reflexivity.
  - assert (E1 : String.eqb (rest ++ "`") EmptyString = false).
    { apply String.eqb_neq. destruct rest; discriminate. }
    assert (E2 : String.eqb (rest ++ "`") ";" = false).
    { apply String.eqb_neq. destruct rest as [| a [| b r]]; discriminate. }
    rewrite E1, E2, andb_false_r, IH2. reflexivity.
Qed.

(** A text whose last character is neither a backtick nor a semicolon is
    left as it is by the second replacement. *)
Lemma replaceEnd_other (body : string) (c : ascii) :
  c <> "`"%char -> c <> ";"%char ->
  Shader.replaceEnd (body ++ String c EmptyString) = body ++ String c EmptyString.
Proof.
  intros H1 H2. induction body as [| a rest IH]; cbn.
  - apply Ascii.eqb_neq in H1. rewrite H1. reflexivity.
  - assert (E1 : String.eqb (rest ++ String c EmptyString) EmptyString = false).
    { apply String.eqb_neq. destruct rest; discriminate. }
    assert (E2 : String.eqb (rest ++ String c EmptyString) ";" = false).
    { apply String.eqb_neq. destruct rest as [| b [| b' r]]; cbn; try discriminate.
      intros E. injection E as E. apply H2. exact E. }
    rewrite E1, E2, andb_false_r, IH. reflexivity.
Qed.

(** X20.  Stripping the wrapper is a left inverse of wrapping: whatever the
    shader source is, the text [export default `] + source + [`;], or the
    same without the semicolon, is stripped back to the source; and the
    stripped text counts as a loaded shader exactly when the source is not
    empty. *)
Theorem strip_wrapped (body : string) :
  Shader.strip (Shader.WRAPPER_START ++ body ++ "`;") = body
  /\ Shader.strip (Shader.WRAPPER_START ++ body ++ "`") = body
  /\ SA.truthy (Some (Shader.strip (Shader.WRAPPER_START ++ body ++ "`;")))
     = negb (String.eqb body EmptyString).
Proof.
  unfold Shader.strip. rewrite !replaceStart_wrapped.
  destruct (replaceEnd_closed body) as [E1 E2].
  rewrite E1, E2. split; [reflexivity |]. split; [reflexivity |].
  destruct body; reflexivity.
Qed.

(** X21.  The closing of the wrapper is only recognized at the very end of
    the text: when anything but a backtick or a semicolon follows it, a
    line feed for instance, the opening is removed and the closing
    backtick and semicolon stay in the shader text. *)
Theorem strip_trailing (body : string) (c : ascii) :
  c <> "`"%char -> c <> ";"%char ->
  Shader.strip (Shader.WRAPPER_START ++ body ++ "`;" ++ String c EmptyString)
  = body ++ "`;" ++ String c EmptyString.
Proof.
  intros H1 H2. unfold Shader.strip. rewrite replaceStart_wrapped.
  rewrite <- (append_assoc body "`;" (String c EmptyString)).
  apply replaceEnd_other; assumption.
Qed.

Lemma strip_trailing_witness :
  Shader.strip
    (Shader.WRAPPER_START ++ "void main() {}" ++ "`;"
     ++ String Examples.lineFeed EmptyString)
  = "void main() {}" ++ "`;" ++ String Examples.lineFeed EmptyString.
Proof.
  apply (strip_trailing "void main() {}" Examples.lineFeed); discriminate.
Defined.

End ShaderText.
